(** * Trading simulator engine of the ALPHA Finance backend (src/main.py)

    A shallow embedding of the simulator endpoints of [src/main.py]
    ([initialize_simulator], [get_simulator_state], [execute_trade],
    [get_trade_history], [update_stock_prices]) together with the helper
    [calculate_portfolio_value], and the properties of the specification
    that concern them.

    Modelling conventions.
    - Python [int] is [Z] (unbounded).  Python [float] is idealised as an
      exact rational [Q]: rounding, NaN and infinities are outside the
      model, and arithmetic statements are stated up to [Qeq] ([==]);
      the theorems that rest on this say "in exact arithmetic".
    - The exceptions of arithmetic are those of Python: [x / 0] raises
      [ZeroDivisionError], and an [int] operand that meets a [float]
      raises [OverflowError] when it lies beyond the doubles
      ([to_float]).
    - ["avg_price"] is typed [Any]: it holds the [int] literal of line 390
      or the [float] computed at line 396 ([Number]).
    - The process-wide registries [simulator_db] and [trades_db] form the
      [World]; every endpoint is a computation in the monad [M], which
      threads the world and may raise an exception.  When an exception is
      raised the world reached so far is kept: Python does not roll back.
    - [state = simulator_db[user_id]] is a reference to the stored object,
      so every assignment to a field of [state] writes through to the
      world.
    - [datetime.now()], [uuid.uuid4()] and [random.uniform] are ambient
      sources; their results are passed to the endpoints as arguments. *)

From Stdlib Require Import ZArith QArith Qround List String Sorted Permutation Lia.
From Stdlib Require Import Lqa.
From stdpp Require Import gmap strings list fin_maps.

Open Scope Z_scope.
Open Scope Q_scope.
Open Scope string_scope.

(** ** Numbers *)

(** Python's [x < y] on numbers. *)
Definition Qltb (x y : Q) : bool := negb (Qle_bool y x).

(** Python's [x == 0] on a rational. *)
Definition Qis_zero (x : Q) : bool := Qeq_bool x 0.

(** A number stored under a key typed [Any]: an [int] or a [float]. *)
Inductive Number :=
| PyInt (n : Z)
| PyFloat (x : Q).

Definition value (a : Number) : Q :=
  match a with
  | PyInt n => inject_Z n
  | PyFloat x => x
  end.
Coercion value : Number >-> Q.

(** ** Data model (lines 32-60) *)

(** [datetime] values are instants on a discrete clock. *)
Definition datetime : Type := Z.
Bind Scope Z_scope with datetime.

(** The inner dictionary [{"shares": int, "avg_price": float}] of a
    portfolio entry. *)
Record Holding := mkHolding {
  shares : Z;
  avg_price : Number
}.

(** [class TradingSimulatorState(BaseModel)] *)
Record TradingSimulatorState := mkState {
  user_id : string;
  level : string;
  balance : Q;
  initial_balance : Q;
  portfolio : gmap string Holding;
  stock_prices : gmap string Q;
  trade_count : Z;
  total_pnl : Q;
  created_at : datetime;
  last_updated : datetime
}.

(** [class TradeOrder(BaseModel)]; [order_type] defaults to ["market"] and
    [limit_price] to [None]. *)
Record TradeOrder := mkOrder {
  symbol : string;
  action : string;
  quantity : Z;
  order_type : string;
  limit_price : option Q
}.

(** [class TradeExecution(BaseModel)] *)
Record TradeExecution := mkTrade {
  te_id : string;
  te_user_id : string;
  te_symbol : string;
  te_action : string;
  te_quantity : Z;
  te_price : Q;
  te_total_value : Q;
  te_timestamp : datetime;
  te_order_type : string
}.

(** Field assignments [state.f = v]. *)
Definition set_balance (v : Q) (s : TradingSimulatorState) :=
  mkState (user_id s) (level s) v (initial_balance s) (portfolio s)
          (stock_prices s) (trade_count s) (total_pnl s) (created_at s)
          (last_updated s).

Definition set_portfolio (v : gmap string Holding) (s : TradingSimulatorState) :=
  mkState (user_id s) (level s) (balance s) (initial_balance s) v
          (stock_prices s) (trade_count s) (total_pnl s) (created_at s)
          (last_updated s).

Definition set_stock_prices (v : gmap string Q) (s : TradingSimulatorState) :=
  mkState (user_id s) (level s) (balance s) (initial_balance s) (portfolio s)
          v (trade_count s) (total_pnl s) (created_at s) (last_updated s).

Definition set_trade_count (v : Z) (s : TradingSimulatorState) :=
  mkState (user_id s) (level s) (balance s) (initial_balance s) (portfolio s)
          (stock_prices s) v (total_pnl s) (created_at s) (last_updated s).

Definition set_total_pnl (v : Q) (s : TradingSimulatorState) :=
  mkState (user_id s) (level s) (balance s) (initial_balance s) (portfolio s)
          (stock_prices s) (trade_count s) v (created_at s) (last_updated s).

Definition set_last_updated (v : datetime) (s : TradingSimulatorState) :=
  mkState (user_id s) (level s) (balance s) (initial_balance s) (portfolio s)
          (stock_prices s) (trade_count s) (total_pnl s) (created_at s) v.

(** ** The global tables (lines 86-101) *)

Definition STOCK_DATA : gmap string (list string) :=
  list_to_map
    [ ("beginner", ["AAPL"; "GOOGL"; "MSFT"; "AMZN"; "TSLA"]);
      ("intermediate",
        ["AAPL"; "GOOGL"; "MSFT"; "AMZN"; "TSLA"; "META"; "NVDA"; "JPM";
         "JNJ"; "V"; "PG"; "UNH"; "HD"; "MA"; "DIS"]);
      ("advanced",
        ["AAPL"; "GOOGL"; "MSFT"; "AMZN"; "TSLA"; "META"; "NVDA"; "JPM";
         "JNJ"; "V"; "PG"; "UNH"; "HD"; "MA"; "DIS"; "BAC"; "XOM"; "CVX";
         "LLY"; "ABBV"; "PFE"; "KO"; "PEP"; "TMO"; "COST"; "AVGO"; "LIN";
         "NKE"; "ACN"; "CRM"]) ].

Definition INITIAL_PRICES : gmap string Q :=
  list_to_map
    [ ("AAPL", 175.50); ("GOOGL", 142.80); ("MSFT", 378.90);
      ("AMZN", 145.30); ("TSLA", 248.70);
      ("META", 325.40); ("NVDA", 485.20); ("JPM", 178.60);
      ("JNJ", 162.40); ("V", 265.80);
      ("PG", 158.90); ("UNH", 542.30); ("HD", 356.70); ("MA", 398.50);
      ("DIS", 92.40);
      ("BAC", 34.20); ("XOM", 108.60); ("CVX", 146.80); ("LLY", 568.90);
      ("ABBV", 158.30);
      ("PFE", 28.60); ("KO", 62.40); ("PEP", 178.90); ("TMO", 542.60);
      ("COST", 689.30);
      ("AVGO", 892.40); ("LIN", 425.60); ("NKE", 108.90); ("ACN", 342.70);
      ("CRM", 256.80) ].

(** ** The world and the monad of endpoints *)

(** The in-memory storage of lines 103-107 that the simulator uses. *)
Record World := mkWorld {
  simulator_db : gmap string TradingSimulatorState;
  trades_db : list TradeExecution
}.

Inductive Exn :=
| HTTPException (status_code : Z) (detail : string)
| ZeroDivisionError
| OverflowError
| KeyError (key : string).

Inductive Outcome (A : Type) :=
| Return (a : A)
| Raise (e : Exn).
Arguments Return {A} a.
Arguments Raise {A} e.

Definition M (A : Type) : Type := World -> Outcome A * World.

Definition ret {A} (a : A) : M A := fun w => (Return a, w).

Definition raise {A} (e : Exn) : M A := fun w => (Raise e, w).

Definition bind {A B} (m : M A) (k : A -> M B) : M B :=
  fun w =>
    match m w with
    | (Return a, w') => k a w'
    | (Raise e, w') => (Raise e, w')
    end.

Declare Scope py_scope.
Delimit Scope py_scope with py.
Notation "x <- m ;; k" := (bind m (fun x => k))
  (at level 100, m at next level, k at level 200, right associativity)
  : py_scope.
Notation "m ;;; k" := (bind m (fun _ => k))
  (at level 100, k at level 200, right associativity) : py_scope.
Open Scope py_scope.

(** A computation that does not touch the world. *)
Definition lift {A} (o : Outcome A) : M A := fun w => (o, w).

(** [d[k]] on a dictionary: [KeyError] when the key is absent. *)
Definition getitem {V} (d : gmap string V) (k : string) : Outcome V :=
  match d !! k with
  | Some v => Return v
  | None => Raise (KeyError k)
  end.

(** [k in d] on a dictionary. *)
Definition contains {V} (d : gmap string V) (k : string) : bool :=
  bool_decide (is_Some (d !! k)).

(** [simulator_db] as seen by an endpoint. *)
Definition get_simulator_db : M (gmap string TradingSimulatorState) :=
  fun w => (Return (simulator_db w), w).

(** [simulator_db[uid] = st] *)
Definition store_state (uid : string) (st : TradingSimulatorState) : M unit :=
  fun w => (Return tt, mkWorld (<[uid := st]> (simulator_db w)) (trades_db w)).

(** Reading the object behind the reference [state = simulator_db[uid]]. *)
Definition deref (uid : string) : M TradingSimulatorState :=
  db <- get_simulator_db ;; lift (getitem db uid).

(** Writing a field of the object behind the reference. *)
Definition assign (uid : string)
    (f : TradingSimulatorState -> TradingSimulatorState) : M unit :=
  st <- deref uid ;; store_state uid (f st).

(** [trades_db.append(trade)] *)
Definition append_trade (t : TradeExecution) : M unit :=
  fun w => (Return tt, mkWorld (simulator_db w) (trades_db w ++ [t])).

Definition get_trades_db : M (list TradeExecution) :=
  fun w => (Return (trades_db w), w).

(** Python's [s in [a, b, c]] on strings. *)
Definition str_in (s : string) (l : list string) : bool :=
  existsb (String.eqb s) l.

(** Sequencing of computations that may raise and touch no state. *)
Definition obind {A B} (o : Outcome A) (k : A -> Outcome B) : Outcome B :=
  match o with
  | Return a => k a
  | Raise e => Raise e
  end.

Notation "x <~ o ;; k" := (obind o (fun x => k))
  (at level 100, o at next level, k at level 200, right associativity)
  : py_scope.

(** ** Arithmetic on [int] and [float] *)

(** An [int] operand of an operation with a [float] is converted to
    [float] first.  CPython rounds it to the nearest double and raises
    [OverflowError] ("int too large to convert to float") when that is
    out of range, which is the case from 2^1024 - 2^970 on in absolute
    value.  The converted value is taken exactly. *)
Definition float_limit : Z := (2 ^ 1024 - 2 ^ 970)%Z.

Definition in_float_range (n : Z) : bool := (Z.abs n <? float_limit)%Z.

Definition to_float (n : Z) : Outcome Q :=
  if in_float_range n then Return (inject_Z n) else Raise OverflowError.

(** [x * n] and [n * x] for a float [x] and an int [n]. *)
Definition mul_float_int (x : Q) (n : Z) : Outcome Q :=
  f <~ to_float n ;; Return (x * f).

Definition mul_int_float (n : Z) (x : Q) : Outcome Q :=
  f <~ to_float n ;; Return (f * x).

(** [n * a] for an int [n] and a stored number [a]: exact on two ints. *)
Definition mul_int_number (n : Z) (a : Number) : Outcome Number :=
  match a with
  | PyInt m => Return (PyInt (n * m))
  | PyFloat x => y <~ mul_int_float n x ;; Return (PyFloat y)
  end.

(** [a + y] for a number [a] and a float [y]. *)
Definition add_number_float (a : Number) (y : Q) : Outcome Q :=
  match a with
  | PyInt n => f <~ to_float n ;; Return (f + y)
  | PyFloat x => Return (x + y)
  end.

(** Python's [x / y] on floats. *)
Definition truediv (x y : Q) : Outcome Q :=
  if Qis_zero y then Raise ZeroDivisionError else Return (x / y).

(** [x / n] for a float [x] and an int [n]: the conversion comes before
    the test for zero. *)
Definition div_float_int (x : Q) (n : Z) : Outcome Q :=
  f <~ to_float n ;; truediv x f.

(** ** [calculate_portfolio_value] (lines 156-162) *)

(** The loop body of lines 160-161: [shares] is an int and the price a
    float. *)
Definition add_holding (stock_prices : gmap string Q) (symbol : string)
    (holdings : Holding) (total : Q) : Outcome Q :=
  match stock_prices !! symbol with
  | Some price =>
      v <~ mul_int_float (shares holdings) price ;;
      Return (total + v)
  | None => Return total
  end.

Definition calculate_portfolio_value
    (portfolio : gmap string Holding) (stock_prices : gmap string Q)
    : Outcome Q :=
  map_fold
    (fun symbol holdings acc =>
       total <~ acc ;; add_holding stock_prices symbol holdings total)
    (Return 0) portfolio.

(** ** [initialize_simulator] (lines 297-330) *)

Record InitResponse := mkInitResponse {
  ir_message : string;
  ir_level : string;
  ir_initial_balance : Z;
  ir_available_stocks : list string;
  ir_stock_prices : gmap string Q
}.

Definition initial_balances : gmap string Z :=
  list_to_map [("beginner", 2000%Z); ("intermediate", 5000%Z);
               ("advanced", 10000%Z)].

(** [{symbol: INITIAL_PRICES[symbol] for symbol in available_stocks}] *)
Fixpoint price_comprehension (available_stocks : list string)
    (acc : gmap string Q) : M (gmap string Q) :=
  match available_stocks with
  | [] => ret acc
  | symbol :: rest =>
      p <- lift (getitem INITIAL_PRICES symbol) ;;
      price_comprehension rest (<[symbol := p]> acc)
  end.

Definition initialize_simulator (user_id level : string)
    (now1 now2 : datetime) : M InitResponse :=
  if negb (str_in level ["beginner"; "intermediate"; "advanced"]) then
    raise (HTTPException 400 "Invalid level")
  else
    initial_balance <- lift (getitem initial_balances level) ;;
    available_stocks <- lift (getitem STOCK_DATA level) ;;
    stock_prices <- price_comprehension available_stocks ∅ ;;
    let simulator_state :=
      mkState user_id level (inject_Z initial_balance)
              (inject_Z initial_balance) ∅ stock_prices 0 0 now1 now2 in
    store_state user_id simulator_state ;;;
    ret (mkInitResponse "Simulator initialized successfully" level
           initial_balance available_stocks stock_prices).

(** ** [get_simulator_state] (lines 332-355) *)

Record StateResponse := mkStateResponse {
  sr_user_id : string;
  sr_level : string;
  sr_balance : Q;
  sr_portfolio : gmap string Holding;
  sr_stock_prices : gmap string Q;
  sr_portfolio_value : Q;
  sr_total_value : Q;
  sr_initial_balance : Q;
  sr_pnl : Q;
  sr_trade_count : Z;
  sr_last_updated : datetime
}.

Definition get_simulator_state (user_id : string) : M StateResponse :=
  db <- get_simulator_db ;;
  if negb (contains db user_id) then
    raise (HTTPException 404 "Simulator not initialized")
  else
    state <- deref user_id ;;
    portfolio_value <-
      lift (calculate_portfolio_value (portfolio state) (stock_prices state)) ;;
    let total_value := balance state + portfolio_value in
    let pnl := total_value - initial_balance state in
    ret (mkStateResponse user_id (level state) (balance state)
           (portfolio state) (stock_prices state) portfolio_value
           total_value (initial_balance state) pnl (trade_count state)
           (last_updated state)).

(** ** [execute_trade] (lines 357-454) *)

(** The ["trade"] entry of the response. *)
Record TradeInfo := mkTradeInfo {
  ti_id : string;
  ti_symbol : string;
  ti_action : string;
  ti_quantity : Z;
  ti_price : Q;
  ti_total_value : Q
}.

Record TradeResponse := mkTradeResponse {
  tr_message : string;
  tr_trade : TradeInfo;
  tr_new_balance : Q;
  tr_portfolio : gmap string Holding;
  tr_total_value : Q;
  tr_pnl : Q
}.

(** Lines 370-379: the price at which the order executes. *)
Definition execution_price_of (order : TradeOrder) (current_price : Q)
    : Outcome Q :=
  if order_type order =? "limit" then
    match limit_price order with
    | None => Raise (HTTPException 400 "Limit price required for limit orders")
    | Some limit =>
        if ((action order =? "buy") && Qltb limit current_price)
           || ((action order =? "sell") && Qltb current_price limit)
        then Raise (HTTPException 400 "Market price not favorable for limit order")
        else Return limit
    end
  else Return current_price.

(** Lines 385-401: the [buy] branch; [state] is the reference
    [simulator_db[user_id]].  Line 396 is evaluated operand by operand:
    [current_shares * current_avg], [order.quantity * execution_price],
    their sum and the quotient by [new_shares]. *)
Definition execute_buy (state : string) (order : TradeOrder)
    (execution_price total_value : Q) : M unit :=
  st <- deref state ;;
  if Qltb (balance st) total_value then
    raise (HTTPException 400 "Insufficient balance")
  else
    assign state (fun s => set_balance (balance s - total_value) s) ;;;
    st <- deref state ;;
    (if negb (contains (portfolio st) (symbol order)) then
       assign state
         (fun s => set_portfolio
                     (<[symbol order := mkHolding 0 (PyInt 0)]> (portfolio s)) s)
     else ret tt) ;;;
    st <- deref state ;;
    h <- lift (getitem (portfolio st) (symbol order)) ;;
    let current_shares := shares h in
    let current_avg := avg_price h in
    let new_shares := (current_shares + quantity order)%Z in
    held <- lift (mul_int_number current_shares current_avg) ;;
    paid <- lift (mul_int_float (quantity order) execution_price) ;;
    cost <- lift (add_number_float held paid) ;;
    new_avg <- lift (div_float_int cost new_shares) ;;
    assign state
      (fun s => set_portfolio
                  (<[symbol order := mkHolding new_shares (PyFloat new_avg)]>
                     (portfolio s)) s).

(** Lines 404-412: the [sell] branch. *)
Definition execute_sell (state : string) (order : TradeOrder)
    (total_value : Q) : M unit :=
  st <- deref state ;;
  insufficient <-
    (if negb (contains (portfolio st) (symbol order)) then ret true
     else h <- lift (getitem (portfolio st) (symbol order)) ;;
          ret (shares h <? quantity order)%Z) ;;
  if (insufficient : bool) then
    raise (HTTPException 400 "Insufficient shares")
  else
    assign state (fun s => set_balance (balance s + total_value) s) ;;;
    st <- deref state ;;
    h <- lift (getitem (portfolio st) (symbol order)) ;;
    assign state
      (fun s => set_portfolio
                  (<[symbol order :=
                       mkHolding (shares h - quantity order) (avg_price h)]>
                     (portfolio s)) s) ;;;
    st <- deref state ;;
    h <- lift (getitem (portfolio st) (symbol order)) ;;
    if (shares h =? 0)%Z then
      assign state (fun s => set_portfolio (delete (symbol order) (portfolio s)) s)
    else ret tt.

(** Lines 417-454: journal entry, counters and the response.  The
    response reuses the name [total_value], which by then holds the value
    of the whole account (line 436). *)
Definition record_trade (user_id : string) (order : TradeOrder)
    (execution_price total_value : Q) (trade_id : string)
    (now1 now2 : datetime) : M TradeResponse :=
  let state := user_id in
  let trade :=
    mkTrade trade_id user_id (symbol order) (action order)
            (quantity order) execution_price total_value now1
            (order_type order) in
  append_trade trade ;;;
  assign state (fun s => set_trade_count (trade_count s + 1) s) ;;;
  assign state (set_last_updated now2) ;;;
  st <- deref state ;;
  portfolio_value <-
    lift (calculate_portfolio_value (portfolio st) (stock_prices st)) ;;
  let total_value := balance st + portfolio_value in
  let pnl := total_value - initial_balance st in
  assign state (set_total_pnl pnl) ;;;
  st <- deref state ;;
  ret (mkTradeResponse "Trade executed successfully"
         (mkTradeInfo (te_id trade) (symbol order) (action order)
                      (quantity order) execution_price total_value)
         (balance st) (portfolio st) total_value pnl).

(** [trade_id] is the fresh [uuid4], [now1] the timestamp of the journal
    entry and [now2] the one stored in [last_updated]. *)
Definition execute_trade (user_id : string) (order : TradeOrder)
    (trade_id : string) (now1 now2 : datetime) : M TradeResponse :=
  db <- get_simulator_db ;;
  if negb (contains db user_id) then
    raise (HTTPException 404 "Simulator not initialized")
  else
    let state := user_id in
    st <- deref state ;;
    if negb (contains (stock_prices st) (symbol order)) then
      raise (HTTPException 400 "Stock not available")
    else
      current_price <- lift (getitem (stock_prices st) (symbol order)) ;;
      execution_price <- lift (execution_price_of order current_price) ;;
      total_value <- lift (mul_float_int execution_price (quantity order)) ;;
      (if action order =? "buy" then
         execute_buy state order execution_price total_value
       else if action order =? "sell" then
         execute_sell state order total_value
       else raise (HTTPException 400 "Invalid action")) ;;;
      record_trade user_id order execution_price total_value trade_id
                   now1 now2.

(** ** [get_trade_history] (lines 456-466) *)

Record HistoryResponse := mkHistoryResponse {
  hr_user_id : string;
  hr_trades : list TradeExecution;
  hr_total_trades : Z
}.

(** [list.sort(key=lambda x: x.timestamp, reverse=True)]: a stable sort,
    entries with equal timestamps keep their relative order. *)
Fixpoint insert_desc (t : TradeExecution) (l : list TradeExecution)
    : list TradeExecution :=
  match l with
  | [] => [t]
  | u :: l' =>
      if (te_timestamp u <=? te_timestamp t)%Z then t :: u :: l'
      else u :: insert_desc t l'
  end.

Definition sort_by_timestamp_desc (l : list TradeExecution)
    : list TradeExecution :=
  foldr insert_desc [] l.

(** Python's slice [l[:limit]]; a negative [limit] counts from the end. *)
Definition slice_to {A} (l : list A) (limit : Z) : list A :=
  if (0 <=? limit)%Z then take (Z.to_nat limit) l
  else take (Z.to_nat (Z.of_nat (length l) + limit)) l.

(** The query parameter [limit: int = 50] is [None] when it is not given. *)
Definition get_trade_history (user_id : string) (limit : option Z)
    : M HistoryResponse :=
  let limit := default 50%Z limit in
  trades <- get_trades_db ;;
  let user_trades :=
    filter (fun trade => te_user_id trade = user_id) trades in
  let user_trades := sort_by_timestamp_desc user_trades in
  ret (mkHistoryResponse user_id (slice_to user_trades limit)
         (Z.of_nat (length user_trades))).

(** ** [simulate_price_change] and [update_stock_prices]
    (lines 151-154 and 468-488) *)

(** [round(x, 0)] on an exact rational, ties to even. *)
Definition round_half_even (x : Q) : Z :=
  let f := Qfloor x in
  let r := x - inject_Z f in
  if Qltb r (1 # 2) then f
  else if Qltb (1 # 2) r then (f + 1)%Z
  else if Z.even f then f else (f + 1)%Z.

(** [round(x, 2)] *)
Definition round2 (x : Q) : Q := inject_Z (round_half_even (x * 100)) / 100.

(** [change_percent] stands for the draw [random.uniform(-0.02, 0.02)]. *)
Definition simulate_price_change (current_price change_percent : Q) : Q :=
  round2 (current_price * (1 + change_percent)).

Record PricesResponse := mkPricesResponse {
  pr_message : string;
  pr_old_prices : gmap string Q;
  pr_new_prices : gmap string Q;
  pr_timestamp : datetime
}.

(** [draw symbol] is the random draw made when the loop visits [symbol]. *)
Definition update_stock_prices (user_id : string) (draw : string -> Q)
    (now : datetime) : M PricesResponse :=
  db <- get_simulator_db ;;
  if negb (contains db user_id) then
    raise (HTTPException 404 "Simulator not initialized")
  else
    let state := user_id in
    st <- deref state ;;
    let old_prices := stock_prices st in
    assign state
      (fun s => set_stock_prices
                  (map_imap (fun symbol p =>
                               Some (simulate_price_change p (draw symbol)))
                            (stock_prices s)) s) ;;;
    assign state (set_last_updated now) ;;;
    st <- deref state ;;
    ret (mkPricesResponse "Stock prices updated" old_prices
           (stock_prices st) (last_updated st)).

(** ** Requests: the call surface of the simulator *)

Inductive Request :=
| Initialize (user_id level : string) (now1 now2 : datetime)
| GetState (user_id : string)
| Trade (user_id : string) (order : TradeOrder) (trade_id : string)
        (now1 now2 : datetime)
| History (user_id : string) (limit : option Z)
| UpdatePrices (user_id : string) (draw : string -> Q) (now : datetime).

(** The world after a request, whether it returned or raised. *)
Definition handle (r : Request) (w : World) : World :=
  match r with
  | Initialize u l n1 n2 => snd (initialize_simulator u l n1 n2 w)
  | GetState u => snd (get_simulator_state u w)
  | Trade u o i n1 n2 => snd (execute_trade u o i n1 n2 w)
  | History u l => snd (get_trade_history u l w)
  | UpdatePrices u d n => snd (update_stock_prices u d n w)
  end.

Definition handle_all (rs : list Request) (w : World) : World :=
  foldl (fun w r => handle r w) w rs.

(** The world at process start. *)
Definition empty_world : World := mkWorld ∅ [].

(** ** Vocabulary of the specification *)

(** The failure modes of section 7, as the exceptions the code raises. *)
Definition AccountNotInitialized : Exn := HTTPException 404 "Simulator not initialized".
Definition InvalidLevel : Exn := HTTPException 400 "Invalid level".
Definition SymbolNotTradeable : Exn := HTTPException 400 "Stock not available".
Definition MissingLimitPrice : Exn :=
  HTTPException 400 "Limit price required for limit orders".
Definition UnfavorablePrice : Exn :=
  HTTPException 400 "Market price not favorable for limit order".
Definition InsufficientBalance : Exn := HTTPException 400 "Insufficient balance".
Definition InsufficientShares : Exn := HTTPException 400 "Insufficient shares".
Definition InvalidAction : Exn := HTTPException 400 "Invalid action".

(** The holding of [sym] as the buy branch reads it: an absent entry is
    first created as [{"shares": 0, "avg_price": 0}] (line 390). *)
Definition holding_of (st : TradingSimulatorState) (sym : string) : Holding :=
  match portfolio st !! sym with
  | Some h => h
  | None => mkHolding 0 (PyInt 0)
  end.

(** The session after lines 388-390 of a buy. *)
Definition debited (st : TradingSimulatorState) (sym : string) (total_value : Q)
    : TradingSimulatorState :=
  set_portfolio (<[sym := holding_of st sym]> (portfolio st))
                (set_balance (balance st - total_value) st).

(** Line 396. *)
Definition new_average (h : Holding) (q : Z) (p : Q) : Q :=
  (inject_Z (shares h) * avg_price h + inject_Z q * p)
  / inject_Z (shares h + q).

(** Whether the int operands of line 396 convert for a buy of [q] shares
    on top of the holding [h]: the held shares (their product with an
    int average) and the new share count. *)
Definition buy_converts (h : Holding) (q : Z) : bool :=
  match avg_price h with
  | PyInt n => in_float_range (shares h * n)
  | PyFloat _ => in_float_range (shares h)
  end
  && in_float_range (shares h + q).

(** The session after a buy of [q] shares at [p] that went through. *)
Definition bought (st : TradingSimulatorState) (sym : string) (q : Z) (p : Q)
    : TradingSimulatorState :=
  let h := holding_of st sym in
  set_portfolio
    (<[sym := mkHolding (shares h + q) (PyFloat (new_average h q p))]>
       (portfolio st))
    (set_balance (balance st - p * inject_Z q) st).

(** The session after a sell of [q] shares of the holding [h] at [p]. *)
Definition sold (st : TradingSimulatorState) (sym : string) (h : Holding)
    (q : Z) (p : Q) : TradingSimulatorState :=
  set_portfolio
    (if (shares h - q =? 0)%Z then delete sym (portfolio st)
     else <[sym := mkHolding (shares h - q) (avg_price h)]> (portfolio st))
    (set_balance (balance st + p * inject_Z q) st).

(** The sum that lines 158-162 return when no conversion overflows. *)
Definition holdings_value (portfolio : gmap string Holding)
    (stock_prices : gmap string Q) : Q :=
  map_fold
    (fun symbol holdings total =>
       match stock_prices !! symbol with
       | Some price => total + inject_Z (shares holdings) * price
       | None => total
       end)
    0 portfolio.

(** Every holding with a price has a share count within the doubles. *)
Definition holdings_convert (portfolio : gmap string Holding)
    (stock_prices : gmap string Q) : Prop :=
  forall s h,
    portfolio !! s = Some h -> is_Some (stock_prices !! s) ->
    in_float_range (shares h) = true.

(** The account value and the profit of a session (lines 435-437 and
    339-341). *)
Definition account_value (st : TradingSimulatorState) : Q :=
  balance st + holdings_value (portfolio st) (stock_prices st).

Definition account_pnl (st : TradingSimulatorState) : Q :=
  account_value st - initial_balance st.

(** The session after lines 432-433. *)
Definition counted (now2 : datetime) (st : TradingSimulatorState)
    : TradingSimulatorState :=
  set_last_updated now2 (set_trade_count (trade_count st + 1) st).

(** The session after lines 432-438. *)
Definition recorded (now2 : datetime) (st : TradingSimulatorState)
    : TradingSimulatorState :=
  set_total_pnl (account_pnl st) (counted now2 st).

(** The journal entry of lines 418-428. *)
Definition trade_of (user_id : string) (order : TradeOrder) (p : Q)
    (trade_id : string) (now1 : datetime) : TradeExecution :=
  mkTrade trade_id user_id (symbol order) (action order) (quantity order)
          p (p * inject_Z (quantity order)) now1 (order_type order).

(** The response of lines 440-454 for the session [st] reached. *)
Definition response_of (order : TradeOrder) (p : Q) (trade_id : string)
    (st : TradingSimulatorState) : TradeResponse :=
  mkTradeResponse "Trade executed successfully"
    (mkTradeInfo trade_id (symbol order) (action order) (quantity order) p
                 (account_value st))
    (balance st) (portfolio st) (account_value st) (account_pnl st).

(** The decision tree of [execute_trade]: which exception it raises, or
    which session, journal entry and response it produces.  It is proved
    equal to [execute_trade] below ([execute_trade_tree]). *)
Definition trade_tree (user_id : string) (order : TradeOrder)
    (trade_id : string) (now1 now2 : datetime) (w : World)
    : Outcome TradeResponse * World :=
  match simulator_db w !! user_id with
  | None => (Raise AccountNotInitialized, w)
  | Some st =>
      match stock_prices st !! symbol order with
      | None => (Raise SymbolNotTradeable, w)
      | Some current_price =>
          match execution_price_of order current_price with
          | Raise e => (Raise e, w)
          | Return p =>
              let sym := symbol order in
              let q := quantity order in
              let total_value := p * inject_Z q in
              let journal :=
                (trades_db w ++ [trade_of user_id order p trade_id now1])%list in
              let finish st' :=
                match calculate_portfolio_value (portfolio st')
                                                (stock_prices st') with
                | Return _ =>
                    (Return (response_of order p trade_id (recorded now2 st')),
                     mkWorld (<[user_id := recorded now2 st']> (simulator_db w))
                             journal)
                | Raise e =>
                    (Raise e,
                     mkWorld (<[user_id := counted now2 st']> (simulator_db w))
                             journal)
                end in
              let stuck e :=
                (Raise e,
                 mkWorld (<[user_id := debited st sym total_value]> (simulator_db w))
                         (trades_db w)) in
              if negb (in_float_range q) then (Raise OverflowError, w)
              else if action order =? "buy" then
                if Qltb (balance st) total_value then
                  (Raise InsufficientBalance, w)
                else if negb (buy_converts (holding_of st sym) q) then
                  stuck OverflowError
                else if (shares (holding_of st sym) + q =? 0)%Z then
                  stuck ZeroDivisionError
                else finish (bought st sym q p)
              else if action order =? "sell" then
                match portfolio st !! sym with
                | None => (Raise InsufficientShares, w)
                | Some h =>
                    if (shares h <? q)%Z then (Raise InsufficientShares, w)
                    else finish (sold st sym h q p)
                end
              else (Raise InvalidAction, w)
          end
      end
  end.

(** The order went through lines 384-412 on the session [st] at the price
    [p] and left the session [st1]: a buy that the balance covers, whose
    operands convert and whose new share count is not 0, or a sell of at
    most the shares held. *)
Definition traded (st : TradingSimulatorState) (order : TradeOrder) (p : Q)
    (st1 : TradingSimulatorState) : Prop :=
  let sym := symbol order in
  let q := quantity order in
  (action order = "buy" /\
   p * inject_Z q <= balance st /\
   buy_converts (holding_of st sym) q = true /\
   (shares (holding_of st sym) + q)%Z <> 0%Z /\
   st1 = bought st sym q p) \/
  (action order = "sell" /\
   exists h,
     portfolio st !! sym = Some h /\
     (q <= shares h)%Z /\
     st1 = sold st sym h q p).

(** The seed balance of a level (line 304), [None] for an unknown level. *)
Definition seed_balance (level : string) : option Z := initial_balances !! level.

(** The symbol universe of a level (lines 87-91). *)
Definition universe (level : string) : list string :=
  default [] (STOCK_DATA !! level).

(** The session that [initialize_simulator] stores for a known level. *)
Definition fresh_session (user_id level : string) (seed : Z)
    (prices : gmap string Q) (now1 now2 : datetime) : TradingSimulatorState :=
  mkState user_id level (inject_Z seed) (inject_Z seed) ∅ prices 0 0 now1 now2.

(** The levels that [initialize_simulator] accepts (line 300). *)
Definition valid_levels : list string := ["beginner"; "intermediate"; "advanced"].

(** The validation failures of an order (section 7). *)
Definition validation_failure (e : Exn) : Prop :=
  In e [AccountNotInitialized; SymbolNotTradeable; MissingLimitPrice;
        UnfavorablePrice; InsufficientBalance; InsufficientShares;
        InvalidAction].

(** A beginner account right after initialisation, and some orders on it. *)
Definition beginner_world : World :=
  handle (Initialize "u" "beginner" 0 0) empty_world.

Definition market_order (action symbol : string) (quantity : Z) : TradeOrder :=
  mkOrder symbol action quantity "market" None.

Definition limit_order (action symbol : string) (quantity : Z) (limit : Q)
    : TradeOrder :=
  mkOrder symbol action quantity "limit" (Some limit).

(** The value of the holdings as the specification words it: the sum over
    the holdings of shares times current price, a symbol without a price
    counting for 0. *)
Definition market_value (portfolio : gmap string Holding)
    (prices : gmap string Q) : Q :=
  foldr Qplus 0
    ((fun e : string * Holding =>
        inject_Z (shares e.2) * default 0 (prices !! e.1))
     <$> map_to_list portfolio).

(** What a history query computes from the journal. *)
Definition history_of (user_id : string) (journal : list TradeExecution)
    : list TradeExecution :=
  sort_by_timestamp_desc (filter (fun t => te_user_id t = user_id) journal).



(** The seeded prices of the beginner universe, and the session of
    [beginner_world]. *)
Definition beginner_prices : gmap string Q :=
  list_to_map [("AAPL", 175.50); ("GOOGL", 142.80); ("MSFT", 378.90);
               ("AMZN", 145.30); ("TSLA", 248.70)].

Definition beginner_session : TradingSimulatorState :=
  fresh_session "u" "beginner" 2000 beginner_prices 0 0.

(** [beginner_world] after a market buy of five AAPL shares. *)
Definition holder_world : World :=
  handle (Trade "u" (market_order "buy" "AAPL" 5) "t1" 1 1) beginner_world.

Definition holder_session : TradingSimulatorState :=
  recorded 1 (bought beginner_session "AAPL" 5 175.50).

(** The session [st] holds fewer than [q] shares of [sym], or none. *)
Definition holds_less (st : TradingSimulatorState) (sym : string) (q : Z)
    : Prop :=
  match portfolio st !! sym with
  | None => True
  | Some h => (shares h < q)%Z
  end.

(** The oversell rule in its unconditional reading: every sell order for
    more than is held is turned down for insufficient shares. *)
Definition oversell_rule_always (user_id : string) (order : TradeOrder)
    (trade_id : string) (now1 now2 : datetime) (w : World)
    (st : TradingSimulatorState) : Prop :=
  simulator_db w !! user_id = Some st ->
  action order = "sell" ->
  holds_less st (symbol order) (quantity order) ->
  execute_trade user_id order trade_id now1 now2 w
  = (Raise InsufficientShares, w).

(** Shares bought and cost paid over a list of journal entries. *)
Definition total_shares (ts : list TradeExecution) : Z :=
  foldr (fun t acc => (te_quantity t + acc)%Z) 0%Z ts.

Definition total_cost (ts : list TradeExecution) : Q :=
  foldr (fun t acc => inject_Z (te_quantity t) * te_price t + acc) 0 ts.

(** A request that is neither a trade of [uid] on [sym] nor a
    re-initialisation of [uid]. *)
Definition bystander (uid sym : string) (r : Request) : Prop :=
  match r with
  | Initialize u _ _ _ => u <> uid
  | Trade u o _ _ _ => u <> uid \/ symbol o <> sym
  | GetState _ | History _ _ | UpdatePrices _ _ _ => True
  end.

(** [buy_run uid sym w ts w']: from [w] to [w'] through requests among
    which the trades of [uid] on [sym] are buys that fill; [ts] lists
    their journal entries, oldest first. *)
Inductive buy_run (uid sym : string)
    : World -> list TradeExecution -> World -> Prop :=
| buy_run_start w : buy_run uid sym w [] w
| buy_run_buy w ts w1 order tid now1 now2 r w2 t :
    buy_run uid sym w ts w1 ->
    symbol order = sym ->
    action order = "buy" ->
    execute_trade uid order tid now1 now2 w1 = (Return r, w2) ->
    trades_db w2 = (trades_db w1 ++ [t])%list ->
    buy_run uid sym w (ts ++ [t])%list w2
| buy_run_other w ts w1 req :
    buy_run uid sym w ts w1 ->
    bystander uid sym req ->
    buy_run uid sym w ts (handle req w1).

(** The journal entries of the buys of [uid] on [sym]. *)
Definition buys_of (uid sym : string) (journal : list TradeExecution)
    : list TradeExecution :=
  filter (fun t => te_user_id t = uid /\ te_symbol t = sym /\ te_action t = "buy")
         journal.

(** The weighted-average rule read over every buy in the journal: the
    average cost of the holding is the cost of all buys of [uid] on [sym]
    divided by the shares they bought. *)
Definition average_over_all_buys (uid sym : string) (w : World) : Prop :=
  forall st h,
    simulator_db w !! uid = Some st ->
    portfolio st !! sym = Some h ->
    avg_price h
    == total_cost (buys_of uid sym (trades_db w))
       / inject_Z (total_shares (buys_of uid sym (trades_db w))).

(** Two limit buys of AAPL on [beginner_world], with and without a partial
    sell in between. *)
Definition first_buy : Request :=
  Trade "u" (limit_order "buy" "AAPL" 2 180) "t1" 1 1.
Definition partial_sell : Request :=
  Trade "u" (market_order "sell" "AAPL" 1) "t2" 2 2.
Definition second_buy : Request :=
  Trade "u" (limit_order "buy" "AAPL" 1 200) "t3" 3 3.

(** Newest first, ties allowed / not allowed. *)
Definition newer_or_same (t u : TradeExecution) : Prop :=
  (te_timestamp u <= te_timestamp t)%Z.

Definition strictly_newer (t u : TradeExecution) : Prop :=
  (te_timestamp u < te_timestamp t)%Z.

(** The history rule read for every integer [limit]: the page holds only
    trades of [uid], strictly newest first, at most [limit] of them, and
    the count is the number of trades of [uid] in the journal. *)
Definition history_rule_any_limit (uid : string) (limit : Z) (w : World)
    : Prop :=
  forall r w',
    get_trade_history uid (Some limit) w = (Return r, w') ->
    Forall (fun t => te_user_id t = uid) (hr_trades r) /\
    StronglySorted strictly_newer (hr_trades r) /\
    (Z.of_nat (length (hr_trades r)) <= limit)%Z /\
    hr_total_trades r
    = Z.of_nat (length (filter (fun t => te_user_id t = uid) (trades_db w))).

(** A journal of two trades with distinct timestamps, and one of two
    trades made at the same instant. *)
Definition two_trades_world : World :=
  handle (Trade "u" (market_order "buy" "AAPL" 1) "t2" 2 2)
    (handle (Trade "u" (market_order "buy" "AAPL" 1) "t1" 1 1) beginner_world).

Definition same_instant_world : World :=
  handle (Trade "u" (market_order "buy" "AAPL" 1) "t2" 1 1)
    (handle (Trade "u" (market_order "buy" "AAPL" 1) "t1" 1 1) beginner_world).

(** Requests that take the balance of a fresh beginner account below
    zero: a buy of one share, then a limit sell of it at a negative
    price; or the same buy, then a market sell of a negative quantity. *)
Definition negative_price_requests : list Request :=
  [ Initialize "u" "beginner" 0 0;
    Trade "u" (market_order "buy" "AAPL" 1) "t1" 1 1;
    Trade "u" (limit_order "sell" "AAPL" 1 (-5000)) "t2" 2 2 ].

Definition negative_quantity_requests : list Request :=
  [ Initialize "u" "beginner" 0 0;
    Trade "u" (market_order "buy" "AAPL" 1) "t1" 1 1;
    Trade "u" (market_order "sell" "AAPL" (-1000)) "t2" 2 2 ].

(** ** Further vocabulary *)

(** A beginner account whose holding is pushed beyond the doubles by
    sells of a negative quantity: after the buy of one share and the
    first sell it holds 2^1023 + 1 shares, and the second sell makes that
    2^1024 + 1. *)
Definition oversized_sell : TradeOrder :=
  market_order "sell" "AAPL" (- 2 ^ 1023).

Definition oversized_requests : list Request :=
  [ Initialize "u" "beginner" 0 0;
    Trade "u" (market_order "buy" "AAPL" 1) "t1" 1 1;
    Trade "u" oversized_sell "t2" 2 2 ].

(** The user a request is made for (the [user_id] of its path). *)
Definition request_user (r : Request) : string :=
  match r with
  | Initialize u _ _ _ | GetState u | Trade u _ _ _ _ | History u _
  | UpdatePrices u _ _ => u
  end.

(** A request that only reads. *)
Definition read_only (r : Request) : Prop :=
  match r with
  | GetState _ | History _ _ => True
  | Initialize _ _ _ _ | Trade _ _ _ _ _ | UpdatePrices _ _ _ => False
  end.

(** What one portfolio entry adds to the value of the holdings. *)
Definition holding_value (h : option Holding) (price : option Q) : Q :=
  match h with
  | Some h => inject_Z (shares h) * default 0 price
  | None => 0
  end.

(** The price table after the loop of lines 478-479. *)
Definition moved_prices (draw : string -> Q) (prices : gmap string Q)
    : gmap string Q :=
  map_imap (fun symbol p => Some (simulate_price_change p (draw symbol))) prices.

(** A request as a well-behaved client sends it: a positive quantity, no
    negative limit price, and a price draw of at least -100% (the draw of
    line 153 lies within 2%). *)
Definition sane_request (r : Request) : Prop :=
  match r with
  | Trade _ o _ _ _ =>
      (0 < quantity o)%Z /\
      forall limit, limit_price o = Some limit -> 0 <= limit
  | UpdatePrices _ draw _ => forall s, -1 <= draw s
  | Initialize _ _ _ _ | GetState _ | History _ _ => True
  end.

(** A session in good order: no debt, no negative price, every holding
    with a positive share count, a non-negative average cost and a quoted
    symbol, and a price table that lists exactly the symbols of the
    level. *)
Definition sound_session (st : TradingSimulatorState) : Prop :=
  0 <= balance st /\
  (forall s p, stock_prices st !! s = Some p -> 0 <= p) /\
  (forall s h, portfolio st !! s = Some h ->
               (0 < shares h)%Z /\ 0 <= avg_price h /\
               is_Some (stock_prices st !! s)) /\
  (forall s, is_Some (stock_prices st !! s) <-> s ∈ universe (level st)).

Definition sound_world (w : World) : Prop :=
  forall u st, simulator_db w !! u = Some st -> sound_session st.

(** ** Users, learning modules and progress (lines 14-30, 62-84, 139-149,
    172-294, 490-547)

    The registries [users_db] and [progress_db] form the [Platform].  The
    endpoints below pass it explicitly; those that cannot raise return
    their response directly.  [users_db] is iterated in insertion order by
    [login_user], so it is an ordered dictionary: a list of entries with
    pairwise distinct keys, new keys going to the end. *)

(** [class User(BaseModel)] *)
Record User := mkUser {
  us_id : string;
  us_username : string;
  us_email : string;
  us_created_at : datetime;
  us_current_level : string;
  us_total_time_spent : Z
}.

(** [class ModuleProgress(BaseModel)] *)
Record ModuleProgress := mkModuleProgress {
  mp_user_id : string;
  mp_module_id : string;
  mp_progress : Z;
  mp_total_checkpoints : Z;
  mp_completed : bool;
  mp_time_spent : Z;
  mp_last_accessed : datetime;
  mp_checkpoints_completed : list string
}.

(** An entry of [MODULES_DATA]. *)
Record ModuleInfo := mkModuleInfo {
  mi_level : string;
  mi_title : string;
  mi_checkpoints : Z;
  mi_duration : Z
}.

Definition MODULES_DATA : list (string * ModuleInfo) :=
  [ ("financial-basics", mkModuleInfo "beginner" "Financial Markets Basics" 6 45);
    ("asset-classes", mkModuleInfo "beginner" "Asset Classes Overview" 5 40);
    ("trading-concepts", mkModuleInfo "beginner" "Basic Trading Concepts" 6 35);
    ("risk-management", mkModuleInfo "beginner" "Risk Management Fundamentals" 7 50);
    ("first-portfolio", mkModuleInfo "beginner" "Building Your First Portfolio" 8 55);
    ("technical-analysis", mkModuleInfo "intermediate" "Technical Analysis" 8 60);
    ("fundamental-analysis", mkModuleInfo "intermediate" "Fundamental Analysis" 7 55);
    ("market-psychology", mkModuleInfo "intermediate" "Market Psychology" 6 45);
    ("sector-analysis", mkModuleInfo "intermediate" "Sector Analysis" 7 50);
    ("advanced-strategies", mkModuleInfo "intermediate" "Advanced Trading Strategies" 8 65);
    ("options-derivatives", mkModuleInfo "advanced" "Options & Derivatives" 9 70);
    ("macro-economics", mkModuleInfo "advanced" "Macro Economics" 8 65);
    ("ai-quant-strategies", mkModuleInfo "advanced" "AI & Quant Strategies" 10 75);
    ("portfolio-management", mkModuleInfo "advanced" "Advanced Portfolio Management" 9 80);
    ("hft", mkModuleInfo "advanced" "High-Frequency Trading" 10 85) ].

(** *** Ordered dictionaries *)

(** [d[k]] and [k in d] read the entry, if any. *)
Fixpoint od_lookup {V} (k : string) (d : list (string * V)) : option V :=
  match d with
  | [] => None
  | (k', v) :: rest => if String.eqb k' k then Some v else od_lookup k rest
  end.

(** [d[k] = v]: an existing key keeps its place, a new one goes last. *)
Fixpoint od_store {V} (k : string) (v : V) (d : list (string * V))
    : list (string * V) :=
  match d with
  | [] => [(k, v)]
  | (k', v') :: rest =>
      if String.eqb k' k then (k', v) :: rest
      else (k', v') :: od_store k v rest
  end.

(** *** The platform *)

Record Platform := mkPlatform {
  users_db : list (string * User);
  progress_db : gmap string ModuleProgress
}.

Definition set_users_db (v : list (string * User)) (p : Platform) : Platform :=
  mkPlatform v (progress_db p).

Definition set_progress_db (v : gmap string ModuleProgress) (p : Platform)
    : Platform :=
  mkPlatform (users_db p) v.

(** *** Authentication (lines 139-146 and 172-194) *)

(** [get_current_user]; [token] is [credentials.credentials]. *)
Definition get_current_user (token : string) (p : Platform) : Outcome User :=
  match od_lookup token (users_db p) with
  | None => Raise (HTTPException 401 "Invalid authentication credentials")
  | Some user => Return user
  end.

Record AuthResponse := mkAuthResponse {
  ar_token : string;
  ar_user_id : string;
  ar_message : string
}.

(** [register_user]; [token] is the value of [generate_user_token()] and
    [now] that of [datetime.now()].  The fields [current_level] and
    [total_time_spent] take their defaults. *)
Definition register_user (username email : string) (token : string)
    (now : datetime) (p : Platform) : AuthResponse * Platform :=
  let user := mkUser token username email now "beginner" 0 in
  (mkAuthResponse token token "User registered successfully",
   set_users_db (od_store token user (users_db p)) p).

(** [login_user]; [token] and [now] are used only when the loop finds
    nobody and the call falls through to [register_user]. *)
Definition login_user (username : string) (token : string) (now : datetime)
    (p : Platform) : AuthResponse * Platform :=
  match List.find (fun e : string * User => us_username e.2 =? username)
                  (users_db p) with
  | Some (token', _) =>
      (mkAuthResponse token' token' "Login successful", p)
  | None => register_user username (username ++ "@example.com") token now p
  end.

(** *** Learning modules (lines 196-217) *)

Definition get_all_modules : list (string * ModuleInfo) := MODULES_DATA.

Definition get_modules_by_level (level : string)
    : Outcome (string * list (string * ModuleInfo)) :=
  if negb (str_in level ["beginner"; "intermediate"; "advanced"]) then
    Raise (HTTPException 400 "Invalid level")
  else
    let modules :=
      List.filter (fun e : string * ModuleInfo => mi_level e.2 =? level)
                  MODULES_DATA in
    Return (level, modules).

Definition get_module_details (module_id : string)
    : Outcome (string * ModuleInfo) :=
  match od_lookup module_id MODULES_DATA with
  | None => Raise (HTTPException 404 "Module not found")
  | Some details => Return (module_id, details)
  end.

(** *** Progress tracking (lines 219-294) *)

Record ProgressResponse := mkProgressResponse {
  gp_user_id : string;
  gp_total_modules : Z;
  gp_completed_modules : Z;
  gp_overall_progress : Q;
  gp_total_time_minutes : Z;
  gp_level_progress : gmap string Z;
  gp_level_totals : gmap string Z;
  gp_modules : gmap string ModuleProgress
}.

(** [round(x, 1)] on an exact rational. *)
Definition round1 (x : Q) : Q := inject_Z (round_half_even (x * 10)) / 10.

(** [counters[key] += 1] *)
Definition increment (key : string) (counters : gmap string Z)
    : Outcome (gmap string Z) :=
  n <~ getitem counters key ;;
  Return (<[key := (n + 1)%Z]> counters).

(** The loop of lines 234-238 over the entries of [MODULES_DATA]; the
    state is the pair of [level_progress] and [level_totals]. *)
Fixpoint level_loop (modules : list (string * ModuleInfo))
    (user_progress : gmap string ModuleProgress)
    (level_progress level_totals : gmap string Z)
    : Outcome (gmap string Z * gmap string Z) :=
  match modules with
  | [] => Return (level_progress, level_totals)
  | (module_id, module_data) :: rest =>
      let level := mi_level module_data in
      level_totals <~ increment level level_totals ;;
      level_progress <~
        (match user_progress !! module_id with
         | Some entry =>
             if mp_completed entry then increment level level_progress
             else Return level_progress
         | None => Return level_progress
         end) ;;
      level_loop rest user_progress level_progress level_totals
  end.

Definition zero_counters : gmap string Z :=
  list_to_map [("beginner", 0%Z); ("intermediate", 0%Z); ("advanced", 0%Z)].

Definition get_user_progress (user_id : string) (p : Platform)
    : Outcome ProgressResponse :=
  let user_progress :=
    filter (fun kv : string * ModuleProgress => mp_user_id kv.2 = user_id)
           (progress_db p) in
  let total_modules := Z.of_nat (length MODULES_DATA) in
  let completed_modules :=
    Z.of_nat (length (List.filter (fun kv : string * ModuleProgress =>
                                     mp_completed kv.2)
                                  (map_to_list user_progress))) in
  let total_time :=
    foldr (fun (kv : string * ModuleProgress) acc => (mp_time_spent kv.2 + acc)%Z)
          0%Z (map_to_list user_progress) in
  counters <~ level_loop MODULES_DATA user_progress zero_counters zero_counters ;;
  ratio <~ truediv (inject_Z completed_modules) (inject_Z total_modules) ;;
  Return (mkProgressResponse user_id total_modules completed_modules
            (round1 (ratio * 100)) total_time counters.1 counters.2
            user_progress).

Record UpdateProgressResponse := mkUpdateProgressResponse {
  up_message : string;
  up_module_id : string;
  up_progress : Z;
  up_completed : bool;
  up_time_spent : Z
}.

(** The key [f"{user_id}_{module_id}"] of line 264. *)
Definition progress_key (user_id module_id : string) : string :=
  user_id ++ "_" ++ module_id.

(** Python's truth value of an [Optional[str]]. *)
Definition truthy (s : option string) : bool :=
  match s with
  | None => false
  | Some s => negb (s =? EmptyString)
  end.

Definition set_completed (v : bool) (e : ModuleProgress) : ModuleProgress :=
  mkModuleProgress (mp_user_id e) (mp_module_id e) (mp_progress e)
                   (mp_total_checkpoints e) v (mp_time_spent e)
                   (mp_last_accessed e) (mp_checkpoints_completed e).

(** [update_module_progress]; [time_spent] is 0 and [checkpoint] is [None]
    when they are not given; both uses of [datetime.now()] are [now]. *)
Definition update_module_progress (user_id module_id : string) (progress : Z)
    (time_spent : Z) (checkpoint : option string) (now : datetime)
    (p : Platform) : Outcome UpdateProgressResponse * Platform :=
  match od_lookup module_id MODULES_DATA with
  | None => (Raise (HTTPException 404 "Module not found"), p)
  | Some module_data =>
      let progress_key := progress_key user_id module_id in
      let entry :=
        match progress_db p !! progress_key with
        | None =>
            mkModuleProgress user_id module_id progress
                             (mi_checkpoints module_data) false 0 now []
        | Some progress_entry =>
            let checkpoints :=
              match checkpoint with
              | Some c =>
                  if truthy checkpoint
                     && negb (str_in c (mp_checkpoints_completed progress_entry))
                  then (mp_checkpoints_completed progress_entry ++ [c])%list
                  else mp_checkpoints_completed progress_entry
              | None => mp_checkpoints_completed progress_entry
              end in
            mkModuleProgress (mp_user_id progress_entry)
                             (mp_module_id progress_entry) progress
                             (mp_total_checkpoints progress_entry)
                             (mp_completed progress_entry)
                             (mp_time_spent progress_entry + time_spent)%Z
                             now checkpoints
        end in
      let progress_entry :=
        if (mi_checkpoints module_data <=? progress)%Z
        then set_completed true entry else entry in
      (Return (mkUpdateProgressResponse "Progress updated successfully"
                 module_id progress (mp_completed progress_entry)
                 (mp_time_spent progress_entry)),
       set_progress_db (<[progress_key := progress_entry]> (progress_db p)) p)
  end.

(** *** User management (lines 490-520) *)

Definition get_user_profile (user_id : string) (p : Platform)
    : Outcome (User * ProgressResponse) :=
  match od_lookup user_id (users_db p) with
  | None => Raise (HTTPException 404 "User not found")
  | Some user =>
      progress <~ get_user_progress user_id p ;;
      Return (user, progress)
  end.

Definition set_current_level (v : string) (u : User) : User :=
  mkUser (us_id u) (us_username u) (us_email u) (us_created_at u) v
         (us_total_time_spent u).

Record LevelResponse := mkLevelResponse {
  lr_message : string;
  lr_user_id : string;
  lr_new_level : string
}.

Definition update_user_level (user_id level : string) (p : Platform)
    : Outcome LevelResponse * Platform :=
  match od_lookup user_id (users_db p) with
  | None => (Raise (HTTPException 404 "User not found"), p)
  | Some user =>
      if negb (str_in level ["beginner"; "intermediate"; "advanced"]) then
        (Raise (HTTPException 400 "Invalid level"), p)
      else
        (Return (mkLevelResponse "User level updated successfully" user_id level),
         set_users_db (od_store user_id (set_current_level level user)
                                (users_db p)) p)
  end.

(** *** Analytics (lines 522-547) *)

Record AnalyticsResponse := mkAnalyticsResponse {
  an_total_users : Z;
  an_total_modules : Z;
  an_total_progress_entries : Z;
  an_completed_modules : Z;
  an_active_simulators : Z;
  an_total_trades : Z;
  an_level_distribution : gmap string Z;
  an_completion_rate : Q
}.

(** The loop of lines 535-536. *)
Fixpoint distribution_loop (users : list (string * User))
    (level_distribution : gmap string Z) : Outcome (gmap string Z) :=
  match users with
  | [] => Return level_distribution
  | (_, user) :: rest =>
      level_distribution <~ increment (us_current_level user) level_distribution ;;
      distribution_loop rest level_distribution
  end.

Definition get_platform_analytics (p : Platform) (w : World)
    : Outcome AnalyticsResponse :=
  let total_users := Z.of_nat (length (users_db p)) in
  let total_modules := Z.of_nat (length MODULES_DATA) in
  let total_progress_entries := Z.of_nat (size (progress_db p)) in
  let completed_modules :=
    Z.of_nat (length (List.filter (fun kv : string * ModuleProgress =>
                                     mp_completed kv.2)
                                  (map_to_list (progress_db p)))) in
  let active_simulators := Z.of_nat (size (simulator_db w)) in
  let total_trades := Z.of_nat (length (trades_db w)) in
  level_distribution <~ distribution_loop (users_db p) zero_counters ;;
  ratio <~ truediv (inject_Z completed_modules)
                   (inject_Z (Z.max total_progress_entries 1)) ;;
  Return (mkAnalyticsResponse total_users total_modules total_progress_entries
            completed_modules active_simulators total_trades
            level_distribution (round1 (ratio * 100))).

(** The platform at process start. *)
Definition empty_platform : Platform := mkPlatform [] ∅.

(** *** Requests to the platform *)

Inductive PlatformRequest :=
| Register (username email token : string) (now : datetime)
| Login (username token : string) (now : datetime)
| UpdateLevel (user_id level : string)
| UpdateProgress (user_id module_id : string) (progress time_spent : Z)
                 (checkpoint : option string) (now : datetime).

(** The platform after a request, whether it returned or raised. *)
Definition serve (r : PlatformRequest) (p : Platform) : Platform :=
  match r with
  | Register u e t n => (register_user u e t n p).2
  | Login u t n => (login_user u t n p).2
  | UpdateLevel u l => (update_user_level u l p).2
  | UpdateProgress u m pr ts c n => (update_module_progress u m pr ts c n p).2
  end.

Definition serve_all (rs : list PlatformRequest) (p : Platform) : Platform :=
  foldl (fun p r => serve r p) p rs.

(** Whether a string has an underscore in it. *)
Fixpoint has_underscore (s : string) : bool :=
  match s with
  | EmptyString => false
  | String c rest => (String c EmptyString =? "_") || has_underscore rest
  end.

(** What the registries keep true. *)
Definition progress_entry_ok (k : string) (e : ModuleProgress) : Prop :=
  k = progress_key (mp_user_id e) (mp_module_id e) /\
  (exists info,
     od_lookup (mp_module_id e) MODULES_DATA = Some info /\
     mp_total_checkpoints e = mi_checkpoints info /\
     ((mi_checkpoints info <= mp_progress e)%Z -> mp_completed e = true)) /\
  NoDup (mp_checkpoints_completed e) /\
  EmptyString ∉ mp_checkpoints_completed e.

Definition platform_ok (p : Platform) : Prop :=
  NoDup (users_db p).*1 /\
  (forall tok u, (tok, u) ∈ users_db p ->
                 us_id u = tok /\ us_current_level u ∈ valid_levels) /\
  (forall k e, progress_db p !! k = Some e -> progress_entry_ok k e).

(** The [(progress, time_spent)] arguments of the updates of [user_id] on
    [module_id] among the requests, oldest first. *)
Definition updates_for (user_id module_id : string) (rs : list PlatformRequest)
    : list (Z * Z) :=
  omap (fun r =>
          match r with
          | UpdateProgress u m pr ts _ _ =>
              if decide (u = user_id /\ m = module_id) then Some (pr, ts) else None
          | _ => None
          end) rs.

Definition sum_Z (l : list Z) : Z := foldr Z.add 0%Z l.

(** How many users carry the level [lvl]. *)
Definition users_at_level (lvl : string) (users : list (string * User)) : Z :=
  Z.of_nat (length (List.filter (fun e : string * User => us_current_level e.2 =? lvl)
                                users)).

(** The catalogue counts five modules per level. *)
Definition five_per_level : gmap string Z :=
  list_to_map [("beginner", 5%Z); ("intermediate", 5%Z); ("advanced", 5%Z)].

(** * Properties *)


Lemma Qltb_lt (x y : Q) : Qltb x y = true <-> x < y.
Proof.
  unfold Qltb. rewrite negb_true_iff. split.
  - intros H. apply Qnot_le_lt. intros Hle.
    apply Qle_bool_iff in Hle. congruence.
  - intros H. destruct (Qle_bool y x) eqn:E; [|reflexivity].
    apply Qle_bool_iff in E. exfalso. exact (Qlt_not_le _ _ H E).
Qed.

Lemma Qltb_ge (x y : Q) : Qltb x y = false <-> y <= x.
Proof.
  unfold Qltb. rewrite negb_false_iff. apply Qle_bool_iff.
Qed.

Section Monad.
Context {A B : Type}.

Lemma bind_Return (m : M A) (k : A -> M B) w a w1 :
    m w = (Return a, w1) -> bind m k w = k a w1.
  Proof. intros H. unfold bind. by rewrite H. Qed.

Lemma bind_Raise (m : M A) (k : A -> M B) w e w1 :
    m w = (Raise e, w1) -> bind m k w = (Raise e, w1).
  Proof. intros H. unfold bind. by rewrite H. Qed.

Lemma bind_inv_Return (m : M A) (k : A -> M B) w b w2 :
    bind m k w = (Return b, w2) ->
    exists a w1, m w = (Return a, w1) /\ k a w1 = (Return b, w2).
  Proof.
    unfold bind. destruct (m w) as [[a|e] w1]; [eauto | discriminate].
  Qed.

Lemma bind_inv_Raise (m : M A) (k : A -> M B) w e w2 :
    bind m k w = (Raise e, w2) ->
    m w = (Raise e, w2) \/
    exists a w1, m w = (Return a, w1) /\ k a w1 = (Raise e, w2).
  Proof.
    unfold bind. destruct (m w) as [[a|e'] w1]; [eauto | intros [= -> ->]; eauto].
  Qed.
End Monad.

Lemma contains_Some {V} (d : gmap string V) k v :
  d !! k = Some v -> contains d k = true.
Proof. intros H. unfold contains. apply bool_decide_eq_true. eauto. Qed.

Lemma contains_None {V} (d : gmap string V) k :
  d !! k = None -> contains d k = false.
Proof.
  intros H. unfold contains. apply bool_decide_eq_false. rewrite H.
  intros [? ?]; discriminate.
Qed.

Lemma deref_Some uid st db tr :
  db !! uid = Some st -> deref uid (mkWorld db tr) = (Return st, mkWorld db tr).
Proof.
  intros H. unfold deref, bind, get_simulator_db, lift, getitem. simpl.
  by rewrite H.
Qed.

Lemma assign_Some uid f st db tr :
  db !! uid = Some st ->
  assign uid f (mkWorld db tr) = (Return tt, mkWorld (<[uid := f st]> db) tr).
Proof.
  intros H. unfold assign. erewrite bind_Return by (by apply deref_Some).
  reflexivity.
Qed.


Lemma Qis_zero_inject_Z z : Qis_zero (inject_Z z) = true <-> z = 0%Z.
Proof.
  unfold Qis_zero. rewrite Qeq_bool_iff. unfold Qeq; simpl. lia.
Qed.

Lemma Qis_zero_inject_Z_false z : Qis_zero (inject_Z z) = false <-> z <> 0%Z.
Proof.
  rewrite <- Qis_zero_inject_Z. destruct (Qis_zero (inject_Z z)); split; congruence.
Qed.

Section Run.
Context {B : Type}.
Variables (uid : string) (db : gmap string TradingSimulatorState).
Variables (tr : list TradeExecution) (st : TradingSimulatorState).
Hypothesis Hdb : db !! uid = Some st.

Lemma bind_deref (k : TradingSimulatorState -> M B) :
    bind (deref uid) k (mkWorld db tr) = k st (mkWorld db tr).
  Proof. apply bind_Return. by apply deref_Some. Qed.

Lemma bind_assign f (k : unit -> M B) :
    bind (assign uid f) k (mkWorld db tr)
    = k tt (mkWorld (<[uid := f st]> db) tr).
  Proof. apply bind_Return. by apply assign_Some. Qed.
End Run.

Lemma bind_db {B} (k : _ -> M B) w :
  bind get_simulator_db k w = k (simulator_db w) w.
Proof. reflexivity. Qed.

Lemma bind_bind {A B C} (m : M A) (f : A -> M B) (k : B -> M C) w :
  bind (bind m f) k w = bind m (fun a => bind (f a) k) w.
Proof. unfold bind. by destruct (m w) as [[a|e] w1]. Qed.

Lemma bind_ret {A B} (a : A) (k : A -> M B) w : bind (ret a) k w = k a w.
Proof. reflexivity. Qed.

Lemma bind_raise {A B} e (k : A -> M B) w : bind (raise e) k w = (Raise e, w).
Proof. reflexivity. Qed.

Lemma bind_lift_Return {A B} (a : A) (k : A -> M B) w :
  bind (lift (Return a)) k w = k a w.
Proof. reflexivity. Qed.

Lemma bind_lift_Raise {A B} e (k : A -> M B) w :
  bind (lift (Raise e)) k w = (Raise e, w).
Proof. reflexivity. Qed.

Lemma bind_append {B} t (k : unit -> M B) db tr :
  bind (append_trade t) k (mkWorld db tr) = k tt (mkWorld db (tr ++ [t])).
Proof. reflexivity. Qed.

Lemma getitem_Some {V} (d : gmap string V) k v :
  d !! k = Some v -> getitem d k = Return v.
Proof. intros H. unfold getitem. by rewrite H. Qed.

Lemma getitem_None {V} (d : gmap string V) k :
  d !! k = None -> getitem d k = Raise (KeyError k).
Proof. intros H. unfold getitem. by rewrite H. Qed.

Ltac lookup_tac := first [eassumption | apply lookup_insert_eq].

(** One statement of an endpoint, run on a world whose session is known. *)
Ltac mstep :=
  lazy beta iota zeta;
  first
    [ rewrite bind_bind
    | rewrite bind_ret
    | rewrite bind_raise
    | rewrite bind_lift_Return
    | rewrite bind_lift_Raise
    | rewrite bind_append
    | rewrite bind_db
    | erewrite bind_deref by lookup_tac
    | erewrite bind_assign by lookup_tac
    | erewrite deref_Some by lookup_tac
    | erewrite assign_Some by lookup_tac
    | erewrite getitem_Some by lookup_tac
    | rewrite insert_insert_eq
    | progress cbn [simulator_db trades_db negb portfolio balance stock_prices
                    trade_count initial_balance last_updated total_pnl
                    set_balance set_portfolio set_trade_count
                    set_last_updated set_total_pnl set_stock_prices
                    shares avg_price] ].

Ltac mrun := repeat mstep.

Lemma to_float_Return n :
  in_float_range n = true -> to_float n = Return (inject_Z n).
Proof. intros H. unfold to_float. by rewrite H. Qed.

Lemma to_float_Raise n :
  in_float_range n = false -> to_float n = Raise OverflowError.
Proof. intros H. unfold to_float. by rewrite H. Qed.

Lemma to_float_inv n x : to_float n = Return x -> x = inject_Z n.
Proof. unfold to_float. destruct (in_float_range n); [by intros [= <-]|discriminate]. Qed.

Lemma mul_float_int_spec x n :
  mul_float_int x n
  = if in_float_range n then Return (x * inject_Z n) else Raise OverflowError.
Proof. unfold mul_float_int, to_float. by destruct (in_float_range n). Qed.

Lemma mul_int_float_spec n x :
  mul_int_float n x
  = if in_float_range n then Return (inject_Z n * x) else Raise OverflowError.
Proof. unfold mul_int_float, to_float. by destruct (in_float_range n). Qed.

(** Line 396, operand by operand. *)
Lemma line_396 h q p :
  in_float_range q = true ->
  (held <~ mul_int_number (shares h) (avg_price h) ;;
   paid <~ mul_int_float q p ;;
   cost <~ add_number_float held paid ;;
   div_float_int cost (shares h + q))
  = if negb (buy_converts h q) then Raise OverflowError
    else if (shares h + q =? 0)%Z then Raise ZeroDivisionError
    else Return (new_average h q p).
Proof.
  intros Hq. unfold buy_converts, new_average, mul_int_number, add_number_float,
    div_float_int, truediv.
  destruct (avg_price h) as [n|x]; rewrite !mul_int_float_spec, Hq;
    unfold to_float; cbn [obind value].
  - destruct (in_float_range (shares h * n)); cbn [obind andb negb]; [|reflexivity].
    destruct (in_float_range (shares h + q)); cbn [obind negb]; [|reflexivity].
    destruct (Z.eqb_spec (shares h + q) 0) as [Hz|Hz].
    + by rewrite (proj2 (Qis_zero_inject_Z _) Hz).
    + by rewrite (proj2 (Qis_zero_inject_Z_false _) Hz).
  - destruct (in_float_range (shares h)); cbn [obind andb negb]; [|reflexivity].
    destruct (in_float_range (shares h + q)); cbn [obind negb]; [|reflexivity].
    destruct (Z.eqb_spec (shares h + q) 0) as [Hz|Hz].
    + by rewrite (proj2 (Qis_zero_inject_Z _) Hz).
    + by rewrite (proj2 (Qis_zero_inject_Z_false _) Hz).
Qed.

(** The loop of lines 159-161 against the plain sum. *)
Lemma calculate_portfolio_value_fold (l : list (string * Holding)) prices :
  foldr (uncurry (fun symbol holdings (acc : Outcome Q) =>
                    total <~ acc ;; add_holding prices symbol holdings total))
        (Return 0) l
  = if forallb (fun e : string * Holding =>
                  match prices !! e.1 with
                  | Some _ => in_float_range (shares e.2)
                  | None => true
                  end) l
    then Return (foldr (uncurry (fun symbol holdings total =>
                                   match prices !! symbol with
                                   | Some price =>
                                       total + inject_Z (shares holdings) * price
                                   | None => total
                                   end)) 0 l)
    else Raise OverflowError.
Proof.
  induction l as [|[sym h] l IH]; [reflexivity|].
  cbn [foldr forallb uncurry fst snd]. rewrite IH.
  unfold add_holding.
  destruct (prices !! sym) as [price|]; cbn [andb].
  - rewrite mul_int_float_spec.
    destruct (in_float_range (shares h)); cbn [andb].
    + by destruct (forallb _ l).
    + by destruct (forallb _ l).
  - by destruct (forallb _ l).
Qed.

Lemma calculate_portfolio_value_cases pf prices :
  (holdings_convert pf prices /\
   calculate_portfolio_value pf prices = Return (holdings_value pf prices)) \/
  (~ holdings_convert pf prices /\
   calculate_portfolio_value pf prices = Raise OverflowError).
Proof.
  unfold calculate_portfolio_value, holdings_value, holdings_convert.
  rewrite !map_fold_foldr, calculate_portfolio_value_fold.
  destruct (forallb _ _) eqn:Hall.
  - left. split; [|reflexivity]. intros s h Hh [price Hp].
    rewrite forallb_forall in Hall.
    apply elem_of_map_to_list, list_elem_of_In in Hh.
    specialize (Hall _ Hh). cbn [fst snd] in Hall. by rewrite Hp in Hall.
  - right. split; [|reflexivity]. intros Hconv.
    assert (Hall' : forallb (fun e : string * Holding =>
                               match prices !! e.1 with
                               | Some _ => in_float_range (shares e.2)
                               | None => true
                               end) (map_to_list pf) = true).
    { apply forallb_forall. intros [sym h] Hin%list_elem_of_In%elem_of_map_to_list.
      cbn [fst snd]. destruct (prices !! sym) as [price|] eqn:Hp; [|reflexivity].
      apply (Hconv sym h Hin). by rewrite Hp. }
    congruence.
Qed.

Lemma calculate_portfolio_value_Return pf prices v :
  calculate_portfolio_value pf prices = Return v ->
  v = holdings_value pf prices /\ holdings_convert pf prices.
Proof.
  destruct (calculate_portfolio_value_cases pf prices) as [[Hc ->]|[_ ->]];
    [|discriminate].
  intros [= <-]. by split.
Qed.

Lemma calculate_portfolio_value_Raise pf prices e :
  calculate_portfolio_value pf prices = Raise e ->
  e = OverflowError /\ ~ holdings_convert pf prices.
Proof.
  destruct (calculate_portfolio_value_cases pf prices) as [[_ ->]|[Hc ->]];
    [discriminate|].
  intros [= <-]. by split.
Qed.

Lemma calculate_portfolio_value_ok pf prices :
  holdings_convert pf prices ->
  calculate_portfolio_value pf prices = Return (holdings_value pf prices).
Proof.
  intros Hc. by destruct (calculate_portfolio_value_cases pf prices) as [[_ ->]|[[] _]].
Qed.

Section Branches.
Variables (uid : string) (order : TradeOrder) (p : Q).
Variables (st : TradingSimulatorState) (db : gmap string TradingSimulatorState).
Variable tr : list TradeExecution.
Hypothesis Hdb : db !! uid = Some st.

Let tv := p * inject_Z (quantity order).
Let sym := symbol order.

Lemma execute_buy_insufficient :
    balance st < tv ->
    execute_buy uid order p tv (mkWorld db tr)
    = (Raise InsufficientBalance, mkWorld db tr).
  Proof.
    intros Hlt%Qltb_lt. unfold execute_buy. mrun. rewrite Hlt. reflexivity.
  Qed.

(** Lines 388-396 of a buy that the balance covers. *)
Lemma execute_buy_covered :
    tv <= balance st ->
    in_float_range (quantity order) = true ->
    execute_buy uid order p tv (mkWorld db tr)
    = if negb (buy_converts (holding_of st sym) (quantity order)) then
        (Raise OverflowError, mkWorld (<[uid := debited st sym tv]> db) tr)
      else if (shares (holding_of st sym) + quantity order =? 0)%Z then
        (Raise ZeroDivisionError, mkWorld (<[uid := debited st sym tv]> db) tr)
      else
        (Return tt, mkWorld (<[uid := bought st sym (quantity order) p]> db) tr).
  Proof.
    intros Hge%Qltb_ge Hq. unfold execute_buy. mrun. rewrite Hge. mrun.
    assert (Hrun : forall h db',
      db' !! uid
      = Some (set_portfolio (<[sym := h]> (portfolio st))
                (set_balance (balance st - tv) st)) ->
      bind (lift (mul_int_number (shares h) (avg_price h)))
        (fun held =>
           bind (lift (mul_int_float (quantity order) p))
             (fun paid =>
                bind (lift (add_number_float held paid))
                  (fun cost =>
                     bind (lift (div_float_int cost (shares h + quantity order)))
                       (fun new_avg =>
                          assign uid
                            (fun s =>
                               set_portfolio
                                 (<[symbol order :=
                                      mkHolding (shares h + quantity order)
                                                (PyFloat new_avg)]>
                                    (portfolio s)) s)))))
        (mkWorld db' tr)
      = if negb (buy_converts h (quantity order)) then
          (Raise OverflowError, mkWorld db' tr)
        else if (shares h + quantity order =? 0)%Z then
          (Raise ZeroDivisionError, mkWorld db' tr)
        else
          (Return tt,
           mkWorld (<[uid := set_portfolio
                               (<[sym := mkHolding (shares h + quantity order)
                                           (PyFloat (new_average h (quantity order) p))]>
                                  (portfolio st))
                               (set_balance (balance st - tv) st)]> db') tr)).
    { intros h db' Hdb'.
      pose proof (line_396 h (quantity order) p Hq) as H396.
      unfold bind at 1 2 3 4. unfold lift at 1 2 3 4.
      destruct (mul_int_number _ _) as [held|e]; cbn [obind] in H396.
      2:{ destruct (negb _); [by injection H396 as ->|].
          destruct (_ =? _)%Z; [by injection H396 as ->|discriminate H396]. }
      destruct (mul_int_float _ _) as [paid|e]; cbn [obind] in H396.
      2:{ destruct (negb _); [by injection H396 as ->|].
          destruct (_ =? _)%Z; [by injection H396 as ->|discriminate H396]. }
      destruct (add_number_float _ _) as [cost|e]; cbn [obind] in H396.
      2:{ destruct (negb _); [by injection H396 as ->|].
          destruct (_ =? _)%Z; [by injection H396 as ->|discriminate H396]. }
      rewrite H396. destruct (negb _); [reflexivity|].
      destruct (_ =? _)%Z; [reflexivity|].
      rewrite (assign_Some _ _ _ _ _ Hdb').
      cbn [portfolio set_portfolio]. fold sym. by rewrite insert_insert_eq. }
    unfold debited, bought. unfold holding_of. fold sym.
    destruct (portfolio st !! sym) as [h|] eqn:Hh.
    - rewrite (contains_Some _ _ _ Hh). mrun.
      rewrite (Hrun h) by (by rewrite (insert_id _ _ _ Hh), lookup_insert_eq).
      rewrite (insert_id _ _ _ Hh).
      destruct (negb _); [reflexivity|]. destruct (_ =? _)%Z; [reflexivity|].
      by rewrite insert_insert_eq.
    - rewrite (contains_None _ _ Hh). mrun.
      rewrite (Hrun (mkHolding 0 (PyInt 0))) by apply lookup_insert_eq.
      destruct (negb _); [reflexivity|]. destruct (_ =? _)%Z; [reflexivity|].
      by rewrite insert_insert_eq.
  Qed.

Lemma execute_sell_absent :
    portfolio st !! sym = None ->
    execute_sell uid order tv (mkWorld db tr)
    = (Raise InsufficientShares, mkWorld db tr).
  Proof.
    intros Hh. unfold execute_sell. mrun.
    fold sym. rewrite (contains_None _ _ Hh). mrun. reflexivity.
  Qed.

Lemma execute_sell_insufficient h :
    portfolio st !! sym = Some h ->
    (shares h < quantity order)%Z ->
    execute_sell uid order tv (mkWorld db tr)
    = (Raise InsufficientShares, mkWorld db tr).
  Proof.
    intros Hh Hlt%Z.ltb_lt. unfold execute_sell. mrun.
    fold sym. rewrite (contains_Some _ _ _ Hh). mrun.
    rewrite Hlt. mrun. reflexivity.
  Qed.

Lemma execute_sell_ok h :
    portfolio st !! sym = Some h ->
    (quantity order <= shares h)%Z ->
    execute_sell uid order tv (mkWorld db tr)
    = (Return tt, mkWorld (<[uid := sold st sym h (quantity order) p]> db) tr).
  Proof.
    intros Hh Hle%Z.ltb_ge. unfold execute_sell. mrun.
    fold sym. rewrite (contains_Some _ _ _ Hh). mrun.
    rewrite Hle. mrun. unfold sold. fold tv.
    destruct (shares h - quantity order =? 0)%Z; mrun.
    - by rewrite delete_insert_eq.
    - reflexivity.
  Qed.

(** Lines 417-454: the journal entry and the counters come before the
    valuation of line 435, which may raise. *)
Lemma record_trade_run tid now1 now2 :
    record_trade uid order p tv tid now1 now2 (mkWorld db tr)
    = match calculate_portfolio_value (portfolio st) (stock_prices st) with
      | Return _ =>
          (Return (response_of order p tid (recorded now2 st)),
           mkWorld (<[uid := recorded now2 st]> db)
                   (tr ++ [trade_of uid order p tid now1]))
      | Raise e =>
          (Raise e,
           mkWorld (<[uid := counted now2 st]> db)
                   (tr ++ [trade_of uid order p tid now1]))
      end.
  Proof.
    unfold record_trade. mrun.
    destruct (calculate_portfolio_value _ _) as [pv|e] eqn:Hpv; mrun.
    - apply calculate_portfolio_value_Return in Hpv as [-> _]. reflexivity.
    - reflexivity.
  Qed.
End Branches.


Theorem execute_trade_tree uid order tid now1 now2 w :
  execute_trade uid order tid now1 now2 w = trade_tree uid order tid now1 now2 w.
Proof.
  destruct w as [db tr]. unfold execute_trade, trade_tree.
  cbn [simulator_db trades_db]. rewrite bind_db. cbn [simulator_db].
  destruct (db !! uid) as [st|] eqn:Hdb.
  2:{ rewrite (contains_None _ _ Hdb). reflexivity. }
  rewrite (contains_Some _ _ _ Hdb). mrun.
  destruct (stock_prices st !! symbol order) as [cp|] eqn:Hcp.
  2:{ rewrite (contains_None _ _ Hcp). reflexivity. }
  rewrite (contains_Some _ _ _ Hcp). mrun.
  destruct (execution_price_of order cp) as [p|e]; mrun; [|reflexivity].
  rewrite mul_float_int_spec.
  destruct (in_float_range (quantity order)) eqn:Hq; mrun; [|reflexivity].
  cbn [negb].
  destruct (action order =? "buy").
  { destruct (Qltb (balance st) (p * inject_Z (quantity order))) eqn:Hbal.
    - apply Qltb_lt in Hbal.
      rewrite (bind_Raise _ _ _ _ _ (execute_buy_insufficient _ _ _ _ _ _ Hdb Hbal)).
      reflexivity.
    - apply Qltb_ge in Hbal.
      pose proof (execute_buy_covered _ _ _ _ _ tr Hdb Hbal Hq) as Hbuy.
      destruct (negb (buy_converts _ _)).
      { by rewrite (bind_Raise _ _ _ _ _ Hbuy). }
      destruct (_ =? _)%Z.
      { by rewrite (bind_Raise _ _ _ _ _ Hbuy). }
      rewrite (bind_Return _ _ _ _ _ Hbuy).
      erewrite record_trade_run by apply lookup_insert_eq.
      by rewrite !insert_insert_eq. }
  destruct (action order =? "sell"); [|reflexivity].
  destruct (portfolio st !! symbol order) as [h|] eqn:Hh.
  2:{ rewrite (bind_Raise _ _ _ _ _ (execute_sell_absent _ _ p _ _ _ Hdb Hh)).
      reflexivity. }
  destruct (Z.ltb_spec (shares h) (quantity order)) as [Hlt|Hge].
  - rewrite (bind_Raise _ _ _ _ _ (execute_sell_insufficient _ _ p _ _ _ Hdb _ Hh Hlt)).
    reflexivity.
  - rewrite (bind_Return _ _ _ _ _ (execute_sell_ok _ _ p _ _ _ Hdb _ Hh Hge)).
    erewrite record_trade_run by apply lookup_insert_eq.
    by rewrite !insert_insert_eq.
Qed.


Lemma execution_price_Raise order cp e :
  execution_price_of order cp = Raise e ->
  e = MissingLimitPrice \/ e = UnfavorablePrice.
Proof.
  unfold execution_price_of. destruct (order_type order =? "limit"); [|discriminate].
  destruct (limit_price order) as [limit|]; [|intros [= <-]; by left].
  destruct (_ || _); [intros [= <-]; by right | discriminate].
Qed.

(** The runs of [execute_trade] that return. *)
Lemma execute_trade_Return uid order tid now1 now2 w r w' :
  execute_trade uid order tid now1 now2 w = (Return r, w') ->
  exists st cp p st1,
    simulator_db w !! uid = Some st /\
    stock_prices st !! symbol order = Some cp /\
    execution_price_of order cp = Return p /\
    in_float_range (quantity order) = true /\
    traded st order p st1 /\
    holdings_convert (portfolio st1) (stock_prices st1) /\
    r = response_of order p tid (recorded now2 st1) /\
    w' = mkWorld (<[uid := recorded now2 st1]> (simulator_db w))
                 (trades_db w ++ [trade_of uid order p tid now1]).
Proof.
  rewrite execute_trade_tree. unfold trade_tree, traded. intros Hrun.
  destruct (simulator_db w !! uid) as [st|] eqn:Hst; [|discriminate].
  destruct (stock_prices st !! symbol order) as [cp|] eqn:Hcp; [|discriminate].
  destruct (execution_price_of order cp) as [p|e] eqn:Hp; [|discriminate].
  destruct (in_float_range (quantity order)) eqn:Hq; [|discriminate].
  cbn [negb] in Hrun.
  destruct (String.eqb_spec (action order) "buy") as [Ha|Ha].
  - destruct (Qltb _ _) eqn:Hbal; [discriminate|]. apply Qltb_ge in Hbal.
    destruct (buy_converts _ _) eqn:Hconv; [|discriminate]. cbn [negb] in Hrun.
    destruct (Z.eqb_spec (shares (holding_of st (symbol order)) + quantity order) 0)
      as [Hz|Hz]; [discriminate|].
    destruct (calculate_portfolio_value _ _) as [pv|e] eqn:Hpv; [|discriminate].
    apply calculate_portfolio_value_Return in Hpv as [_ Hpv].
    injection Hrun as <- <-. eexists st, cp, p, _.
    repeat (split; [reflexivity || assumption|]).
    split; [left; auto|]. auto.
  - destruct (String.eqb_spec (action order) "sell") as [Ha'|Ha']; [|discriminate].
    destruct (portfolio st !! symbol order) as [h|] eqn:Hh; [|discriminate].
    destruct (Z.ltb_spec (shares h) (quantity order)) as [Hlt|Hge]; [discriminate|].
    destruct (calculate_portfolio_value _ _) as [pv|e] eqn:Hpv; [|discriminate].
    apply calculate_portfolio_value_Return in Hpv as [_ Hpv].
    injection Hrun as <- <-. eexists st, cp, p, _.
    repeat (split; [reflexivity || assumption|]).
    split; [right; eauto|]. auto.
Qed.

(** The runs of [execute_trade] that raise: a validation failure, or the
    conversion of line 381, with nothing changed; the arithmetic of line
    396, with the debit of line 388 and the entry of line 390 kept; or the
    valuation of line 435, with the trade done, journalled and counted. *)
Lemma execute_trade_Raise uid order tid now1 now2 w e w' :
  execute_trade uid order tid now1 now2 w = (Raise e, w') ->
  (validation_failure e /\ w' = w) \/
  (e = OverflowError /\ w' = w /\ in_float_range (quantity order) = false) \/
  (exists st cp p,
     simulator_db w !! uid = Some st /\
     stock_prices st !! symbol order = Some cp /\
     execution_price_of order cp = Return p /\
     in_float_range (quantity order) = true /\
     action order = "buy" /\
     p * inject_Z (quantity order) <= balance st /\
     (e = OverflowError /\
      buy_converts (holding_of st (symbol order)) (quantity order) = false \/
      e = ZeroDivisionError /\
      buy_converts (holding_of st (symbol order)) (quantity order) = true /\
      (shares (holding_of st (symbol order)) + quantity order)%Z = 0%Z) /\
     w' = mkWorld (<[uid := debited st (symbol order)
                              (p * inject_Z (quantity order))]>
                     (simulator_db w))
                  (trades_db w)) \/
  (exists st cp p st1,
     simulator_db w !! uid = Some st /\
     stock_prices st !! symbol order = Some cp /\
     execution_price_of order cp = Return p /\
     in_float_range (quantity order) = true /\
     traded st order p st1 /\
     ~ holdings_convert (portfolio st1) (stock_prices st1) /\
     e = OverflowError /\
     w' = mkWorld (<[uid := counted now2 st1]> (simulator_db w))
                  (trades_db w ++ [trade_of uid order p tid now1])).
Proof.
  rewrite execute_trade_tree. unfold trade_tree, traded, validation_failure.
  intros Hrun.
  destruct (simulator_db w !! uid) as [st|] eqn:Hst.
  2:{ injection Hrun as <- <-. left. cbn. tauto. }
  destruct (stock_prices st !! symbol order) as [cp|] eqn:Hcp.
  2:{ injection Hrun as <- <-. left. cbn. tauto. }
  destruct (execution_price_of order cp) as [p|e'] eqn:Hp.
  2:{ injection Hrun as <- <-. left.
      destruct (execution_price_Raise _ _ _ Hp) as [-> | ->]; cbn; tauto. }
  destruct (in_float_range (quantity order)) eqn:Hq.
  2:{ injection Hrun as <- <-. right. left. auto. }
  cbn [negb] in Hrun.
  destruct (String.eqb_spec (action order) "buy") as [Ha|Ha].
  - destruct (Qltb _ _) eqn:Hbal.
    { injection Hrun as <- <-. left. cbn. tauto. }
    apply Qltb_ge in Hbal.
    destruct (buy_converts _ _) eqn:Hconv; cbn [negb] in Hrun.
    2:{ injection Hrun as <- <-. right. right. left.
        exists st, cp, p. repeat (split; [reflexivity || assumption|]).
        split; [left; auto|reflexivity]. }
    destruct (Z.eqb_spec (shares (holding_of st (symbol order)) + quantity order) 0)
      as [Hz|Hz].
    { injection Hrun as <- <-. right. right. left.
      exists st, cp, p. repeat (split; [reflexivity || assumption|]).
      split; [right; auto|reflexivity]. }
    destruct (calculate_portfolio_value _ _) as [pv|e'] eqn:Hpv; [discriminate|].
    apply calculate_portfolio_value_Raise in Hpv as [-> Hpv].
    injection Hrun as <- <-. right. right. right. eexists st, cp, p, _.
    repeat (split; [reflexivity || assumption|]).
    split; [left; auto|]. auto.
  - destruct (String.eqb_spec (action order) "sell") as [Ha'|Ha'].
    2:{ injection Hrun as <- <-. left. cbn. tauto. }
    destruct (portfolio st !! symbol order) as [h|] eqn:Hh.
    2:{ injection Hrun as <- <-. left. cbn. tauto. }
    destruct (Z.ltb_spec (shares h) (quantity order)) as [Hlt|Hge].
    { injection Hrun as <- <-. left. cbn. tauto. }
    destruct (calculate_portfolio_value _ _) as [pv|e'] eqn:Hpv; [discriminate|].
    apply calculate_portfolio_value_Raise in Hpv as [-> Hpv].
    injection Hrun as <- <-. right. right. right. eexists st, cp, p, _.
    repeat (split; [reflexivity || assumption|]).
    split; [right; eauto|]. auto.
Qed.

Lemma str_in_true s l : str_in s l = true <-> s ∈ l.
Proof.
  unfold str_in. rewrite existsb_exists, list_elem_of_In. split.
  - intros (x & Hx & ->%String.eqb_eq). exact Hx.
  - intros H. exists s. split; [exact H | apply String.eqb_refl].
Qed.

Lemma valid_level_cases level :
  str_in level ["beginner"; "intermediate"; "advanced"] = true ->
  level = "beginner" \/ level = "intermediate" \/ level = "advanced".
Proof.
  rewrite str_in_true. rewrite !elem_of_cons, elem_of_nil. tauto.
Qed.

(** The comprehension of line 309 succeeds when every symbol is priced,
    and overrides [acc] exactly on the symbols it visits. *)
Lemma price_comprehension_ok l : forall acc w,
  Forall (fun s => is_Some (INITIAL_PRICES !! s)) l ->
  exists prices,
    price_comprehension l acc w = (Return prices, w) /\
    forall s, prices !! s
              = if decide (s ∈ l) then INITIAL_PRICES !! s else acc !! s.
Proof.
  induction l as [|x l IH]; intros acc w Hall.
  - exists acc. split; [reflexivity|]. intros s.
    destruct (decide (s ∈ [])) as [H|H]; [by apply elem_of_nil in H | done].
  - inversion Hall as [|? ? [p Hp] Hl]; subst.
    destruct (IH (<[x := p]> acc) w Hl) as (prices & Hrun & Hlook).
    exists prices. split.
    + cbn [price_comprehension]. rewrite (getitem_Some _ _ _ Hp).
      rewrite bind_lift_Return. exact Hrun.
    + intros s. rewrite Hlook.
      destruct (decide (s ∈ l)) as [Hin|Hnin].
      * rewrite decide_True by (by apply elem_of_cons; right). done.
      * destruct (decide (s = x)) as [->|Hne].
        -- rewrite decide_True by (by apply elem_of_cons; left).
           by rewrite lookup_insert_eq.
        -- rewrite decide_False.
           ++ by rewrite lookup_insert_ne.
           ++ rewrite elem_of_cons. tauto.
Qed.

Lemma universe_priced level :
  Forall (fun s => is_Some (INITIAL_PRICES !! s)) (universe level).
Proof.
  unfold universe. destruct (STOCK_DATA !! level) as [l|] eqn:E; [|constructor].
  assert (Hl : (level, l) ∈ map_to_list STOCK_DATA) by (by apply elem_of_map_to_list).
  revert Hl. vm_compute map_to_list. rewrite !elem_of_cons, elem_of_nil.
  intros [H|[H|[H|[]]]]; injection H as _ ->;
    repeat (constructor; [by eexists|]); constructor.
Qed.

Lemma initialize_simulator_invalid uid level now1 now2 w :
  str_in level ["beginner"; "intermediate"; "advanced"] = false ->
  initialize_simulator uid level now1 now2 w = (Raise InvalidLevel, w).
Proof.
  intros H. unfold initialize_simulator. rewrite H. reflexivity.
Qed.

Lemma initialize_simulator_valid uid level now1 now2 w :
  str_in level ["beginner"; "intermediate"; "advanced"] = true ->
  exists seed prices,
    seed_balance level = Some seed /\
    (forall s, prices !! s
               = if decide (s ∈ universe level) then INITIAL_PRICES !! s else None) /\
    initialize_simulator uid level now1 now2 w
    = (Return (mkInitResponse "Simulator initialized successfully" level seed
                 (universe level) prices),
       mkWorld (<[uid := fresh_session uid level seed prices now1 now2]>
                  (simulator_db w))
               (trades_db w)).
Proof.
  intros Hv. unfold initialize_simulator. rewrite Hv. cbn [negb].
  assert (Hs : exists seed l, initial_balances !! level = Some seed
                              /\ STOCK_DATA !! level = Some l).
  { destruct (valid_level_cases _ Hv) as [->|[->| ->]]; eexists _, _; split; reflexivity. }
  destruct Hs as (seed & l & Hseed & Hl).
  assert (Hu : universe level = l) by (unfold universe; by rewrite Hl).
  destruct (price_comprehension_ok (universe level) ∅ w (universe_priced level))
    as (prices & Hrun & Hlook).
  exists seed, prices. split; [exact Hseed|]. split.
  { intros s. rewrite Hlook. by rewrite lookup_empty. }
  rewrite (getitem_Some _ _ _ Hseed), bind_lift_Return.
  rewrite (getitem_Some _ _ _ Hl), bind_lift_Return.
  rewrite <- Hu. rewrite (bind_Return _ _ _ _ _ Hrun).
  destruct w as [db tr]. reflexivity.
Qed.


(** C9.  [initialize_simulator] turns down every level outside beginner,
    intermediate and advanced with [InvalidLevel] and leaves the world as
    it was.  For a valid level it stores a session whose balance and
    initial balance are the seed of the level (2000, 5000, 10000), whose
    price table holds exactly the symbols of the level at their
    [INITIAL_PRICES], and whose trade counter is 0; no other session is
    touched. *)
Theorem init_account_seeds_session uid level now1 now2 w :
  (level ∉ valid_levels ->
   initialize_simulator uid level now1 now2 w = (Raise InvalidLevel, w)) /\
  (level ∈ valid_levels ->
   exists resp w' st seed,
     initialize_simulator uid level now1 now2 w = (Return resp, w') /\
     simulator_db w' !! uid = Some st /\
     (forall u, u <> uid -> simulator_db w' !! u = simulator_db w !! u) /\
     seed_balance level = Some seed /\
     (level = "beginner" -> seed = 2000%Z) /\
     (level = "intermediate" -> seed = 5000%Z) /\
     (level = "advanced" -> seed = 10000%Z) /\
     balance st = inject_Z seed /\
     initial_balance st = inject_Z seed /\
     (forall s, stock_prices st !! s
                = if decide (s ∈ universe level) then INITIAL_PRICES !! s
                  else None) /\
     (forall s, s ∈ universe level -> is_Some (stock_prices st !! s)) /\
     trade_count st = 0%Z /\
     ir_initial_balance resp = seed /\
     ir_available_stocks resp = universe level /\
     ir_stock_prices resp = stock_prices st).
Proof.
  split.
  - intros Hbad. apply initialize_simulator_invalid.
    destruct (str_in level _) eqn:E; [|reflexivity].
    apply str_in_true in E. contradiction.
  - intros Hok%str_in_true.
    destruct (initialize_simulator_valid uid level now1 now2 w Hok)
      as (seed & prices & Hseed & Hprices & Hrun).
    eexists _, _, _, seed. split; [exact Hrun|].
    cbn [simulator_db]. rewrite lookup_insert_eq.
    split; [reflexivity|]. split.
    { intros u Hu. by rewrite lookup_insert_ne. }
    split; [exact Hseed|].
    repeat split; try reflexivity.
    + intros ->. revert Hseed. by intros [= <-].
    + intros ->. revert Hseed. by intros [= <-].
    + intros ->. revert Hseed. by intros [= <-].
    + exact Hprices.
    + intros s Hs. cbn [stock_prices fresh_session]. rewrite Hprices.
      rewrite decide_True by exact Hs.
      pose proof (universe_priced level) as Hall.
      rewrite Forall_forall in Hall. by apply Hall.
Qed.

Lemma init_account_seeds_session_witness :
  initialize_simulator "u" "expert" 0 0 empty_world = (Raise InvalidLevel, empty_world)
  /\ exists resp w' st,
       initialize_simulator "u" "beginner" 0 0 empty_world = (Return resp, w')
       /\ simulator_db w' !! "u" = Some st
       /\ balance st = 2000.
Proof.
  split.
  - apply (init_account_seeds_session "u" "expert" 0 0 empty_world).
    unfold valid_levels. rewrite !elem_of_cons, elem_of_nil.
    intros [H|[H|[H|[]]]]; discriminate H.
  - destruct (proj2 (init_account_seeds_session "u" "beginner" 0 0 empty_world))
      as (resp & w' & st & seed & Hrun & Hst & _ & _ & Hb & _ & _ & Hbal & _).
    + unfold valid_levels. apply elem_of_cons. by left.
    + exists resp, w', st. rewrite Hbal, (Hb eq_refl). auto.
Defined.

(** C1.  An order that [execute_trade] turns down with one of the seven
    validation failures leaves the world untouched: sessions (balance,
    holdings, trade count) and journal are the ones before the call. *)
Theorem failed_order_mutates_nothing uid order tid now1 now2 w e w' :
  execute_trade uid order tid now1 now2 w = (Raise e, w') ->
  validation_failure e ->
  w' = w.
Proof.
  intros Hrun Hfail.
  destruct (execute_trade_Raise _ _ _ _ _ _ _ _ Hrun)
    as [[_ ->]|[(-> & _)|[(st & cp & p & _ & _ & _ & _ & _ & _ & He & _)
                          |(st & cp & p & st1 & _ & _ & _ & _ & _ & _ & -> & _)]]];
    [reflexivity| | |]; exfalso; revert Hfail; unfold validation_failure; cbn.
  - intuition discriminate.
  - destruct He as [[-> _]|[-> _]]; intuition discriminate.
  - intuition discriminate.
Qed.

Lemma failed_order_mutates_nothing_witness :
  snd (execute_trade "u" (market_order "buy" "AAPL" 1000) "t" 1 1 beginner_world)
  = beginner_world.
Proof.
  apply (failed_order_mutates_nothing "u" (market_order "buy" "AAPL" 1000) "t"
           1 1 beginner_world InsufficientBalance).
  - vm_compute. reflexivity.
  - unfold validation_failure. cbn. tauto.
Defined.


Lemma get_trade_history_run uid limit w :
  get_trade_history uid limit w
  = (Return (mkHistoryResponse uid
               (slice_to (history_of uid (trades_db w)) (default 50%Z limit))
               (Z.of_nat (length (history_of uid (trades_db w))))),
     w).
Proof. reflexivity. Qed.

(** The response of lines 343-355 for the session [st]. *)
Lemma get_simulator_state_run uid w st :
  simulator_db w !! uid = Some st ->
  get_simulator_state uid w
  = match calculate_portfolio_value (portfolio st) (stock_prices st) with
    | Return _ =>
        (Return (mkStateResponse uid (level st) (balance st) (portfolio st)
                   (stock_prices st)
                   (holdings_value (portfolio st) (stock_prices st))
                   (account_value st) (initial_balance st) (account_pnl st)
                   (trade_count st) (last_updated st)),
         w)
    | Raise e => (Raise e, w)
    end.
Proof.
  intros H. destruct w as [db tr]. cbn [simulator_db] in H.
  unfold get_simulator_state. rewrite bind_db. cbn [simulator_db].
  rewrite (contains_Some _ _ _ H). mrun.
  destruct (calculate_portfolio_value _ _) as [pv|e] eqn:Hpv; mrun.
  - apply calculate_portfolio_value_Return in Hpv as [-> _]. reflexivity.
  - reflexivity.
Qed.

Lemma get_simulator_state_world uid w : snd (get_simulator_state uid w) = w.
Proof.
  destruct (simulator_db w !! uid) as [st|] eqn:Hst.
  - rewrite (get_simulator_state_run _ _ _ Hst).
    by destruct (calculate_portfolio_value _ _).
  - unfold get_simulator_state. rewrite bind_db.
    by rewrite (contains_None _ _ Hst).
Qed.

Lemma get_simulator_state_absent uid w :
  simulator_db w !! uid = None ->
  get_simulator_state uid w = (Raise AccountNotInitialized, w).
Proof.
  intros H. unfold get_simulator_state. rewrite bind_db.
  rewrite (contains_None _ _ H). reflexivity.
Qed.

(** *** The sort of line 460 *)

Lemma insert_desc_perm t l : Permutation (insert_desc t l) (t :: l).
Proof.
  induction l as [|u l IH]; cbn [insert_desc]; [reflexivity|].
  destruct (te_timestamp u <=? te_timestamp t)%Z; [reflexivity|].
  rewrite IH. apply perm_swap.
Qed.

Lemma sort_by_timestamp_desc_perm l : Permutation (sort_by_timestamp_desc l) l.
Proof.
  induction l as [|t l IH]; [reflexivity|].
  cbn [sort_by_timestamp_desc foldr]. fold (sort_by_timestamp_desc l).
  rewrite insert_desc_perm. by constructor.
Qed.

Lemma insert_desc_sorted t l :
  StronglySorted newer_or_same l -> StronglySorted newer_or_same (insert_desc t l).
Proof.
  induction 1 as [|u l Hl IH Hu]; cbn [insert_desc].
  - repeat constructor.
  - destruct (Z.leb_spec (te_timestamp u) (te_timestamp t)) as [Hle|Hgt].
    + constructor; [by constructor|]. constructor; [exact Hle|].
      eapply Forall_impl; [exact Hu|]. unfold newer_or_same. intros; lia.
    + constructor; [exact IH|].
      rewrite insert_desc_perm. constructor; [|exact Hu].
      unfold newer_or_same. lia.
Qed.

Lemma sort_by_timestamp_desc_sorted l :
  StronglySorted newer_or_same (sort_by_timestamp_desc l).
Proof.
  induction l as [|t l IH]; [constructor|].
  cbn [sort_by_timestamp_desc foldr]. by apply insert_desc_sorted.
Qed.

(** Without ties the order is strict. *)
Lemma sorted_strict l :
  StronglySorted newer_or_same l ->
  NoDup (te_timestamp <$> l) ->
  StronglySorted strictly_newer l.
Proof.
  induction 1 as [|t l Hl IH Ht]; [constructor|].
  rewrite fmap_cons, NoDup_cons. intros [Hnin Hnd].
  constructor; [by apply IH|].
  rewrite Forall_forall in Ht |- *. intros u Hu.
  specialize (Ht u Hu). unfold newer_or_same, strictly_newer in *.
  destruct (decide (te_timestamp u = te_timestamp t)) as [Heq|Hne]; [|lia].
  exfalso. apply Hnin. rewrite <- Heq. by apply list_elem_of_fmap_2.
Qed.

Lemma sorted_take {A} (R : A -> A -> Prop) n l :
  StronglySorted R l -> StronglySorted R (take n l).
Proof.
  intros H. revert n. induction H as [|x l Hl IH Hx]; intros [|n];
    cbn [take]; try constructor.
  - apply IH.
  - by apply Forall_take.
Qed.

(** *** The slice of line 464 *)

Lemma slice_to_nonneg {A} (l : list A) limit :
  (0 <= limit)%Z -> slice_to l limit = take (Z.to_nat limit) l.
Proof. intros H%Z.leb_le. unfold slice_to. by rewrite H. Qed.

Lemma slice_to_neg {A} (l : list A) limit :
  (limit < 0)%Z ->
  slice_to l limit = take (length l - Z.to_nat (- limit)) l.
Proof.
  intros H. unfold slice_to. rewrite (proj2 (Z.leb_gt _ _) H).
  f_equal. lia.
Qed.

Lemma slice_to_prefix {A} (l : list A) limit :
  exists n, slice_to l limit = take n l.
Proof. unfold slice_to. destruct (_ <=? _)%Z; eauto. Qed.

Lemma history_of_perm uid journal :
  Permutation (history_of uid journal)
              (filter (fun t => te_user_id t = uid) journal).
Proof. apply sort_by_timestamp_desc_perm. Qed.

(** C8.  Re-initialising a user who already has a session replaces the
    session (seed balance, empty portfolio, seeded prices, trade counter
    0) and keeps the journal: a history query afterwards answers exactly
    as before, and what it answers is the trades the user made before the
    re-initialisation: its count is the number of the user's entries in
    the journal as it was, and its page is the page of those entries,
    newest first. *)
Theorem reinitialize_keeps_journal uid level now1 now2 w :
  is_Some (simulator_db w !! uid) ->
  level ∈ valid_levels ->
  exists resp w' st seed,
    initialize_simulator uid level now1 now2 w = (Return resp, w') /\
    simulator_db w' !! uid = Some st /\
    seed_balance level = Some seed /\
    balance st = inject_Z seed /\
    portfolio st = ∅ /\
    (forall s, stock_prices st !! s
               = if decide (s ∈ universe level) then INITIAL_PRICES !! s
                 else None) /\
    trade_count st = 0%Z /\
    trades_db w' = trades_db w /\
    forall limit,
      fst (get_trade_history uid limit w') = fst (get_trade_history uid limit w) /\
      exists page,
        get_trade_history uid limit w' = (Return page, w') /\
        hr_user_id page = uid /\
        hr_total_trades page
        = Z.of_nat (length (filter (fun t => te_user_id t = uid) (trades_db w))) /\
        hr_trades page
        = slice_to (history_of uid (trades_db w)) (default 50%Z limit) /\
        Permutation (history_of uid (trades_db w))
                    (filter (fun t => te_user_id t = uid) (trades_db w)) /\
        StronglySorted newer_or_same (history_of uid (trades_db w)).
Proof.
  intros _ Hok%str_in_true.
  destruct (initialize_simulator_valid uid level now1 now2 w Hok)
    as (seed & prices & Hseed & Hprices & Hrun).
  eexists _, _, _, seed. split; [exact Hrun|].
  cbn [simulator_db trades_db]. rewrite lookup_insert_eq.
  do 6 (split; [reflexivity || assumption|]).
  split; [reflexivity|]. intros limit. split; [reflexivity|].
  eexists. split; [apply get_trade_history_run|].
  cbn [hr_user_id hr_total_trades hr_trades trades_db].
  split; [reflexivity|]. split.
  { by rewrite (Permutation_length (history_of_perm uid (trades_db w))). }
  split; [reflexivity|]. split; [apply history_of_perm|].
  apply sort_by_timestamp_desc_sorted.
Qed.

Lemma reinitialize_keeps_journal_witness :
  let w := handle (Trade "u" (market_order "buy" "AAPL" 5) "t1" 1 1)
                  beginner_world in
  exists resp w' st,
    initialize_simulator "u" "advanced" 2 2 w = (Return resp, w') /\
    simulator_db w' !! "u" = Some st /\
    balance st = 10000 /\
    portfolio st = ∅ /\
    trade_count st = 0%Z /\
    length (trades_db w) = 1%nat /\
    trades_db w' = trades_db w /\
    fst (get_trade_history "u" None w') = fst (get_trade_history "u" None w) /\
    exists page,
      get_trade_history "u" None w' = (Return page, w') /\
      hr_total_trades page = 1%Z /\
      hr_trades page = [trade_of "u" (market_order "buy" "AAPL" 5) 175.50 "t1" 1].
Proof.
  intros w.
  destruct (reinitialize_keeps_journal "u" "advanced" 2 2 w)
    as (resp & w' & st & seed & Hrun & Hst & Hseed & Hbal & Hpf & _ & Hcount
        & Htr & Hh).
  - eexists. vm_compute. reflexivity.
  - unfold valid_levels. rewrite !elem_of_cons. tauto.
  - exists resp, w', st. injection Hseed as <-.
    destruct (Hh None) as (Hsame & page & Hpage & _ & Htotal & Htrades & _).
    do 7 (split; [assumption || reflexivity|]).
    split; [exact Hsame|]. exists page. split; [exact Hpage|].
    rewrite Htotal, Htrades. split; vm_compute; reflexivity.
Defined.


(** The loop of lines 159-161 computes the sum the specification names. *)
Lemma holdings_value_sum portfolio prices :
  holdings_value portfolio prices == market_value portfolio prices.
Proof.
  unfold holdings_value, market_value. rewrite map_fold_foldr.
  induction (map_to_list portfolio) as [|[sym h] l IH]; [reflexivity|].
  cbn [foldr fmap list_fmap uncurry fst snd]. rewrite <- IH.
  destruct (prices !! sym) as [p|]; cbn [default from_option id].
  - apply Qplus_comm.
  - rewrite Qmult_0_r, Qplus_0_l. reflexivity.
Qed.

Lemma calculate_portfolio_value_sum portfolio prices v :
  calculate_portfolio_value portfolio prices = Return v ->
  v == market_value portfolio prices.
Proof.
  intros [-> _]%calculate_portfolio_value_Return. apply holdings_value_sum.
Qed.

(** C5.  What the endpoints report is consistent.  A state query reports
    total_value = balance + portfolio_value and pnl = total_value -
    initial_balance, with portfolio_value what
    [calculate_portfolio_value] returns: the sum over the holdings of
    shares times current price (no price counts 0); the response of a
    trade reports the same totals for the session it leaves, and a state
    query right after it repeats them; right after an initialisation a
    state query succeeds and reports consistent totals, and so it does
    right after a price update, unless a share count lies beyond the
    doubles, in which case the valuation raises [OverflowError]. *)
Theorem reported_totals_consistent uid w :
  (forall r w',
     get_simulator_state uid w = (Return r, w') ->
     w' = w /\
     sr_total_value r = sr_balance r + sr_portfolio_value r /\
     sr_pnl r = sr_total_value r - sr_initial_balance r /\
     calculate_portfolio_value (sr_portfolio r) (sr_stock_prices r)
     = Return (sr_portfolio_value r) /\
     sr_portfolio_value r == market_value (sr_portfolio r) (sr_stock_prices r)) /\
  (forall order tid now1 now2 r w',
     execute_trade uid order tid now1 now2 w = (Return r, w') ->
     exists st' pv,
       simulator_db w' !! uid = Some st' /\
       tr_new_balance r = balance st' /\
       tr_portfolio r = portfolio st' /\
       calculate_portfolio_value (tr_portfolio r) (stock_prices st') = Return pv /\
       tr_total_value r = tr_new_balance r + pv /\
       pv == market_value (tr_portfolio r) (stock_prices st') /\
       tr_pnl r = tr_total_value r - initial_balance st' /\
       total_pnl st' = tr_pnl r /\
       fst (get_simulator_state uid w')
       = Return (mkStateResponse uid (level st') (balance st') (portfolio st')
                   (stock_prices st') pv
                   (tr_total_value r) (initial_balance st') (tr_pnl r)
                   (trade_count st') (last_updated st'))) /\
  (forall level now1 now2 resp w',
     initialize_simulator uid level now1 now2 w = (Return resp, w') ->
     exists r,
       get_simulator_state uid w' = (Return r, w') /\
       sr_balance r = inject_Z (ir_initial_balance resp) /\
       sr_portfolio_value r = 0 /\
       sr_total_value r = sr_balance r + sr_portfolio_value r /\
       sr_pnl r = sr_total_value r - sr_initial_balance r /\
       sr_pnl r == 0) /\
  (forall draw now resp w',
     update_stock_prices uid draw now w = (Return resp, w') ->
     exists st',
       simulator_db w' !! uid = Some st' /\
       stock_prices st' = pr_new_prices resp /\
       (holdings_convert (portfolio st') (stock_prices st') ->
        exists r,
          get_simulator_state uid w' = (Return r, w') /\
          sr_stock_prices r = pr_new_prices resp /\
          sr_total_value r = sr_balance r + sr_portfolio_value r /\
          sr_pnl r = sr_total_value r - sr_initial_balance r /\
          sr_portfolio_value r
          == market_value (sr_portfolio r) (pr_new_prices resp)) /\
       (~ holdings_convert (portfolio st') (stock_prices st') ->
        get_simulator_state uid w' = (Raise OverflowError, w'))).
Proof.
  split; [|split; [|split]].
  - intros r w' Hrun.
    destruct (simulator_db w !! uid) as [st|] eqn:Hst.
    + rewrite (get_simulator_state_run _ _ _ Hst) in Hrun.
      destruct (calculate_portfolio_value _ _) as [pv|e] eqn:Hpv; [|discriminate].
      pose proof (calculate_portfolio_value_Return _ _ _ Hpv) as [-> _].
      injection Hrun as <- <-. cbn.
      repeat split; try reflexivity; [exact Hpv|apply holdings_value_sum].
    + rewrite (get_simulator_state_absent _ _ Hst) in Hrun. discriminate.
  - intros order tid now1 now2 r w' Hrun.
    destruct (execute_trade_Return _ _ _ _ _ _ _ _ Hrun)
      as (st & cp & p & st1 & Hst & _ & _ & _ & _ & Hconv & -> & ->).
    pose proof (calculate_portfolio_value_ok _ _ Hconv) as Hpv.
    exists (recorded now2 st1), (holdings_value (portfolio st1) (stock_prices st1)).
    cbn [simulator_db]. rewrite lookup_insert_eq. split; [reflexivity|].
    split; [reflexivity|]. split; [reflexivity|]. split; [exact Hpv|].
    split; [reflexivity|]. split; [apply holdings_value_sum|].
    split; [reflexivity|]. split; [reflexivity|].
    erewrite get_simulator_state_run
      by (cbn [simulator_db]; apply lookup_insert_eq).
    change (portfolio (recorded now2 st1)) with (portfolio st1).
    change (stock_prices (recorded now2 st1)) with (stock_prices st1).
    rewrite Hpv. reflexivity.
  - intros level now1 now2 resp w' Hrun.
    destruct (str_in level valid_levels) eqn:Hv.
    2:{ unfold valid_levels in Hv.
        rewrite (initialize_simulator_invalid _ _ _ _ _ Hv) in Hrun.
        discriminate. }
    destruct (initialize_simulator_valid uid level now1 now2 w Hv)
      as (seed & prices & Hseed & Hprices & Hrun').
    rewrite Hrun' in Hrun. injection Hrun as <- <-.
    eexists. split.
    { erewrite get_simulator_state_run
        by (cbn [simulator_db]; apply lookup_insert_eq).
      reflexivity. }
    cbn. repeat split; try reflexivity.
    unfold account_pnl, account_value. cbn.
    change (holdings_value ∅ prices) with 0. ring.
  - intros draw now resp w'. destruct w as [db tr].
    unfold update_stock_prices. rewrite bind_db. cbn [simulator_db].
    destruct (db !! uid) as [st|] eqn:Hst.
    2:{ rewrite (contains_None _ _ Hst). discriminate. }
    rewrite (contains_Some _ _ _ Hst). mrun. intros [= <- <-].
    eexists. cbn [simulator_db]. rewrite lookup_insert_eq.
    split; [reflexivity|]. split; [reflexivity|]. split.
    + intros Hconv. eexists. split.
      { erewrite get_simulator_state_run
          by (cbn [simulator_db]; apply lookup_insert_eq).
        rewrite (calculate_portfolio_value_ok _ _ Hconv). reflexivity. }
      cbn. repeat split; try reflexivity. apply holdings_value_sum.
    + intros Hconv.
      erewrite get_simulator_state_run
        by (cbn [simulator_db]; apply lookup_insert_eq).
      destruct (calculate_portfolio_value_cases
                  (portfolio (set_last_updated now
                     (set_stock_prices
                        (map_imap (fun symbol p => Some (simulate_price_change p (draw symbol)))
                                  (stock_prices st)) st)))
                  (stock_prices (set_last_updated now
                     (set_stock_prices
                        (map_imap (fun symbol p => Some (simulate_price_change p (draw symbol)))
                                  (stock_prices st)) st))))
        as [[Hc _]|[_ ->]]; [contradiction|reflexivity].
Qed.


Lemma reported_totals_consistent_witness :
  exists r w',
    execute_trade "u" (market_order "buy" "AAPL" 5) "t1" 1 1 beginner_world
    = (Return r, w') /\
    tr_new_balance r == 1122.50 /\
    tr_total_value r == 2000 /\
    tr_pnl r == 0.
Proof.
  destruct (execute_trade "u" (market_order "buy" "AAPL" 5) "t1" 1 1 beginner_world)
    as [[r|e] w'] eqn:Hrun; [|vm_compute in Hrun; discriminate Hrun].
  destruct (proj1 (proj2 (reported_totals_consistent "u" beginner_world))
              _ _ _ _ _ _ Hrun)
    as (st' & Hst & Hbal & Hpf & Htot & _ & Hpnl & _).
  exists r, w'. split; [reflexivity|].
  vm_compute in Hrun. injection Hrun as <- <-.
  repeat split; reflexivity.
Defined.

(** C7.  Quantity is not checked for positivity.  A buy of 0 shares of a
    tradeable symbol that is not held, on an account whose balance is not
    negative and whose price gate lets the order through, passes the
    balance check, creates the holding with 0 shares and the int average
    0, and then raises [ZeroDivisionError]: the zero-share holding stays in the
    portfolio, while balance, trade counter and journal are as before. *)
Theorem zero_quantity_buy_divides_by_zero uid order tid now1 now2 w st cp p :
  simulator_db w !! uid = Some st ->
  stock_prices st !! symbol order = Some cp ->
  execution_price_of order cp = Return p ->
  action order = "buy" ->
  quantity order = 0%Z ->
  portfolio st !! symbol order = None ->
  0 <= balance st ->
  exists w' st',
    execute_trade uid order tid now1 now2 w = (Raise ZeroDivisionError, w') /\
    simulator_db w' !! uid = Some st' /\
    portfolio st' !! symbol order = Some (mkHolding 0 (PyInt 0)) /\
    (forall s, s <> symbol order -> portfolio st' !! s = portfolio st !! s) /\
    balance st' == balance st /\
    trade_count st' = trade_count st /\
    trades_db w' = trades_db w.
Proof.
  intros Hst Hcp Hp Hact Hq Hpf Hbal.
  rewrite execute_trade_tree. unfold trade_tree.
  rewrite Hst, Hcp, Hp, Hact, Hq. cbn [String.eqb Ascii.eqb Bool.eqb].
  change (in_float_range 0) with true. cbn [negb].
  assert (Hcost : p * inject_Z 0 == 0) by ring.
  assert (Hge : Qltb (balance st) (p * inject_Z 0) = false).
  { apply Qltb_ge. by rewrite Hcost. }
  rewrite Hge. unfold holding_of at 1 2. rewrite Hpf.
  change (buy_converts (mkHolding 0 (PyInt 0)) 0) with true.
  cbn [negb shares Z.add Z.eqb].
  eexists _, _. split; [reflexivity|].
  cbn [simulator_db trades_db]. rewrite lookup_insert_eq.
  split; [reflexivity|].
  unfold debited, holding_of. rewrite Hpf. cbn [portfolio set_portfolio].
  rewrite lookup_insert_eq. split; [reflexivity|]. split.
  { intros s Hs. by rewrite lookup_insert_ne. }
  repeat split. cbn. rewrite Hcost. ring.
Qed.

Lemma zero_quantity_buy_divides_by_zero_witness :
  exists w' st',
    execute_trade "u" (market_order "buy" "AAPL" 0) "t" 1 1 beginner_world
    = (Raise ZeroDivisionError, w') /\
    simulator_db w' !! "u" = Some st' /\
    portfolio st' !! "AAPL" = Some (mkHolding 0 (PyInt 0)).
Proof.
  destruct (zero_quantity_buy_divides_by_zero "u" (market_order "buy" "AAPL" 0)
              "t" 1 1 beginner_world
              (fresh_session "u" "beginner" 2000
                 (stock_prices (fresh_session "u" "beginner" 2000
                    (list_to_map [("AAPL", 175.50); ("GOOGL", 142.80);
                                  ("MSFT", 378.90); ("AMZN", 145.30);
                                  ("TSLA", 248.70)]) 0 0)) 0 0)
              175.50 175.50)
    as (w' & st' & Hrun & Hst & Hh & _);
    try (vm_compute; reflexivity).
  - vm_compute. discriminate.
  - exists w', st'. auto.
Defined.


(** The price gate of lines 371-379, case by case. *)
Lemma execution_price_market order cp :
  order_type order <> "limit" -> execution_price_of order cp = Return cp.
Proof.
  intros H%String.eqb_neq. unfold execution_price_of. by rewrite H.
Qed.




(** A price that passed the gate: the market price for a market order,
    never below it for a buy and never above it for a sell. *)
Lemma execution_price_gate order cp p :
  execution_price_of order cp = Return p ->
  (order_type order <> "limit" -> p = cp) /\
  (action order = "buy" -> cp <= p) /\
  (action order = "sell" -> p <= cp).
Proof.
  unfold execution_price_of.
  destruct (order_type order =? "limit") eqn:Ht.
  - apply String.eqb_eq in Ht.
    destruct (limit_price order) as [limit|]; [|discriminate].
    destruct (String.eqb_spec (action order) "buy") as [Ha|Ha].
    + rewrite Ha. cbn [String.eqb Ascii.eqb Bool.eqb andb orb].
      destruct (Qltb limit cp) eqn:Hl; [discriminate|].
      apply Qltb_ge in Hl. intros [= <-].
      split; [congruence|]. split; [auto|discriminate].
    + destruct (String.eqb_spec (action order) "sell") as [Ha'|Ha'].
      * cbn [andb orb]. destruct (Qltb cp limit) eqn:Hl; [discriminate|].
        apply Qltb_ge in Hl. intros [= <-].
        split; [congruence|]. split; [congruence|auto].
      * intros _. split; [congruence|]. split; congruence.
  - intros [= <-]. split; [reflexivity|]. split; intros _; apply Qle_refl.
Qed.





Lemma beginner_world_session :
  simulator_db beginner_world !! "u" = Some beginner_session.
Proof. vm_compute. reflexivity. Qed.

Lemma holder_world_session :
  simulator_db holder_world !! "u" = Some holder_session.
Proof. vm_compute. reflexivity. Qed.


(** C4, refuted as stated: an oversell through an unfavourable limit order
    is turned down for its price, not for the missing shares. *)
Lemma oversell_rule_always_fails :
  ~ oversell_rule_always "u" (limit_order "sell" "AAPL" 10 1000) "t" 2 2
      holder_world holder_session.
Proof.
  intros H. specialize (H holder_world_session eq_refl).
  assert (Hless : holds_less holder_session "AAPL" 10) by (vm_compute; reflexivity).
  specialize (H Hless). vm_compute in H. discriminate H.
Qed.

(** C4, amended.  For a sell order on an existing session: an order for
    more shares than are held (or for a symbol that is not held) is
    turned down and changes nothing; the failure is [InsufficientShares]
    whenever the symbol is tradeable, the price gate lets the order
    through and the quantity converts to a float at line 381, where it
    raises [OverflowError] otherwise.  A sell of at most the held shares
    that passes the gate and converts credits the balance with price x
    quantity, leaves the other holdings alone, removes the entry when all
    shares are sold and otherwise lowers the share count and keeps the
    average cost, and is journalled and counted; the response follows
    unless the valuation of line 435 overflows. *)
Theorem sell_updates_holding uid order tid now1 now2 w st :
  simulator_db w !! uid = Some st ->
  action order = "sell" ->
  let sym := symbol order in
  let q := quantity order in
  let res := execute_trade uid order tid now1 now2 w in
  (holds_less st sym q ->
   snd res = w /\
   (exists e, fst res = Raise e /\ (validation_failure e \/ e = OverflowError)) /\
   forall cp p,
     stock_prices st !! sym = Some cp ->
     execution_price_of order cp = Return p ->
     fst res = if in_float_range q then Raise InsufficientShares
               else Raise OverflowError) /\
  (forall cp p h,
     stock_prices st !! sym = Some cp ->
     execution_price_of order cp = Return p ->
     portfolio st !! sym = Some h ->
     (q <= shares h)%Z ->
     (in_float_range q = false -> res = (Raise OverflowError, w)) /\
     (in_float_range q = true ->
      exists st',
        simulator_db (snd res) !! uid = Some st' /\
        balance st' = balance st + p * inject_Z q /\
        (forall s, s <> sym -> portfolio st' !! s = portfolio st !! s) /\
        (q = shares h -> portfolio st' !! sym = None) /\
        ((q < shares h)%Z ->
         portfolio st' !! sym = Some (mkHolding (shares h - q) (avg_price h))) /\
        trades_db (snd res)
        = (trades_db w ++ [trade_of uid order p tid now1])%list /\
        trade_count st' = (trade_count st + 1)%Z /\
        (holdings_convert (portfolio st') (stock_prices st') ->
         exists r, fst res = Return r) /\
        (~ holdings_convert (portfolio st') (stock_prices st') ->
         fst res = Raise OverflowError))).
Proof.
  intros Hst Ha sym q res. subst res.
  rewrite execute_trade_tree. unfold trade_tree, holds_less.
  rewrite Hst, Ha. cbn [String.eqb Ascii.eqb Bool.eqb]. fold sym q.
  split.
  - intros Hless. unfold validation_failure.
    destruct (stock_prices st !! sym) as [cp|].
    2:{ split; [reflexivity|]. split; [eexists; split; [reflexivity|cbn; tauto]|].
        intros ? ? [=]. }
    destruct (execution_price_of order cp) as [p|e] eqn:Hp.
    2:{ split; [reflexivity|]. split.
        - exists e. split; [reflexivity|].
          destruct (execution_price_Raise _ _ _ Hp) as [-> | ->]; cbn; tauto.
        - intros cp' p' [= <-] Hp'. rewrite Hp in Hp'. discriminate Hp'. }
    destruct (in_float_range q); cbn [negb].
    2:{ split; [reflexivity|]. split; [eexists; split; [reflexivity|tauto]|].
        reflexivity. }
    assert (Hres : (match portfolio st !! sym with
                    | Some h =>
                        if (shares h <? q)%Z then (Raise InsufficientShares, w)
                        else
                          match calculate_portfolio_value
                                  (portfolio (sold st sym h q p))
                                  (stock_prices (sold st sym h q p)) with
                          | Return _ =>
                              (Return (response_of order p tid
                                         (recorded now2 (sold st sym h q p))),
                               mkWorld (<[uid := recorded now2 (sold st sym h q p)]>
                                          (simulator_db w))
                                       (trades_db w ++ [trade_of uid order p tid now1]))
                          | Raise e =>
                              (Raise e,
                               mkWorld (<[uid := counted now2 (sold st sym h q p)]>
                                          (simulator_db w))
                                       (trades_db w ++ [trade_of uid order p tid now1]))
                          end
                    | None => (Raise InsufficientShares, w)
                    end) = (Raise InsufficientShares, w)).
    { destruct (portfolio st !! sym) as [h|]; [|reflexivity].
      apply Z.ltb_lt in Hless. by rewrite Hless. }
    rewrite Hres. split; [reflexivity|].
    split; [eexists; split; [reflexivity|cbn; tauto]|]. reflexivity.
  - intros cp p h Hcp Hp Hh Hle. rewrite Hcp, Hp, Hh.
    rewrite (proj2 (Z.ltb_ge _ _) Hle).
    split; [by intros ->|]. intros ->. cbn [negb].
    exists (match calculate_portfolio_value (portfolio (sold st sym h q p))
                                            (stock_prices (sold st sym h q p)) with
            | Return _ => recorded now2 (sold st sym h q p)
            | Raise _ => counted now2 (sold st sym h q p)
            end).
    destruct (calculate_portfolio_value_cases (portfolio (sold st sym h q p))
                (stock_prices (sold st sym h q p))) as [[Hc ->]|[Hc ->]];
      cbn [fst snd simulator_db trades_db]; rewrite lookup_insert_eq;
      (split; [reflexivity|]);
      unfold sold; cbn [recorded counted balance portfolio stock_prices trade_count
                        set_balance set_portfolio set_total_pnl set_last_updated
                        set_trade_count];
      (split; [reflexivity|]);
      (split; [intros s Hs; destruct (_ =? _)%Z;
               [by rewrite lookup_delete_ne | by rewrite lookup_insert_ne]|]);
      (split; [intros ->; rewrite Z.sub_diag; cbn [Z.eqb]; apply lookup_delete_eq|]);
      (split; [intros Hlt; destruct (Z.eqb_spec (shares h - q) 0) as [Hz|Hz];
               [lia|apply lookup_insert_eq]|]);
      (split; [reflexivity|]); (split; [reflexivity|]).
    + split; [eauto|]. intros Hn. destruct Hn. exact Hc.
    + split; [|reflexivity]. intros Hc'. destruct Hc. exact Hc'.
Qed.

Lemma sell_updates_holding_witness :
  execute_trade "u" (market_order "sell" "AAPL" 6) "t" 2 2 holder_world
  = (Raise InsufficientShares, holder_world)
  /\ (exists r st',
        fst (execute_trade "u" (market_order "sell" "AAPL" 5) "t" 2 2 holder_world)
        = Return r /\
        simulator_db
          (snd (execute_trade "u" (market_order "sell" "AAPL" 5) "t" 2 2 holder_world))
          !! "u" = Some st' /\
        portfolio st' !! "AAPL" = None)
  /\ (exists st',
        simulator_db
          (snd (execute_trade "u" (market_order "sell" "AAPL" 2) "t" 2 2 holder_world))
          !! "u" = Some st' /\
        portfolio st' !! "AAPL" = Some (mkHolding 3 (PyFloat (87750 # 500)))).
Proof.
  assert (Hcp : stock_prices holder_session !! "AAPL" = Some 175.50)
    by (vm_compute; reflexivity).
  assert (Hh : portfolio holder_session !! "AAPL"
               = Some (mkHolding 5 (PyFloat (87750 # 500))))
    by (vm_compute; reflexivity).
  split; [|split].
  - destruct (proj1 (sell_updates_holding "u" (market_order "sell" "AAPL" 6) "t"
                       2 2 holder_world holder_session
                       holder_world_session eq_refl))
      as (Hw & _ & He).
    + vm_compute. reflexivity.
    + specialize (He 175.50 175.50 Hcp eq_refl).
      destruct (execute_trade _ _ _ _ _ _) as [res w']. cbn [fst snd] in *.
      subst w'. rewrite He. reflexivity.
  - destruct (proj2 (sell_updates_holding "u" (market_order "sell" "AAPL" 5) "t"
                       2 2 holder_world holder_session
                       holder_world_session eq_refl)
                    175.50 175.50 (mkHolding 5 (PyFloat (87750 # 500)))
                    Hcp eq_refl Hh)
      as (_ & Hok).
    + vm_compute. discriminate.
    + destruct (Hok eq_refl) as (st' & Hst' & _ & _ & Hall & _).
      eexists _, st'. split; [vm_compute; reflexivity|].
      split; [exact Hst'|]. by apply Hall.
  - destruct (proj2 (sell_updates_holding "u" (market_order "sell" "AAPL" 2) "t"
                       2 2 holder_world holder_session
                       holder_world_session eq_refl)
                    175.50 175.50 (mkHolding 5 (PyFloat (87750 # 500)))
                    Hcp eq_refl Hh)
      as (_ & Hok).
    + vm_compute. discriminate.
    + destruct (Hok eq_refl) as (st' & Hst' & _ & _ & _ & Hpart & _).
      exists st'. split; [exact Hst'|]. apply Hpart. vm_compute. reflexivity.
Defined.


Lemma total_shares_snoc ts t :
  total_shares (ts ++ [t]) = (total_shares ts + te_quantity t)%Z.
Proof.
  unfold total_shares. induction ts as [|u ts IH]; cbn [foldr app].
  - lia.
  - fold (ts ++ [t])%list. rewrite IH. lia.
Qed.

Lemma total_cost_snoc ts t :
  total_cost (ts ++ [t])
  == total_cost ts + inject_Z (te_quantity t) * te_price t.
Proof.
  unfold total_cost. induction ts as [|u ts IH]; cbn [foldr app].
  - ring.
  - fold (ts ++ [t])%list. rewrite IH. ring.
Qed.

(** The portfolio entries that a trade on another symbol leaves alone. *)
Lemma portfolio_recorded now2 st : portfolio (recorded now2 st) = portfolio st.
Proof. reflexivity. Qed.

Lemma portfolio_counted now2 st : portfolio (counted now2 st) = portfolio st.
Proof. reflexivity. Qed.

Lemma portfolio_bought_ne st sym q p s :
  s <> sym -> portfolio (bought st sym q p) !! s = portfolio st !! s.
Proof. intros H. unfold bought. cbn [portfolio set_portfolio]. by rewrite lookup_insert_ne. Qed.

Lemma portfolio_debited_ne st sym tv s :
  s <> sym -> portfolio (debited st sym tv) !! s = portfolio st !! s.
Proof. intros H. unfold debited. cbn [portfolio set_portfolio]. by rewrite lookup_insert_ne. Qed.

Lemma portfolio_sold_ne st sym h q p s :
  s <> sym -> portfolio (sold st sym h q p) !! s = portfolio st !! s.
Proof.
  intros H. unfold sold. cbn [portfolio set_portfolio].
  destruct (_ =? _)%Z; [by rewrite lookup_delete_ne | by rewrite lookup_insert_ne].
Qed.

(** A bystander request keeps the session of [uid] and its holding of
    [sym]. *)
Lemma bystander_keeps_holding uid sym req w st :
  bystander uid sym req ->
  simulator_db w !! uid = Some st ->
  exists st',
    simulator_db (handle req w) !! uid = Some st' /\
    portfolio st' !! sym = portfolio st !! sym.
Proof.
  intros Hby Hst. destruct req as [u l n1 n2|u|u o i n1 n2|u l|u d n];
    cbn [handle bystander] in *.
  - destruct (str_in l valid_levels) eqn:Hv; unfold valid_levels in Hv.
    + destruct (initialize_simulator_valid u l n1 n2 w Hv)
        as (seed & prices & _ & _ & ->).
      cbn [snd simulator_db]. rewrite lookup_insert_ne by done. eauto.
    + rewrite (initialize_simulator_invalid _ _ _ _ _ Hv). eauto.
  - rewrite get_simulator_state_world. eauto.
  - rewrite execute_trade_tree. unfold trade_tree.
    destruct (decide (u = uid)) as [->|Hne].
    + destruct Hby as [Hby|Hsym]; [done|].
      rewrite Hst.
      repeat match goal with
             | |- context [match ?x with _ => _ end] => destruct x eqn:?
             end;
        cbn [snd simulator_db]; rewrite ?lookup_insert_eq;
        eexists; (split; [first [exact Hst | reflexivity]|]);
        rewrite ?portfolio_recorded, ?portfolio_counted,
          ?portfolio_bought_ne, ?portfolio_sold_ne, ?portfolio_debited_ne
          by done; reflexivity.
    + repeat match goal with
             | |- context [match ?x with _ => _ end] => destruct x eqn:?
             end;
        cbn [snd simulator_db]; rewrite ?lookup_insert_ne by done; eauto.
  - rewrite get_trade_history_run. eauto.
  - destruct w as [db tr]. cbn [simulator_db] in Hst.
    unfold update_stock_prices. rewrite bind_db. cbn [simulator_db].
    destruct (db !! u) as [s|] eqn:Hu.
    2:{ rewrite (contains_None _ _ Hu). cbn. eauto. }
    rewrite (contains_Some _ _ _ Hu). mrun. unfold ret.
    cbn [snd simulator_db].
    destruct (decide (u = uid)) as [->|Hne].
    + rewrite lookup_insert_eq. rewrite Hu in Hst. injection Hst as <-.
      eexists. split; reflexivity.
    + rewrite lookup_insert_ne by done. eauto.
Qed.

(** One buy that fills, seen from the session before it. *)
Lemma buy_fill_holding uid order tid now1 now2 w r w' st :
  execute_trade uid order tid now1 now2 w = (Return r, w') ->
  action order = "buy" ->
  simulator_db w !! uid = Some st ->
  let old := holding_of st (symbol order) in
  let q := quantity order in
  let p := ti_price (tr_trade r) in
  (shares old + q)%Z <> 0%Z /\
  trades_db w' = (trades_db w ++ [trade_of uid order p tid now1])%list /\
  exists st',
    simulator_db w' !! uid = Some st' /\
    portfolio st' !! symbol order
    = Some (mkHolding (shares old + q) (PyFloat (new_average old q p))).
Proof.
  intros Hrun Ha Hst.
  destruct (execute_trade_Return _ _ _ _ _ _ _ _ Hrun)
    as (st0 & cp & p & st1 & Hst0 & _ & _ & _ & Htr & _ & -> & ->).
  rewrite Hst in Hst0. injection Hst0 as <-.
  destruct Htr as [(_ & _ & _ & Hz & ->)|(Ha' & _)]; [|congruence].
  cbn [ti_price tr_trade response_of trades_db simulator_db].
  split; [exact Hz|]. split; [reflexivity|].
  eexists. rewrite lookup_insert_eq. split; [reflexivity|].
  rewrite portfolio_recorded. unfold bought. cbn [portfolio set_portfolio].
  apply lookup_insert_eq.
Qed.


Lemma inject_Z_nonzero z : z <> 0%Z -> ~ inject_Z z == 0.
Proof. intros H. unfold Qeq. cbn. lia. Qed.

(** Shares times average cost is the cost paid, all along a run of buys. *)
Lemma buy_run_invariant uid sym w ts w' :
  buy_run uid sym w ts w' ->
  forall st,
    simulator_db w !! uid = Some st ->
    portfolio st !! sym = None ->
    exists st',
      simulator_db w' !! uid = Some st' /\
      shares (holding_of st' sym) = total_shares ts /\
      inject_Z (shares (holding_of st' sym)) * avg_price (holding_of st' sym)
      == total_cost ts /\
      (ts <> [] ->
       portfolio st' !! sym = Some (holding_of st' sym) /\
       shares (holding_of st' sym) <> 0%Z).
Proof.
  induction 1 as [w|w ts w1 order tid now1 now2 r w2 t Hrun IH Hsym Ha Hex Htr
                  |w ts w1 req Hrun IH Hby]; intros st Hst Hnone.
  - exists st. split; [exact Hst|]. unfold holding_of. rewrite Hnone.
    cbn [shares avg_price]. split; [reflexivity|]. split; [reflexivity|].
    intros Hne. by destruct Hne.
  - destruct (IH st Hst Hnone) as (st1 & Hst1 & Hsh & Hcost & _).
    destruct (buy_fill_holding _ _ _ _ _ _ _ _ _ Hex Ha Hst1)
      as (Hz & Htr' & st2 & Hst2 & Hh).
    rewrite Htr in Htr'. apply app_inv_head in Htr'. injection Htr' as ->.
    rewrite Hsym in *.
    exists st2. split; [exact Hst2|].
    unfold holding_of at 1 2 3 4 5. rewrite Hh. cbn [shares avg_price value].
    rewrite total_shares_snoc, total_cost_snoc.
    cbn [te_quantity te_price trade_of].
    split; [by rewrite Hsh|]. split.
    + unfold new_average. rewrite Qmult_div_r by (by apply inject_Z_nonzero).
      by rewrite Hcost.
    + intros _. split; [reflexivity|exact Hz].
  - destruct (IH st Hst Hnone) as (st1 & Hst1 & Hinv).
    destruct (bystander_keeps_holding _ _ _ _ _ Hby Hst1) as (st2 & Hst2 & Hpf).
    exists st2. split; [exact Hst2|].
    unfold holding_of in *. by rewrite Hpf.
Qed.

(** C3, amended.  In exact arithmetic: each buy that fills sets the
    average cost to (old_shares * old_avg + quantity * fill_price) /
    (old_shares + quantity), an absent holding counting as 0 shares at 0;
    and after a run in which the only trades of the user on the symbol
    are buys that fill (no sell of that symbol, no re-initialisation),
    started without a holding, the average cost is the cost paid over the
    shares bought. *)
Theorem average_cost_is_weighted_average uid sym :
  (forall order tid now1 now2 w r w' st,
     symbol order = sym ->
     action order = "buy" ->
     simulator_db w !! uid = Some st ->
     execute_trade uid order tid now1 now2 w = (Return r, w') ->
     let old := holding_of st sym in
     let q := quantity order in
     let fill_price := ti_price (tr_trade r) in
     exists st',
       simulator_db w' !! uid = Some st' /\
       portfolio st' !! sym
       = Some (mkHolding (shares old + q)
                 (PyFloat
                    ((inject_Z (shares old) * avg_price old
                      + inject_Z q * fill_price)
                     / inject_Z (shares old + q))))) /\
  (forall w ts w' st,
     buy_run uid sym w ts w' ->
     simulator_db w !! uid = Some st ->
     portfolio st !! sym = None ->
     ts <> [] ->
     exists st' h,
       simulator_db w' !! uid = Some st' /\
       portfolio st' !! sym = Some h /\
       shares h = total_shares ts /\
       total_shares ts <> 0%Z /\
       avg_price h == total_cost ts / inject_Z (total_shares ts)).
Proof.
  split.
  - intros order tid now1 now2 w r w' st Hsym Ha Hst Hex old q fill_price.
    destruct (buy_fill_holding _ _ _ _ _ _ _ _ _ Hex Ha Hst)
      as (_ & _ & st' & Hst' & Hh).
    exists st'. split; [exact Hst'|]. subst old q fill_price.
    rewrite <- Hsym. exact Hh.
  - intros w ts w' st Hrun Hst Hnone Hts.
    destruct (buy_run_invariant _ _ _ _ _ Hrun st Hst Hnone)
      as (st' & Hst' & Hsh & Hcost & Hlast).
    destruct (Hlast Hts) as [Hh Hnz].
    exists st', (holding_of st' sym). split; [exact Hst'|].
    split; [exact Hh|]. split; [exact Hsh|].
    split; [by rewrite <- Hsh|].
    rewrite <- Hcost, <- Hsh. rewrite Qmult_comm.
    rewrite Qdiv_mult_l by (by apply inject_Z_nonzero). reflexivity.
Qed.


(** C3, refuted as stated: two buys with a partial sell in between. *)
Lemma partial_sell_breaks_average :
  let w1 := handle first_buy beginner_world in
  let w2 := handle partial_sell w1 in
  let w3 := handle second_buy w2 in
  (exists st h, simulator_db w1 !! "u" = Some st /\ portfolio st !! "AAPL" = Some h
                /\ shares h = 2%Z /\ avg_price h == 180) /\
  (exists st h, simulator_db w2 !! "u" = Some st /\ portfolio st !! "AAPL" = Some h
                /\ shares h = 1%Z /\ avg_price h == 180) /\
  (exists st h, simulator_db w3 !! "u" = Some st /\ portfolio st !! "AAPL" = Some h
                /\ shares h = 2%Z /\ avg_price h == 190) /\
  total_cost (buys_of "u" "AAPL" (trades_db w3)) == 560 /\
  total_shares (buys_of "u" "AAPL" (trades_db w3)) = 3%Z /\
  ~ average_over_all_buys "u" "AAPL" w3.
Proof.
  intros w1 w2 w3.
  assert (Hst : exists st h,
             simulator_db w3 !! "u" = Some st /\
             portfolio st !! "AAPL" = Some h /\
             shares h = 2%Z /\ avg_price h == 190).
  { eexists _, _. split; [vm_compute; reflexivity|].
    split; [vm_compute; reflexivity|]. split; vm_compute; reflexivity. }
  assert (Hcost : total_cost (buys_of "u" "AAPL" (trades_db w3)) == 560)
    by (vm_compute; reflexivity).
  assert (Hshares : total_shares (buys_of "u" "AAPL" (trades_db w3)) = 3%Z)
    by (vm_compute; reflexivity).
  split.
  { eexists _, _. split; [vm_compute; reflexivity|].
    split; [vm_compute; reflexivity|]. split; vm_compute; reflexivity. }
  split.
  { eexists _, _. split; [vm_compute; reflexivity|].
    split; [vm_compute; reflexivity|]. split; vm_compute; reflexivity. }
  split; [exact Hst|]. split; [exact Hcost|]. split; [exact Hshares|].
  intros H. destruct Hst as (st & h & Hst & Hh & _ & Havg).
  specialize (H st h Hst Hh). rewrite Havg, Hcost, Hshares in H.
  vm_compute in H. discriminate H.
Qed.

Lemma average_cost_is_weighted_average_witness :
  let w2 := handle second_buy (handle first_buy beginner_world) in
  exists st h,
    simulator_db w2 !! "u" = Some st /\
    portfolio st !! "AAPL" = Some h /\
    shares h = 3%Z /\
    avg_price h == 560 / 3.
Proof.
  intros w2.
  pose (t1 := trade_of "u" (limit_order "buy" "AAPL" 2 180) 180 "t1" 1).
  pose (t2 := trade_of "u" (limit_order "buy" "AAPL" 1 200) 200 "t3" 3).
  assert (Hrun : buy_run "u" "AAPL" beginner_world ([] ++ [t1] ++ [t2])%list w2).
  { rewrite app_assoc.
    eapply (buy_run_buy "u" "AAPL" beginner_world _
              (handle first_buy beginner_world)
              (limit_order "buy" "AAPL" 1 200) "t3" 3 3
              (response_of (limit_order "buy" "AAPL" 1 200) 200 "t3"
                 (recorded 3 (bought (recorded 1 (bought beginner_session "AAPL" 2 180))
                                     "AAPL" 1 200)))).
    - eapply (buy_run_buy "u" "AAPL" beginner_world [] beginner_world
                (limit_order "buy" "AAPL" 2 180) "t1" 1 1
                (response_of (limit_order "buy" "AAPL" 2 180) 180 "t1"
                   (recorded 1 (bought beginner_session "AAPL" 2 180)))).
      + apply buy_run_start.
      + reflexivity.
      + reflexivity.
      + vm_compute. reflexivity.
      + vm_compute. reflexivity.
    - reflexivity.
    - reflexivity.
    - vm_compute. reflexivity.
    - vm_compute. reflexivity. }
  destruct (proj2 (average_cost_is_weighted_average "u" "AAPL")
              beginner_world _ w2 beginner_session Hrun)
    as (st & h & Hst & Hh & Hsh & _ & Havg).
  - vm_compute. reflexivity.
  - vm_compute. reflexivity.
  - discriminate.
  - exists st, h. split; [exact Hst|]. split; [exact Hh|].
    split; [exact Hsh|]. rewrite Havg. vm_compute. reflexivity.
Defined.


(** C10, refuted as stated *)
Lemma history_rule_any_limit_fails :
  ~ history_rule_any_limit "u" (-1) two_trades_world /\
  ~ history_rule_any_limit "u" 50 same_instant_world.
Proof.
  split; intros H.
  - destruct (H _ _ (get_trade_history_run _ _ _)) as (_ & _ & Hlen & _).
    vm_compute in Hlen. by apply Hlen.
  - destruct (H _ _ (get_trade_history_run _ _ _)) as (_ & Hsorted & _).
    vm_compute in Hsorted. inversion Hsorted as [|? ? _ Hall]; subst.
    inversion Hall as [|? ? Hlt _]; subst.
    vm_compute in Hlt. discriminate Hlt.
Qed.

(** C10, amended.  A history query always returns; its count is the
    number of journal entries of the user; its page holds only entries of
    the user, newest first (strictly so when their timestamps differ), and
    is a prefix of all of them so ordered: the first [limit] entries when
    [limit] (50 when absent) is not negative, and all but the last
    [-limit] entries when it is negative. *)
Theorem history_is_sorted_page uid limit w :
  let mine := filter (fun t => te_user_id t = uid) (trades_db w) in
  let lim := default 50%Z limit in
  exists r,
    get_trade_history uid limit w = (Return r, w) /\
    hr_total_trades r = Z.of_nat (length mine) /\
    Forall (fun t => te_user_id t = uid) (hr_trades r) /\
    StronglySorted newer_or_same (hr_trades r) /\
    (NoDup (te_timestamp <$> mine) -> StronglySorted strictly_newer (hr_trades r)) /\
    Permutation (history_of uid (trades_db w)) mine /\
    ((0 <= lim)%Z ->
     hr_trades r = take (Z.to_nat lim) (history_of uid (trades_db w)) /\
     (Z.of_nat (length (hr_trades r)) <= lim)%Z /\
     length (hr_trades r) = Nat.min (Z.to_nat lim) (length mine)) /\
    ((lim < 0)%Z ->
     hr_trades r = take (length mine - Z.to_nat (- lim))
                        (history_of uid (trades_db w))).
Proof.
  intros mine lim. eexists. split; [apply get_trade_history_run|].
  cbn [hr_total_trades hr_trades]. fold lim.
  pose proof (history_of_perm uid (trades_db w)) as Hperm. fold mine in Hperm.
  assert (Hlen : length (history_of uid (trades_db w)) = length mine)
    by (by rewrite Hperm).
  destruct (slice_to_prefix (history_of uid (trades_db w)) lim) as [n Hn].
  split; [by rewrite Hlen|]. split.
  { rewrite Hn. apply Forall_take. rewrite Hperm.
    unfold mine. apply Forall_forall. intros t Ht.
    by apply list_elem_of_filter in Ht as [? _]. }
  split.
  { rewrite Hn. apply sorted_take, sort_by_timestamp_desc_sorted. }
  split.
  { intros Hnd. rewrite Hn. apply sorted_take, sorted_strict.
    - apply sort_by_timestamp_desc_sorted.
    - by rewrite Hperm. }
  split; [exact Hperm|]. split.
  - intros Hpos. rewrite (slice_to_nonneg _ _ Hpos).
    split; [reflexivity|]. rewrite length_take, Hlen. split; lia.
  - intros Hneg. rewrite (slice_to_neg _ _ Hneg). by rewrite Hlen.
Qed.


(** C6.  The balance does not stay at or above 0: from the empty world,
    initialising a beginner account, buying one share and then selling it
    through a limit order at -5000, or selling -1000 shares at market,
    leaves a negative balance; both sells are accepted and journalled. *)
Theorem balance_goes_negative :
  (exists st,
     simulator_db (handle_all negative_price_requests empty_world) !! "u" = Some st /\
     balance st == -3175.5 /\ balance st < 0 /\
     length (trades_db (handle_all negative_price_requests empty_world)) = 2%nat) /\
  (exists st,
     simulator_db (handle_all negative_quantity_requests empty_world) !! "u" = Some st /\
     balance st == -173675.5 /\ balance st < 0 /\
     portfolio st !! "AAPL" = Some (mkHolding 1001 (PyFloat 175.50)) /\
     length (trades_db (handle_all negative_quantity_requests empty_world)) = 2%nat).
Proof.
  split.
  - eexists. split; [vm_compute; reflexivity|].
    split; [vm_compute; reflexivity|]. split; vm_compute; reflexivity.
  - eexists. split; [vm_compute; reflexivity|].
    split; [vm_compute; reflexivity|]. split; [vm_compute; reflexivity|].
    split; vm_compute; reflexivity.
Qed.

(** * Further properties *)

(** ** Further properties of [execute_trade] *)

(** The run that ends in a division by zero. *)
Lemma execute_trade_zero_division uid order tid now1 now2 w st cp p :
  simulator_db w !! uid = Some st ->
  stock_prices st !! symbol order = Some cp ->
  execution_price_of order cp = Return p ->
  action order = "buy" ->
  in_float_range (quantity order) = true ->
  p * inject_Z (quantity order) <= balance st ->
  buy_converts (holding_of st (symbol order)) (quantity order) = true ->
  (shares (holding_of st (symbol order)) + quantity order)%Z = 0%Z ->
  execute_trade uid order tid now1 now2 w
  = (Raise ZeroDivisionError,
     mkWorld (<[uid := debited st (symbol order) (p * inject_Z (quantity order))]>
                (simulator_db w))
             (trades_db w)).
Proof.
  intros Hst Hcp Hp Ha Hq Hbal%Qltb_ge Hconv Hz.
  rewrite execute_trade_tree. unfold trade_tree.
  rewrite Hst, Hcp, Hp, Ha, Hq. cbn [String.eqb Ascii.eqb Bool.eqb negb].
  by rewrite Hbal, Hconv, Hz.
Qed.

Lemma in_float_range_opp n : in_float_range (- n) = in_float_range n.
Proof. unfold in_float_range. by rewrite Z.abs_opp. Qed.

(** X1.  [execute_trade] raises nothing but the seven validation failures,
    [ZeroDivisionError] and [OverflowError] (never [KeyError]).  A
    validation failure leaves the world as it was.  [ZeroDivisionError]
    comes from a buy with [old_shares + quantity = 0] and leaves the
    debit of line 388 and the entry of line 390 behind, the journal as
    before.  [OverflowError] comes from one of three places: line 381,
    when the quantity is beyond the doubles, with nothing changed; line
    396, in a buy, with the debit and the entry left behind; or the
    valuation of line 435, with the trade done, journalled and counted
    but [total_pnl] not updated. *)
Theorem execute_trade_exceptions uid order tid now1 now2 w e w' :
  execute_trade uid order tid now1 now2 w = (Raise e, w') ->
  (validation_failure e \/ e = ZeroDivisionError \/ e = OverflowError) /\
  (validation_failure e -> w' = w) /\
  (e = ZeroDivisionError ->
   exists st cp p,
     simulator_db w !! uid = Some st /\
     stock_prices st !! symbol order = Some cp /\
     execution_price_of order cp = Return p /\
     action order = "buy" /\
     (shares (holding_of st (symbol order)) + quantity order)%Z = 0%Z /\
     w' = mkWorld (<[uid := debited st (symbol order)
                              (p * inject_Z (quantity order))]>
                     (simulator_db w))
                  (trades_db w)) /\
  (e = OverflowError ->
   (in_float_range (quantity order) = false /\ w' = w) \/
   (exists st cp p,
      simulator_db w !! uid = Some st /\
      stock_prices st !! symbol order = Some cp /\
      execution_price_of order cp = Return p /\
      action order = "buy" /\
      buy_converts (holding_of st (symbol order)) (quantity order) = false /\
      w' = mkWorld (<[uid := debited st (symbol order)
                               (p * inject_Z (quantity order))]>
                      (simulator_db w))
                   (trades_db w)) \/
   (exists st cp p st1,
      simulator_db w !! uid = Some st /\
      stock_prices st !! symbol order = Some cp /\
      execution_price_of order cp = Return p /\
      (action order = "buy" /\
       st1 = bought st (symbol order) (quantity order) p \/
       action order = "sell" /\
       exists h,
         portfolio st !! symbol order = Some h /\
         (quantity order <= shares h)%Z /\
         st1 = sold st (symbol order) h (quantity order) p) /\
      ~ holdings_convert (portfolio st1) (stock_prices st1) /\
      w' = mkWorld (<[uid := counted now2 st1]> (simulator_db w))
                   (trades_db w ++ [trade_of uid order p tid now1]))).
Proof.
  intros Hrun.
  assert (Hval : forall x, validation_failure x ->
                           x <> ZeroDivisionError /\ x <> OverflowError).
  { intros x. unfold validation_failure. cbn.
    intros [<-|[<-|[<-|[<-|[<-|[<-|[<-|[]]]]]]]]; split; discriminate. }
  destruct (execute_trade_Raise _ _ _ _ _ _ _ _ Hrun)
    as [[Hv ->]
       |[(-> & -> & Hq)
        |[(st & cp & p & Hst & Hcp & Hp & Hq & Ha & Hbal & He & ->)
         |(st & cp & p & st1 & Hst & Hcp & Hp & Hq & Htr & Hconv & -> & ->)]]].
  - split; [auto|]. split; [auto|].
    split; intros ->; by destruct (Hval _ Hv).
  - split; [auto|]. split.
    { intros Hv. by destruct (Hval _ Hv). }
    split; [discriminate|]. auto.
  - destruct He as [[-> Hconv]|(-> & Hconv & Hz)].
    + split; [auto|]. split.
      { intros Hv. by destruct (Hval _ Hv). }
      split; [discriminate|]. intros _. right. left.
      exists st, cp, p. auto 10.
    + split; [auto|]. split.
      { intros Hv. by destruct (Hval _ Hv). }
      split; [|discriminate]. intros _. exists st, cp, p. auto 10.
  - split; [auto|]. split.
    { intros Hv. by destruct (Hval _ Hv). }
    split; [discriminate|]. intros _. right. right.
    exists st, cp, p, st1. do 3 (split; [assumption|]).
    split; [|auto].
    destruct Htr as [(Ha & _ & _ & _ & ->)|(Ha & h & Hh & Hle & ->)]; eauto 10.
Qed.

Lemma execute_trade_exceptions_witness :
  execute_trade "u" (market_order "sell" "AAPL" (2 ^ 1024)) "t" 2 2 holder_world
  = (Raise OverflowError, holder_world) /\
  in_float_range (2 ^ 1024) = false.
Proof.
  assert (Hrun : execute_trade "u" (market_order "sell" "AAPL" (2 ^ 1024)) "t" 2 2
                   holder_world
                 = (Raise OverflowError, holder_world))
    by (vm_compute; reflexivity).
  split; [exact Hrun|].
  destruct (execute_trade_exceptions _ _ _ _ _ _ _ _ Hrun) as (_ & _ & _ & Hover).
  destruct (Hover eq_refl)
    as [[Hq _]|[(st & cp & p & _ & _ & _ & Ha & _)|(st & cp & p & st1 & Hst & Hcp & Hp & Htr & _)]].
  - exact Hq.
  - discriminate Ha.
  - exfalso. rewrite holder_world_session in Hst. injection Hst as <-.
    destruct Htr as [(Ha & _)|(_ & h & Hh & Hle & _)]; [discriminate Ha|].
    vm_compute in Hh. injection Hh as <-. revert Hle. vm_compute. auto.
Defined.

(** X2.  A buy of minus the held number of shares (a share count within
    the doubles) is not turned down: it credits the balance with price x
    shares and then raises [ZeroDivisionError], with the holding still in
    the portfolio and nothing journalled. *)
Theorem negative_buy_credits_balance uid order tid now1 now2 w st cp h :
  simulator_db w !! uid = Some st ->
  stock_prices st !! symbol order = Some cp ->
  portfolio st !! symbol order = Some h ->
  action order = "buy" ->
  order_type order <> "limit" ->
  quantity order = (- shares h)%Z ->
  (0 < shares h)%Z ->
  in_float_range (shares h) = true ->
  buy_converts h (- shares h) = true ->
  0 <= cp ->
  0 <= balance st ->
  exists w' st',
    execute_trade uid order tid now1 now2 w = (Raise ZeroDivisionError, w') /\
    simulator_db w' !! uid = Some st' /\
    balance st' == balance st + cp * inject_Z (shares h) /\
    portfolio st' = portfolio st /\
    trade_count st' = trade_count st /\
    trades_db w' = trades_db w.
Proof.
  intros Hst Hcp Hh Ha Ht Hq Hpos Hrange Hconv Hcp0 Hbal.
  eexists _, _. split.
  - apply (execute_trade_zero_division uid order tid now1 now2 w st cp cp
             Hst Hcp (execution_price_market _ _ Ht) Ha).
    + by rewrite Hq, in_float_range_opp.
    + rewrite Hq. apply Qle_trans with 0; [|exact Hbal].
      assert (Hneg : cp * inject_Z (- shares h) == - (cp * inject_Z (shares h)))
        by (rewrite inject_Z_opp; ring).
      rewrite Hneg. apply (Qopp_le_compat 0). apply Qmult_le_0_compat; [exact Hcp0|].
      change 0 with (inject_Z 0). rewrite <- Zle_Qle. lia.
    + unfold holding_of. by rewrite Hh, Hq.
    + unfold holding_of. rewrite Hh. lia.
  - cbn [simulator_db trades_db]. rewrite lookup_insert_eq.
    split; [reflexivity|]. unfold debited, holding_of. rewrite Hh.
    cbn [balance portfolio set_balance set_portfolio trade_count].
    split; [|split; [by apply insert_id|split; reflexivity]].
    rewrite Hq, inject_Z_opp. ring.
Qed.

Lemma negative_buy_credits_balance_witness :
  exists w' st',
    execute_trade "u" (market_order "buy" "AAPL" (-5)) "t" 2 2 holder_world
    = (Raise ZeroDivisionError, w') /\
    simulator_db w' !! "u" = Some st' /\
    balance st' == 2000 /\
    portfolio st' !! "AAPL" = Some (mkHolding 5 (PyFloat (87750 # 500))).
Proof.
  assert (Hcp : stock_prices holder_session !! "AAPL" = Some 175.50)
    by (vm_compute; reflexivity).
  assert (Hh : portfolio holder_session !! "AAPL"
               = Some (mkHolding 5 (PyFloat (87750 # 500))))
    by (vm_compute; reflexivity).
  assert (Ht : order_type (market_order "buy" "AAPL" (-5)) <> "limit")
    by discriminate.
  assert (Hpos : (0 < shares (mkHolding 5 (PyFloat (87750 # 500))))%Z) by (cbn; lia).
  assert (Hrange : in_float_range (shares (mkHolding 5 (PyFloat (87750 # 500)))) = true)
    by (vm_compute; reflexivity).
  assert (Hconv : buy_converts (mkHolding 5 (PyFloat (87750 # 500)))
                    (- shares (mkHolding 5 (PyFloat (87750 # 500)))) = true)
    by (vm_compute; reflexivity).
  assert (Hcp0 : 0 <= 175.50) by (vm_compute; discriminate).
  assert (Hbal : 0 <= balance holder_session) by (vm_compute; discriminate).
  destruct (negative_buy_credits_balance "u" (market_order "buy" "AAPL" (-5)) "t"
              2 2 holder_world holder_session 175.50
              (mkHolding 5 (PyFloat (87750 # 500)))
              holder_world_session Hcp Hh eq_refl Ht eq_refl Hpos Hrange Hconv
              Hcp0 Hbal)
    as (w' & st' & Hrun & Hst & Hbal' & Hpf & _).
  exists w', st'. split; [exact Hrun|]. split; [exact Hst|].
  split; [rewrite Hbal'; vm_compute; reflexivity|].
  rewrite Hpf. exact Hh.
Defined.

(** X3.  The response and the journal disagree on [total_value]: the journal
    entry of a filled order carries price x quantity, while the ["trade"]
    entry of the response carries the value of the whole account, the
    name having been reassigned at line 436 before the response is
    built. *)
Theorem response_trade_total_is_account_value uid order tid now1 now2 w r w' :
  execute_trade uid order tid now1 now2 w = (Return r, w') ->
  exists st' t pv,
    simulator_db w' !! uid = Some st' /\
    trades_db w' = (trades_db w ++ [t])%list /\
    te_id t = ti_id (tr_trade r) /\
    te_price t = ti_price (tr_trade r) /\
    te_quantity t = ti_quantity (tr_trade r) /\
    te_total_value t = ti_price (tr_trade r) * inject_Z (ti_quantity (tr_trade r)) /\
    calculate_portfolio_value (portfolio st') (stock_prices st') = Return pv /\
    ti_total_value (tr_trade r) = balance st' + pv /\
    ti_total_value (tr_trade r) = tr_total_value r.
Proof.
  intros (st & cp & p & st1 & _ & _ & _ & _ & _ & Hconv & -> & ->)%execute_trade_Return.
  eexists _, _, _. cbn [simulator_db trades_db]. rewrite lookup_insert_eq.
  do 6 (split; [reflexivity|]).
  split; [exact (calculate_portfolio_value_ok _ _ Hconv)|].
  split; reflexivity.
Qed.

Lemma response_trade_total_is_account_value_witness :
  exists r w' t,
    execute_trade "u" (market_order "buy" "AAPL" 5) "t1" 1 1 beginner_world
    = (Return r, w') /\
    trades_db w' = [t] /\
    te_total_value t == 877.50 /\
    ti_total_value (tr_trade r) == 2000.
Proof.
  destruct (execute_trade "u" (market_order "buy" "AAPL" 5) "t1" 1 1 beginner_world)
    as [[r|e] w'] eqn:Hrun; [|vm_compute in Hrun; discriminate Hrun].
  destruct (response_trade_total_is_account_value _ _ _ _ _ _ _ _ Hrun)
    as (st' & t & pv & Hst & Htr & _ & _ & _ & Htot & _).
  exists r, w', t. split; [reflexivity|].
  vm_compute in Hrun. injection Hrun as <- <-.
  split; [exact Htr|]. split.
  - rewrite Htot. vm_compute. reflexivity.
  - vm_compute. reflexivity.
Defined.

(** X4.  A trade request on an existing session never changes level, initial
    balance, price table and creation time.  When it fills it journals
    exactly one entry, with the fields of the order, the fill price and
    price x quantity, the trade counter goes up by one, [last_updated] is
    stamped and the reported pnl is stored.  When it raises, journal,
    counter, stamp and stored pnl stay as they were, with one exception:
    an [OverflowError] from the valuation of line 435 comes after lines
    429-433, so the entry is journalled, the counter is up by one and the
    stamp is set, while the stored pnl is the old one. *)
Theorem trade_journal_and_counter uid order tid now1 now2 w st res w' :
  simulator_db w !! uid = Some st ->
  execute_trade uid order tid now1 now2 w = (res, w') ->
  exists st',
    simulator_db w' !! uid = Some st' /\
    level st' = level st /\
    initial_balance st' = initial_balance st /\
    stock_prices st' = stock_prices st /\
    created_at st' = created_at st /\
    match res with
    | Return r =>
        trades_db w'
        = (trades_db w
           ++ [mkTrade tid uid (symbol order) (action order) (quantity order)
                       (ti_price (tr_trade r))
                       (ti_price (tr_trade r) * inject_Z (quantity order))
                       now1 (order_type order)])%list /\
        trade_count st' = (trade_count st + 1)%Z /\
        last_updated st' = now2 /\
        total_pnl st' = tr_pnl r
    | Raise e =>
        (trades_db w' = trades_db w /\
         trade_count st' = trade_count st /\
         last_updated st' = last_updated st /\
         total_pnl st' = total_pnl st) \/
        (e = OverflowError /\
         ~ holdings_convert (portfolio st') (stock_prices st') /\
         (exists p,
            trades_db w'
            = (trades_db w
               ++ [mkTrade tid uid (symbol order) (action order) (quantity order)
                           p (p * inject_Z (quantity order))
                           now1 (order_type order)])%list) /\
         trade_count st' = (trade_count st + 1)%Z /\
         last_updated st' = now2 /\
         total_pnl st' = total_pnl st)
    end.
Proof.
  intros Hst Hrun. destruct res as [r|e].
  - destruct (execute_trade_Return _ _ _ _ _ _ _ _ Hrun)
      as (st0 & cp & p & st1 & Hst0 & _ & _ & _ & Htr & _ & -> & ->).
    rewrite Hst in Hst0. injection Hst0 as <-.
    eexists. cbn [simulator_db trades_db]. rewrite lookup_insert_eq.
    split; [reflexivity|].
    destruct Htr as [(_ & _ & _ & _ & ->)|(_ & h & _ & _ & ->)];
      repeat split; reflexivity.
  - destruct (execute_trade_Raise _ _ _ _ _ _ _ _ Hrun)
      as [[_ ->]
         |[(_ & -> & _)
          |[(st0 & cp & p & Hst0 & _ & _ & _ & _ & _ & _ & ->)
           |(st0 & cp & p & st1 & Hst0 & _ & _ & _ & Htr & Hconv & -> & ->)]]].
    + exists st. split; [exact Hst|]. repeat split; left; repeat split.
    + exists st. split; [exact Hst|]. repeat split; left; repeat split.
    + rewrite Hst in Hst0. injection Hst0 as <-.
      eexists. cbn [simulator_db trades_db]. rewrite lookup_insert_eq.
      split; [reflexivity|]. repeat split; left; repeat split.
    + rewrite Hst in Hst0. injection Hst0 as <-.
      eexists. cbn [simulator_db trades_db]. rewrite lookup_insert_eq.
      split; [reflexivity|].
      destruct Htr as [(_ & _ & _ & _ & ->)|(_ & h & _ & _ & ->)];
        (do 4 (split; [reflexivity|])); right;
        (split; [reflexivity|]); (split; [exact Hconv|]);
        (split; [by exists p|]); repeat split.
Qed.

Lemma trade_journal_and_counter_witness :
  (exists st',
     simulator_db holder_world !! "u" = Some st' /\
     length (trades_db holder_world) = 1%nat /\
     trade_count st' = 1%Z /\
     last_updated st' = 1%Z) /\
  (let w := handle_all oversized_requests empty_world in
   let res := execute_trade "u" oversized_sell "t3" 3 3 w in
   exists st',
     fst res = Raise OverflowError /\
     simulator_db (snd res) !! "u" = Some st' /\
     length (trades_db w) = 2%nat /\
     length (trades_db (snd res)) = 3%nat /\
     trade_count st' = 3%Z /\
     last_updated st' = 3%Z).
Proof.
  split.
  - assert (Hrun : execute_trade "u" (market_order "buy" "AAPL" 5) "t1" 1 1
                     beginner_world
                   = (Return (response_of (market_order "buy" "AAPL" 5) 175.50 "t1"
                                holder_session),
                      holder_world))
      by (vm_compute; reflexivity).
    destruct (trade_journal_and_counter "u" (market_order "buy" "AAPL" 5) "t1" 1 1
                beginner_world beginner_session _ holder_world
                beginner_world_session Hrun)
      as (st' & Hst' & _ & _ & _ & _ & Htr & Hcount & Hstamp & _).
    exists st'. split; [exact Hst'|]. split; [|split; assumption].
    rewrite Htr. reflexivity.
  - intros w res.
    pose (w' := handle (Trade "u" oversized_sell "t3" 3 3) w).
    assert (Hst : exists st, simulator_db w !! "u" = Some st /\ trade_count st = 2%Z)
      by (eexists; split; vm_compute; reflexivity).
    destruct Hst as (st & Hst & Hcount).
    assert (Hrun : execute_trade "u" oversized_sell "t3" 3 3 w
                   = (Raise OverflowError, w'))
      by (vm_compute; reflexivity).
    assert (Hlen : length (trades_db w) = 2%nat) by (vm_compute; reflexivity).
    assert (Hlen' : length (trades_db w') = 3%nat) by (vm_compute; reflexivity).
    destruct (trade_journal_and_counter "u" oversized_sell "t3" 3 3 w st _ w'
                Hst Hrun)
      as (st' & Hst' & _ & _ & _ & _ & [(Htr & _)|(_ & _ & _ & Hc & Hs & _)]).
    + exfalso. rewrite Htr, Hlen in Hlen'. discriminate Hlen'.
    + exists st'. subst res. rewrite Hrun. cbn [fst snd].
      split; [reflexivity|]. split; [exact Hst'|]. split; [exact Hlen|].
      split; [exact Hlen'|]. split; [by rewrite Hc, Hcount|exact Hs].
Defined.

(** X5.  A request touches no session but the one of its user, read requests
    touch nothing, and only trade requests write to the journal. *)
Theorem requests_touch_one_session r w :
  (forall u, u <> request_user r ->
             simulator_db (handle r w) !! u = simulator_db w !! u) /\
  (read_only r -> handle r w = w) /\
  match r with
  | Trade _ _ _ _ _ => True
  | _ => trades_db (handle r w) = trades_db w
  end.
Proof.
  destruct r as [u l n1 n2|u|u o i n1 n2|u l|u d n];
    cbn [handle request_user read_only].
  - split; [|split; [tauto|]].
    + intros v Hv. destruct (str_in l valid_levels) eqn:Hl; unfold valid_levels in Hl.
      * destruct (initialize_simulator_valid u l n1 n2 w Hl)
          as (seed & prices & _ & _ & ->).
        cbn [snd simulator_db]. by rewrite lookup_insert_ne.
      * by rewrite (initialize_simulator_invalid _ _ _ _ _ Hl).
    + destruct (str_in l valid_levels) eqn:Hl; unfold valid_levels in Hl.
      * by destruct (initialize_simulator_valid u l n1 n2 w Hl)
          as (seed & prices & _ & _ & ->).
      * by rewrite (initialize_simulator_invalid _ _ _ _ _ Hl).
  - rewrite get_simulator_state_world. auto.
  - split; [|split; [tauto|exact I]].
    intros v Hv. rewrite execute_trade_tree. unfold trade_tree.
    repeat match goal with
           | |- context [match ?x with _ => _ end] => destruct x eqn:?
           end;
      cbn [snd simulator_db]; rewrite ?lookup_insert_ne by done; reflexivity.
  - rewrite get_trade_history_run. auto.
  - destruct w as [db tr]. unfold update_stock_prices. rewrite bind_db.
    cbn [simulator_db]. destruct (db !! u) as [s|] eqn:Hu.
    + rewrite (contains_Some _ _ _ Hu). mrun. unfold ret.
      cbn [snd simulator_db trades_db].
      split; [|split; [tauto|reflexivity]].
      intros v Hv. by rewrite lookup_insert_ne.
    + rewrite (contains_None _ _ Hu). cbn. auto.
Qed.

(** ** The value of an account across a trade *)

Lemma Qsum_perm (l l' : list Q) :
  Permutation l l' -> foldr Qplus 0 l == foldr Qplus 0 l'.
Proof.
  induction 1 as [|x l l' _ IH|x y l|l l' l'' _ IH1 _ IH2]; cbn [foldr].
  - reflexivity.
  - by rewrite IH.
  - ring.
  - by rewrite IH1.
Qed.

(** The value of the holdings, one symbol set apart. *)
Lemma market_value_split pf prices sym :
  market_value pf prices
  == holding_value (pf !! sym) (prices !! sym)
     + market_value (delete sym pf) prices.
Proof.
  unfold market_value, holding_value.
  destruct (pf !! sym) as [h|] eqn:Hh.
  - rewrite <- (Qsum_perm _ _ (fmap_Permutation _ _ _ (map_to_list_delete pf sym h Hh))).
    reflexivity.
  - rewrite (delete_id _ _ Hh). ring.
Qed.

Lemma portfolio_value_split pf prices sym :
  holdings_value pf prices
  == holding_value (pf !! sym) (prices !! sym)
     + holdings_value (delete sym pf) prices.
Proof.
  rewrite !holdings_value_sum. apply market_value_split.
Qed.

Lemma account_value_bought st sym q p cp :
  stock_prices st !! sym = Some cp ->
  account_value (bought st sym q p)
  == account_value st + inject_Z q * (cp - p).
Proof.
  intros Hcp. unfold account_value, bought.
  cbn [balance portfolio stock_prices set_balance set_portfolio].
  rewrite (portfolio_value_split (<[sym := _]> _) _ sym).
  rewrite (portfolio_value_split (portfolio st) _ sym).
  rewrite lookup_insert_eq, delete_insert_eq, Hcp.
  unfold holding_value, holding_of. cbn [shares default from_option id].
  destruct (portfolio st !! sym) as [h|]; cbn [shares];
    rewrite inject_Z_plus; [ring|].
  change (inject_Z 0) with 0. ring.
Qed.

Lemma account_value_sold st sym h q p cp :
  stock_prices st !! sym = Some cp ->
  portfolio st !! sym = Some h ->
  account_value (sold st sym h q p)
  == account_value st + inject_Z q * (p - cp).
Proof.
  intros Hcp Hh. unfold account_value, sold.
  cbn [balance portfolio stock_prices set_balance set_portfolio].
  rewrite (portfolio_value_split (portfolio st) _ sym), Hh, Hcp.
  unfold holding_value. cbn [default from_option id].
  destruct (Z.eqb_spec (shares h - q) 0) as [Hz|Hz].
  - assert (Hs : inject_Z (shares h) == inject_Z q).
    { replace (shares h) with q by lia. reflexivity. }
    rewrite Hs. ring.
  - rewrite (portfolio_value_split (<[sym := _]> _) _ sym).
    rewrite lookup_insert_eq, delete_insert_eq, Hcp.
    unfold holding_value. cbn [shares default from_option id].
    unfold Z.sub. rewrite inject_Z_plus, inject_Z_opp. ring.
Qed.

Lemma Qmult_nonneg_nonpos (a b : Q) : 0 <= a -> b <= 0 -> a * b <= 0.
Proof.
  intros Ha Hb.
  assert (H : a * b == - (a * - b)) by ring.
  rewrite H. apply (Qopp_le_compat 0). apply Qmult_le_0_compat; [exact Ha|].
  apply (Qopp_le_compat b 0). exact Hb.
Qed.

Lemma Qle_minus_nonpos (x y : Q) : x <= y -> x - y <= 0.
Proof.
  intros H. apply (Qplus_le_l _ _ y). ring_simplify. exact H.
Qed.

(** X6.  In exact arithmetic, a filled order moves the value of the account
    (balance plus holdings at current prices) by quantity x (market price
    - fill price) for a buy and by quantity x (fill price - market price)
    for a sell: not at all at market, and never upwards for a limit order
    of non-negative quantity. *)
Theorem trade_never_adds_value uid order tid now1 now2 w st cp r w' :
  simulator_db w !! uid = Some st ->
  stock_prices st !! symbol order = Some cp ->
  execute_trade uid order tid now1 now2 w = (Return r, w') ->
  let q := inject_Z (quantity order) in
  let p := ti_price (tr_trade r) in
  exists st',
    simulator_db w' !! uid = Some st' /\
    tr_total_value r = account_value st' /\
    (action order = "buy" -> account_value st' == account_value st + q * (cp - p)) /\
    (action order = "sell" -> account_value st' == account_value st + q * (p - cp)) /\
    (order_type order <> "limit" -> account_value st' == account_value st) /\
    (0 <= q -> account_value st' <= account_value st).
Proof.
  intros Hst Hcp Hrun.
  destruct (execute_trade_Return _ _ _ _ _ _ _ _ Hrun)
    as (st0 & cp0 & p & st1 & Hst0 & Hcp0 & Hp & _ & Htr & _ & -> & ->).
  rewrite Hst in Hst0. injection Hst0 as <-.
  rewrite Hcp in Hcp0. injection Hcp0 as <-.
  destruct (execution_price_gate _ _ _ Hp) as (Hmarket & Hbuy & Hsell).
  cbn [simulator_db tr_total_value response_of ti_price tr_trade].
  rewrite lookup_insert_eq. eexists. split; [reflexivity|].
  change (account_value (recorded now2 ?s)) with (account_value s).
  split; [reflexivity|].
  destruct Htr as [(Ha & _ & _ & _ & ->)|(Ha & h & Hh & _ & ->)].
  - pose proof (account_value_bought st (symbol order) (quantity order) p cp Hcp)
      as Hval.
    split; [auto|]. split; [congruence|]. split.
    + intros Ht. rewrite Hval, (Hmarket Ht). ring.
    + intros Hq. rewrite Hval.
      rewrite <- (Qplus_0_r (account_value st)) at 2.
      apply Qplus_le_r. apply Qmult_nonneg_nonpos; [exact Hq|].
      apply Qle_minus_nonpos. by apply Hbuy.
  - pose proof (account_value_sold st (symbol order) h (quantity order) p cp Hcp Hh)
      as Hval.
    split; [congruence|]. split; [auto|]. split.
    + intros Ht. rewrite Hval, (Hmarket Ht). ring.
    + intros Hq. rewrite Hval.
      rewrite <- (Qplus_0_r (account_value st)) at 2.
      apply Qplus_le_r. apply Qmult_nonneg_nonpos; [exact Hq|].
      apply Qle_minus_nonpos. by apply Hsell.
Qed.

Lemma trade_never_adds_value_witness :
  exists r w' st',
    execute_trade "u" (limit_order "buy" "AAPL" 5 180) "t" 1 1 beginner_world
    = (Return r, w') /\
    simulator_db w' !! "u" = Some st' /\
    account_value st' == account_value beginner_session + 5 * (175.50 - 180) /\
    account_value st' <= account_value beginner_session.
Proof.
  destruct (execute_trade "u" (limit_order "buy" "AAPL" 5 180) "t" 1 1 beginner_world)
    as [[r|e] w'] eqn:Hrun; [|vm_compute in Hrun; discriminate Hrun].
  destruct (trade_never_adds_value "u" (limit_order "buy" "AAPL" 5 180) "t" 1 1
              beginner_world beginner_session 175.50 r w'
              beginner_world_session eq_refl Hrun)
    as (st' & Hst' & _ & Hbuy & _ & _ & Hle).
  exists r, w', st'. split; [reflexivity|]. split; [exact Hst'|]. split.
  - rewrite (Hbuy eq_refl). vm_compute in Hrun. injection Hrun as <- <-.
    reflexivity.
  - apply Hle. vm_compute. discriminate.
Defined.

(** ** Price updates *)


Lemma update_stock_prices_run uid draw now db tr st :
  db !! uid = Some st ->
  update_stock_prices uid draw now (mkWorld db tr)
  = (Return (mkPricesResponse "Stock prices updated" (stock_prices st)
               (moved_prices draw (stock_prices st)) now),
     mkWorld (<[uid := set_last_updated now
                         (set_stock_prices (moved_prices draw (stock_prices st)) st)]>
                db)
             tr).
Proof.
  intros Hst. unfold update_stock_prices. rewrite bind_db. cbn [simulator_db].
  rewrite (contains_Some _ _ _ Hst). mrun. reflexivity.
Qed.

Lemma update_stock_prices_absent uid draw now w :
  simulator_db w !! uid = None ->
  update_stock_prices uid draw now w = (Raise AccountNotInitialized, w).
Proof.
  intros Hst. unfold update_stock_prices. rewrite bind_db.
  by rewrite (contains_None _ _ Hst).
Qed.

Lemma moved_prices_lookup draw prices s :
  moved_prices draw prices !! s
  = (fun p => simulate_price_change p (draw s)) <$> prices !! s.
Proof.
  unfold moved_prices. rewrite map_lookup_imap.
  by destruct (prices !! s).
Qed.

(** X7.  A price update on a missing account is turned down and changes
    nothing.  On an existing account it replaces every price by its
    simulated successor, symbol by symbol, so the table keeps exactly its
    symbols; it reports the table before and after; and it leaves the
    balance, the holdings, the counters, the stored pnl, the journal and
    every other session as they were. *)
Theorem price_update_moves_only_prices uid draw now w :
  (simulator_db w !! uid = None ->
   update_stock_prices uid draw now w = (Raise AccountNotInitialized, w)) /\
  (forall st,
     simulator_db w !! uid = Some st ->
     exists r st',
       update_stock_prices uid draw now w
       = (Return r, mkWorld (<[uid := st']> (simulator_db w)) (trades_db w)) /\
       pr_old_prices r = stock_prices st /\
       pr_new_prices r = stock_prices st' /\
       pr_timestamp r = now /\
       last_updated st' = now /\
       (forall s, stock_prices st' !! s
                  = (fun p => simulate_price_change p (draw s))
                    <$> stock_prices st !! s) /\
       dom (stock_prices st') = dom (stock_prices st) /\
       balance st' = balance st /\
       portfolio st' = portfolio st /\
       initial_balance st' = initial_balance st /\
       trade_count st' = trade_count st /\
       total_pnl st' = total_pnl st /\
       level st' = level st).
Proof.
  split; [apply update_stock_prices_absent|].
  intros st Hst. destruct w as [db tr]. cbn [simulator_db trades_db] in *.
  eexists _, _. split; [by apply update_stock_prices_run|].
  cbn. repeat split; try reflexivity.
  - apply moved_prices_lookup.
  - apply set_eq. intros s. rewrite !elem_of_dom, moved_prices_lookup.
    by rewrite fmap_is_Some.
Qed.

Lemma price_update_moves_only_prices_witness :
  exists r st',
    update_stock_prices "u" (fun _ => 0.02) 5 holder_world
    = (Return r, mkWorld (<["u" := st']> (simulator_db holder_world))
                         (trades_db holder_world)) /\
    stock_prices st' !! "AAPL" = Some (simulate_price_change 175.50 0.02) /\
    simulate_price_change 175.50 0.02 == 179.01 /\
    balance st' = balance holder_session /\
    portfolio st' = portfolio holder_session.
Proof.
  destruct (proj2 (price_update_moves_only_prices "u" (fun _ => 0.02) 5 holder_world)
              holder_session holder_world_session)
    as (r & st' & Hrun & _ & _ & _ & _ & Hprices & _ & Hbal & Hpf & _).
  exists r, st'. split; [exact Hrun|]. split.
  - rewrite Hprices. vm_compute. reflexivity.
  - split; [vm_compute; reflexivity|]. split; assumption.
Defined.

(** *** Rounding *)

Lemma round_half_even_close x :
  x - (1 # 2) <= inject_Z (round_half_even x) /\
  inject_Z (round_half_even x) <= x + (1 # 2).
Proof.
  unfold round_half_even.
  pose proof (Qfloor_le x) as Hlo. pose proof (Qlt_floor x) as Hhi.
  rewrite inject_Z_plus in Hhi. change (inject_Z 1) with 1 in Hhi.
  destruct (Qltb (x - inject_Z (Qfloor x)) (1 # 2)) eqn:H1.
  { apply Qltb_lt in H1. split; lra. }
  apply Qltb_ge in H1.
  destruct (Qltb (1 # 2) (x - inject_Z (Qfloor x))) eqn:H2.
  { rewrite inject_Z_plus. change (inject_Z 1) with 1. split; lra. }
  apply Qltb_ge in H2.
  destruct (Z.even (Qfloor x)).
  - split; lra.
  - rewrite inject_Z_plus. change (inject_Z 1) with 1. split; lra.
Qed.

Lemma round_half_even_nonneg x : 0 <= x -> (0 <= round_half_even x)%Z.
Proof.
  intros Hx. unfold round_half_even.
  assert (Hf : (0 <= Qfloor x)%Z).
  { change 0%Z with (Qfloor 0). by apply Qfloor_resp_le. }
  repeat destruct (_ : bool); lia.
Qed.

(** An integer within less than a half of [x] is what [x] rounds to. *)
Lemma round_half_even_unique x n :
  x - (1 # 2) < inject_Z n -> inject_Z n < x + (1 # 2) ->
  round_half_even x = n.
Proof.
  intros Hlo Hhi. destruct (round_half_even_close x) as [Hlo' Hhi'].
  assert (H1 : inject_Z (round_half_even x) < inject_Z (n + 1)).
  { rewrite inject_Z_plus. change (inject_Z 1) with 1. lra. }
  assert (H2 : inject_Z n < inject_Z (round_half_even x + 1)).
  { rewrite inject_Z_plus. change (inject_Z 1) with 1. lra. }
  rewrite <- Zlt_Qlt in H1, H2. lia.
Qed.

Lemma round2_close x :
  x - (1 # 200) <= round2 x /\ round2 x <= x + (1 # 200).
Proof.
  unfold round2. destruct (round_half_even_close (x * 100)) as [Hlo Hhi].
  unfold Qdiv. change (/ 100) with (1 # 100). split; lra.
Qed.

Lemma simulate_price_change_nonneg current_price change_percent :
  0 <= current_price -> -1 <= change_percent ->
  0 <= simulate_price_change current_price change_percent.
Proof.
  intros Hp Hc. unfold simulate_price_change, round2, Qdiv.
  change (/ 100) with (1 # 100).
  assert (H0 : 0 <= current_price * (1 + change_percent) * 100).
  { apply Qmult_le_0_compat; [|lra].
    apply Qmult_le_0_compat; [exact Hp | lra]. }
  apply round_half_even_nonneg in H0. rewrite Zle_Qle in H0.
  change (inject_Z 0) with 0 in H0. lra.
Qed.

(** X8.  The simulated price, in exact arithmetic: a whole number of cents,
    within half a cent of [current_price * (1 + change_percent)]; not
    negative when the price is not and the change is at least -100%; for
    a change within the 2% of line 153, inside the 2% corridor widened by
    half a cent. *)
Theorem simulate_price_change_bounds current_price change_percent :
  let target := current_price * (1 + change_percent) in
  let new := simulate_price_change current_price change_percent in
  (exists cents : Z, new == inject_Z cents / 100) /\
  target - (1 # 200) <= new /\
  new <= target + (1 # 200) /\
  (0 <= current_price -> -1 <= change_percent -> 0 <= new) /\
  (0 <= current_price ->
   -(2 # 100) <= change_percent -> change_percent <= 2 # 100 ->
   (98 # 100) * current_price - (1 # 200) <= new /\
   new <= (102 # 100) * current_price + (1 # 200)).
Proof.
  intros target new. subst target new. unfold simulate_price_change.
  destruct (round2_close (current_price * (1 + change_percent))) as [Hlo Hhi].
  split; [eexists; unfold round2; reflexivity|].
  split; [exact Hlo|]. split; [exact Hhi|]. split.
  - apply simulate_price_change_nonneg.
  - intros Hp Hc1 Hc2.
    assert (H1 : 0 <= current_price * (change_percent + (2 # 100)))
      by (apply Qmult_le_0_compat; lra).
    assert (H2 : 0 <= current_price * ((2 # 100) - change_percent))
      by (apply Qmult_le_0_compat; lra).
    split; lra.
Qed.

Lemma simulate_price_change_bounds_witness :
  0 <= simulate_price_change 175.50 (-(2 # 100)) /\
  (98 # 100) * 175.50 - (1 # 200) <= simulate_price_change 175.50 (-(2 # 100)).
Proof.
  destruct (simulate_price_change_bounds 175.50 (-(2 # 100)))
    as (_ & _ & _ & Hpos & Hcorr).
  split.
  - apply Hpos; vm_compute; discriminate.
  - apply Hcorr; vm_compute; discriminate.
Defined.

(** X9.  In exact arithmetic, a price that is a whole number of cents does
    not move when the drawn change amounts to less than half a cent of it
    (for a change within 2%: any price below 0.25). *)
Theorem small_price_is_frozen current_price change_percent (cents : Z) :
  current_price == inject_Z cents / 100 ->
  -(1 # 200) < current_price * change_percent ->
  current_price * change_percent < 1 # 200 ->
  simulate_price_change current_price change_percent == current_price.
Proof.
  intros Hc Hlo Hhi. unfold simulate_price_change, round2.
  unfold Qdiv in *. change (/ 100) with (1 # 100) in *.
  rewrite (round_half_even_unique _ cents); [by rewrite Hc| |]; lra.
Qed.

Lemma small_price_is_frozen_witness :
  simulate_price_change 0.20 (2 # 100) == 0.20 /\
  simulate_price_change 0.20 (-(2 # 100)) == 0.20.
Proof.
  split.
  - apply (small_price_is_frozen 0.20 (2 # 100) 20); vm_compute; reflexivity.
  - apply (small_price_is_frozen 0.20 (-(2 # 100)) 20); vm_compute; reflexivity.
Defined.

(** ** Accounts in good order *)

Lemma INITIAL_PRICES_nonneg s p : INITIAL_PRICES !! s = Some p -> 0 <= p.
Proof.
  intros H.
  assert (Hall : forallb (fun e : string * Q => Qle_bool 0 e.2)
                         (map_to_list INITIAL_PRICES) = true)
    by (vm_compute; reflexivity).
  rewrite forallb_forall in Hall.
  apply elem_of_map_to_list, list_elem_of_In in H.
  specialize (Hall _ H). by apply Qle_bool_iff in Hall.
Qed.

Lemma seed_balance_nonneg lvl seed :
  seed_balance lvl = Some seed -> 0 <= inject_Z seed.
Proof.
  unfold seed_balance. intros H.
  assert (Hall : forallb (fun e : string * Z => (0 <=? e.2)%Z)
                         (map_to_list initial_balances) = true)
    by (vm_compute; reflexivity).
  rewrite forallb_forall in Hall.
  apply elem_of_map_to_list, list_elem_of_In in H.
  specialize (Hall _ H). cbn in Hall. apply Z.leb_le in Hall.
  change 0 with (inject_Z 0). by rewrite <- Zle_Qle.
Qed.

Lemma fresh_session_sound uid lvl seed prices now1 now2 :
  seed_balance lvl = Some seed ->
  (forall s, prices !! s
             = if decide (s ∈ universe lvl) then INITIAL_PRICES !! s else None) ->
  sound_session (fresh_session uid lvl seed prices now1 now2).
Proof.
  intros Hseed Hprices. unfold sound_session, fresh_session.
  cbn [balance stock_prices portfolio level].
  split; [by eapply seed_balance_nonneg|]. split.
  { intros s p. rewrite Hprices. destruct (decide _); [|discriminate].
    apply INITIAL_PRICES_nonneg. }
  split; [intros s h; by rewrite lookup_empty|].
  intros s. rewrite Hprices. destruct (decide (s ∈ universe lvl)) as [Hin|Hnin].
  - split; [done|]. intros _.
    pose proof (universe_priced lvl) as Hall. rewrite Forall_forall in Hall.
    by apply Hall.
  - split; [intros [? [=]] | done].
Qed.

(** The price at which an order of a sane request executes is not
    negative on a sound session. *)
Lemma execution_price_nonneg order cp p :
  0 <= cp ->
  (forall limit, limit_price order = Some limit -> 0 <= limit) ->
  execution_price_of order cp = Return p ->
  0 <= p.
Proof.
  intros Hcp Hlim. unfold execution_price_of.
  destruct (order_type order =? "limit"); [|by intros [= <-]].
  destruct (limit_price order) as [limit|]; [|discriminate].
  destruct (_ || _); [discriminate|]. intros [= <-]. by apply Hlim.
Qed.

Lemma new_average_nonneg h q p :
  (0 <= shares h)%Z -> 0 <= avg_price h -> (0 < q)%Z -> 0 <= p ->
  0 <= new_average h q p.
Proof.
  intros Hs Ha Hq Hp. unfold new_average.
  assert (Hs' : 0 <= inject_Z (shares h))
    by (change 0 with (inject_Z 0); rewrite <- Zle_Qle; lia).
  assert (Hq' : 0 <= inject_Z q)
    by (change 0 with (inject_Z 0); rewrite <- Zle_Qle; lia).
  assert (Hd : 0 < inject_Z (shares h + q))
    by (change 0 with (inject_Z 0); rewrite <- Zlt_Qlt; lia).
  apply Qle_shift_div_l; [exact Hd|]. rewrite Qmult_0_l.
  pose proof (Qmult_le_0_compat _ _ Hs' Ha).
  pose proof (Qmult_le_0_compat _ _ Hq' Hp). lra.
Qed.

Lemma holding_of_sound st sym :
  sound_session st ->
  (0 <= shares (holding_of st sym))%Z /\ 0 <= avg_price (holding_of st sym).
Proof.
  intros (_ & _ & Hpf & _). unfold holding_of.
  destruct (portfolio st !! sym) as [h|] eqn:Hh.
  - destruct (Hpf _ _ Hh) as (? & ? & _). split; [lia|done].
  - cbn. split; [lia|apply Qle_refl].
Qed.

Lemma bought_sound st sym q p cp :
  sound_session st ->
  stock_prices st !! sym = Some cp ->
  (0 < q)%Z -> 0 <= p ->
  p * inject_Z q <= balance st ->
  sound_session (bought st sym q p).
Proof.
  intros Hsound Hcp Hq Hp Hbal.
  destruct (holding_of_sound st sym Hsound) as [Hs Ha].
  destruct Hsound as (_ & Hprices & Hpf & Hdom).
  unfold sound_session, bought.
  cbn [balance stock_prices portfolio level set_balance set_portfolio].
  split; [lra|]. split; [exact Hprices|]. split; [|exact Hdom].
  intros s h. destruct (decide (s = sym)) as [->|Hne].
  - rewrite lookup_insert_eq. intros [= <-]. cbn [shares avg_price].
    split; [lia|]. split; [by apply new_average_nonneg | by rewrite Hcp].
  - rewrite lookup_insert_ne by done. apply Hpf.
Qed.

Lemma sold_sound st sym h q p :
  sound_session st ->
  portfolio st !! sym = Some h ->
  (0 < q)%Z -> (q <= shares h)%Z -> 0 <= p ->
  sound_session (sold st sym h q p).
Proof.
  intros (Hbal & Hprices & Hpf & Hdom) Hh Hq Hle Hp.
  unfold sound_session, sold.
  cbn [balance stock_prices portfolio level set_balance set_portfolio].
  assert (Hq' : 0 <= inject_Z q)
    by (change 0 with (inject_Z 0); rewrite <- Zle_Qle; lia).
  pose proof (Qmult_le_0_compat _ _ Hp Hq').
  split; [lra|]. split; [exact Hprices|]. split; [|exact Hdom].
  intros s h'. destruct (decide (s = sym)) as [->|Hne].
  - destruct (Z.eqb_spec (shares h - q) 0) as [Hz|Hz].
    + by rewrite lookup_delete_eq.
    + rewrite lookup_insert_eq. intros [= <-]. cbn [shares avg_price].
      destruct (Hpf _ _ Hh) as (_ & ? & ?). split; [lia|done].
  - destruct (_ =? _)%Z.
    + rewrite lookup_delete_ne by done. apply Hpf.
    + rewrite lookup_insert_ne by done. apply Hpf.
Qed.

Lemma recorded_sound now2 st : sound_session st -> sound_session (recorded now2 st).
Proof. intros H. exact H. Qed.

Lemma moved_prices_sound draw now st :
  (forall s, -1 <= draw s) ->
  sound_session st ->
  sound_session (set_last_updated now
                   (set_stock_prices (moved_prices draw (stock_prices st)) st)).
Proof.
  intros Hdraw (Hbal & Hprices & Hpf & Hdom). unfold sound_session.
  cbn [balance stock_prices portfolio level set_last_updated set_stock_prices].
  split; [exact Hbal|]. split; [|split].
  - intros s p. rewrite moved_prices_lookup.
    destruct (stock_prices st !! s) as [p0|] eqn:Hs; [|discriminate].
    intros [= <-].
    apply simulate_price_change_nonneg; [by eapply Hprices | apply Hdraw].
  - intros s h Hh. destruct (Hpf _ _ Hh) as (? & ? & Hq).
    split; [done|]. split; [done|].
    rewrite moved_prices_lookup. by apply fmap_is_Some.
  - intros s. rewrite moved_prices_lookup, fmap_is_Some. apply Hdom.
Qed.

Lemma sound_world_insert w u st :
  sound_world w -> sound_session st ->
  sound_world (mkWorld (<[u := st]> (simulator_db w)) (trades_db w)).
Proof.
  intros Hw Hst v st'. cbn [simulator_db].
  destruct (decide (v = u)) as [->|Hne].
  - rewrite lookup_insert_eq. by intros [= <-].
  - rewrite lookup_insert_ne by done. apply Hw.
Qed.

Lemma sound_world_journal db tr tr' :
  sound_world (mkWorld db tr) -> sound_world (mkWorld db tr').
Proof. intros H. exact H. Qed.

Lemma counted_sound now2 st : sound_session st -> sound_session (counted now2 st).
Proof. intros H. exact H. Qed.

(** An absent holding converts whenever the quantity does. *)
Lemma buy_converts_absent q :
  in_float_range q = true -> buy_converts (mkHolding 0 (PyInt 0)) q = true.
Proof.
  intros Hq. unfold buy_converts. cbn [shares avg_price].
  rewrite Z.add_0_l, Hq. reflexivity.
Qed.

(** The session that line 396 leaves behind when it raises on a sane
    order: the holding was there, so only the balance has changed. *)
Lemma debited_sound st sym q p :
  sound_session st ->
  (0 < q)%Z ->
  in_float_range q = true ->
  p * inject_Z q <= balance st ->
  buy_converts (holding_of st sym) q = false \/
  (shares (holding_of st sym) + q)%Z = 0%Z ->
  sound_session (debited st sym (p * inject_Z q)).
Proof.
  intros Hsound Hq Hrange Hbal Hstuck.
  destruct (holding_of_sound st sym Hsound) as [Hs _].
  destruct Hstuck as [Hconv|Hz]; [|lia].
  unfold debited, holding_of in *.
  destruct (portfolio st !! sym) as [h|] eqn:Hh.
  2:{ rewrite (buy_converts_absent _ Hrange) in Hconv. discriminate. }
  rewrite (insert_id _ _ _ Hh).
  destruct Hsound as (_ & Hprices & Hpf & Hdom).
  unfold sound_session.
  cbn [balance stock_prices portfolio level set_balance set_portfolio].
  split; [lra|]. auto.
Qed.

Lemma traded_sound st order p st1 :
  sound_session st ->
  (0 < quantity order)%Z -> 0 <= p ->
  is_Some (stock_prices st !! symbol order) ->
  traded st order p st1 ->
  sound_session st1.
Proof.
  intros Hsound Hq Hp [cp Hcp] [(_ & Hbal & _ & _ & ->)|(_ & h & Hh & Hle & ->)].
  - by eapply bought_sound.
  - by apply sold_sound.
Qed.

(** On a sound world a sane order is never a division by zero, and
    whatever it does the world stays sound. *)
Lemma sane_trade_outcome uid order tid now1 now2 w :
  sound_world w ->
  sane_request (Trade uid order tid now1 now2) ->
  sound_world (snd (execute_trade uid order tid now1 now2 w)) /\
  forall e w',
    execute_trade uid order tid now1 now2 w = (Raise e, w') ->
    (validation_failure e \/ e = OverflowError) /\
    (validation_failure e -> w' = w).
Proof.
  intros Hw [Hq Hlim].
  assert (Hprice : forall st cp p,
            simulator_db w !! uid = Some st ->
            stock_prices st !! symbol order = Some cp ->
            execution_price_of order cp = Return p ->
            sound_session st /\ 0 <= p).
  { intros st cp p Hst Hcp Hp. pose proof (Hw _ _ Hst) as Hsound.
    split; [exact Hsound|].
    eapply execution_price_nonneg; [|exact Hlim|exact Hp].
    destruct Hsound as (_ & Hprices & _). by eapply Hprices. }
  assert (Hval : forall x, validation_failure x -> x <> OverflowError).
  { intros x. unfold validation_failure. cbn.
    intros [<-|[<-|[<-|[<-|[<-|[<-|[<-|[]]]]]]]]; discriminate. }
  destruct (execute_trade uid order tid now1 now2 w) as [[r|e] w'] eqn:Hrun.
  - split; [|discriminate]. cbn [snd].
    destruct (execute_trade_Return _ _ _ _ _ _ _ _ Hrun)
      as (st & cp & p & st1 & Hst & Hcp & Hp & _ & Htr & _ & _ & ->).
    destruct (Hprice _ _ _ Hst Hcp Hp) as [Hsound Hp0].
    apply sound_world_journal with (tr := trades_db w).
    apply sound_world_insert; [exact Hw|]. apply recorded_sound.
    eapply traded_sound; eauto.
  - cbn [snd].
    destruct (execute_trade_Raise _ _ _ _ _ _ _ _ Hrun)
      as [[Hv ->]
         |[(-> & -> & _)
          |[(st & cp & p & Hst & Hcp & Hp & Hrange & Ha & Hbal & He & ->)
           |(st & cp & p & st1 & Hst & Hcp & Hp & _ & Htr & _ & -> & ->)]]].
    + split; [exact Hw|]. intros e' w'' [= <- <-]. auto.
    + split; [exact Hw|]. intros e' w'' [= <- <-]. auto.
    + destruct (Hprice _ _ _ Hst Hcp Hp) as [Hsound Hp0].
      assert (Hstuck : buy_converts (holding_of st (symbol order)) (quantity order)
                       = false
                       \/ (shares (holding_of st (symbol order)) + quantity order)%Z
                          = 0%Z).
      { destruct He as [[_ ?]|(_ & _ & ?)]; auto. }
      split.
      * apply sound_world_insert; [exact Hw|]. by apply debited_sound.
      * intros e' w'' [= <- <-].
        destruct He as [[-> _]|(_ & _ & Hz)].
        -- split; [auto|]. intros Hv. by destruct (Hval _ Hv).
        -- exfalso. destruct (holding_of_sound st (symbol order) Hsound). lia.
    + destruct (Hprice _ _ _ Hst Hcp Hp) as [Hsound Hp0].
      split.
      * apply sound_world_journal with (tr := trades_db w).
        apply sound_world_insert; [exact Hw|]. apply counted_sound.
        eapply traded_sound; eauto.
      * intros e' w'' [= <- <-]. split; [auto|].
        intros Hv. by destruct (Hval _ Hv).
Qed.

Lemma handle_sound r w :
  sane_request r -> sound_world w -> sound_world (handle r w).
Proof.
  intros Hr Hw. destruct r as [u l n1 n2|u|u o i n1 n2|u l|u d n];
    cbn [handle].
  - destruct (str_in l valid_levels) eqn:Hl; unfold valid_levels in Hl.
    + destruct (initialize_simulator_valid u l n1 n2 w Hl)
        as (seed & prices & Hseed & Hprices & ->).
      cbn [snd]. apply sound_world_insert; [exact Hw|].
      by apply fresh_session_sound.
    + by rewrite (initialize_simulator_invalid _ _ _ _ _ Hl).
  - by rewrite get_simulator_state_world.
  - by apply sane_trade_outcome.
  - by rewrite get_trade_history_run.
  - destruct (simulator_db w !! u) as [s|] eqn:Hu.
    + destruct w as [db tr]. cbn [simulator_db] in Hu.
      rewrite (update_stock_prices_run _ _ _ _ _ _ Hu). cbn [snd].
      apply (sound_world_insert (mkWorld db tr)); [exact Hw|].
      apply moved_prices_sound; [exact Hr|]. by eapply Hw.
    + by rewrite (update_stock_prices_absent _ _ _ _ Hu).
Qed.

Lemma handle_all_sound rs : forall w,
  Forall sane_request rs -> sound_world w -> sound_world (handle_all rs w).
Proof.
  induction rs as [|r rs IH]; intros w Hrs Hw; [exact Hw|].
  inversion Hrs as [|? ? Hr Hrs']; subst.
  cbn [handle_all foldl]. apply IH; [exact Hrs'|]. by apply handle_sound.
Qed.

(** X10.  In exact arithmetic and served sane requests only, the simulator
    keeps every account in good order from process start: the balance
    never drops below 0, no price is negative, no holding has 0 shares or
    fewer, every held symbol is quoted, and the price table lists exactly
    the symbols of the level.  On such a world a sane order fills, or is
    turned down by a validation failure that changes nothing, or raises
    [OverflowError] because the quantity or a share count lies beyond the
    doubles; it never divides by zero, and whatever it raises it leaves
    the accounts in good order. *)
Theorem sane_requests_keep_accounts_sound rs :
  Forall sane_request rs ->
  sound_world (handle_all rs empty_world) /\
  forall uid order tid now1 now2 e w',
    sane_request (Trade uid order tid now1 now2) ->
    execute_trade uid order tid now1 now2 (handle_all rs empty_world) = (Raise e, w') ->
    (validation_failure e \/ e = OverflowError) /\
    (validation_failure e -> w' = handle_all rs empty_world) /\
    sound_world w'.
Proof.
  intros Hrs.
  assert (Hw : sound_world (handle_all rs empty_world)).
  { apply handle_all_sound; [exact Hrs|]. intros u st.
    cbn [simulator_db empty_world]. by rewrite lookup_empty. }
  split; [exact Hw|]. intros uid order tid now1 now2 e w' Hsane Hrun.
  destruct (sane_trade_outcome uid order tid now1 now2 _ Hw Hsane) as [Hw' Hraise].
  destruct (Hraise _ _ Hrun) as [He Hsame].
  split; [exact He|]. split; [exact Hsame|]. by rewrite Hrun in Hw'.
Qed.

Lemma sane_requests_keep_accounts_sound_witness :
  sound_world
    (handle_all [Initialize "u" "beginner" 0 0;
                 Trade "u" (market_order "buy" "AAPL" 5) "t1" 1 1;
                 UpdatePrices "u" (fun _ => -(2 # 100)) 2;
                 Trade "u" (limit_order "sell" "AAPL" 5 100) "t2" 3 3]
                empty_world).
Proof.
  apply (sane_requests_keep_accounts_sound
           [Initialize "u" "beginner" 0 0;
            Trade "u" (market_order "buy" "AAPL" 5) "t1" 1 1;
            UpdatePrices "u" (fun _ => -(2 # 100)) 2;
            Trade "u" (limit_order "sell" "AAPL" 5 100) "t2" 3 3]).
  repeat constructor; cbn; try (intros; discriminate).
  intros limit [= <-]. vm_compute. discriminate.
Defined.

(** ** The order of a history page *)

Lemma insert_desc_same_instant k t l :
  filter (fun u => te_timestamp u = k) (insert_desc t l)
  = filter (fun u => te_timestamp u = k) (t :: l).
Proof.
  induction l as [|u l IH]; cbn [insert_desc]; [reflexivity|].
  destruct (Z.leb_spec (te_timestamp u) (te_timestamp t)) as [Hle|Hgt];
    [reflexivity|].
  rewrite filter_cons, IH, !filter_cons.
  destruct (decide (te_timestamp u = k)) as [Hu|Hu];
    destruct (decide (te_timestamp t = k)) as [Ht|Ht]; try reflexivity.
  lia.
Qed.

(** X11.  The sort is stable: the trades of a user made at the same instant come
    back in the order in which they were journalled. *)
Theorem history_keeps_journal_order uid journal k :
  filter (fun t => te_timestamp t = k) (history_of uid journal)
  = filter (fun t => te_timestamp t = k)
           (filter (fun t => te_user_id t = uid) journal).
Proof.
  unfold history_of.
  induction (filter (fun t => te_user_id t = uid) journal) as [|t l IH];
    [reflexivity|].
  cbn [sort_by_timestamp_desc foldr]. fold (sort_by_timestamp_desc l).
  rewrite insert_desc_same_instant, !filter_cons, IH. reflexivity.
Qed.

(** ** Users *)

Lemma od_lookup_store_eq {V} k (v : V) d : od_lookup k (od_store k v d) = Some v.
Proof.
  induction d as [|[k' v'] d IH]; cbn [od_store od_lookup].
  - by rewrite String.eqb_refl.
  - destruct (String.eqb_spec k' k) as [->|Hne]; cbn [od_lookup].
    + by rewrite String.eqb_refl.
    + by rewrite (proj2 (String.eqb_neq _ _) Hne).
Qed.

Lemma od_lookup_store_ne {V} k k0 (v : V) d :
  k0 <> k -> od_lookup k0 (od_store k v d) = od_lookup k0 d.
Proof.
  intros Hne. induction d as [|[k' v'] d IH]; cbn [od_store od_lookup].
  - destruct (String.eqb_spec k k0); [congruence|reflexivity].
  - destruct (String.eqb_spec k' k) as [->|Hk]; cbn [od_lookup].
    + destruct (String.eqb_spec k k0); [congruence|reflexivity].
    + by rewrite IH.
Qed.

Lemma od_store_keys {V} k (v : V) d :
  od_lookup k d = None ->
  od_store k v d = (d ++ [(k, v)])%list.
Proof.
  induction d as [|[k' v'] d IH]; cbn [od_store od_lookup app]; [done|].
  destruct (String.eqb k' k); [discriminate|]. intros H. by rewrite IH.
Qed.

Lemma od_store_keys_present {V} k (v : V) d :
  is_Some (od_lookup k d) ->
  (od_store k v d).*1 = d.*1.
Proof.
  induction d as [|[k' v'] d IH]; cbn [od_store od_lookup].
  - by intros [? [=]].
  - destruct (String.eqb k' k); [reflexivity|].
    intros H. cbn [fmap list_fmap]. f_equal. by apply IH.
Qed.

Lemma od_lookup_elem {V} k (v : V) d :
  od_lookup k d = Some v -> (k, v) ∈ d.
Proof.
  induction d as [|[k' v'] d IH]; cbn [od_lookup]; [discriminate|].
  destruct (String.eqb_spec k' k) as [->|Hne].
  - intros [= ->]. by left.
  - intros H. right. by apply IH.
Qed.

Lemma od_lookup_None {V} k (d : list (string * V)) :
  od_lookup k d = None <-> k ∉ d.*1.
Proof.
  induction d as [|[k' v'] d IH]; cbn [od_lookup fmap list_fmap].
  - split; [intros _; apply not_elem_of_nil | done].
  - rewrite not_elem_of_cons. cbn [fst].
    destruct (String.eqb_spec k' k) as [->|Hne].
    + split; [discriminate | intros [? _]; congruence].
    + rewrite IH. split; [intros ?; split; congruence | tauto].
Qed.

(** With distinct keys, the entry found by position is the entry found by
    key. *)
Lemma od_lookup_middle {V} k (v : V) l1 l2 :
  k ∉ l1.*1 -> od_lookup k (l1 ++ (k, v) :: l2) = Some v.
Proof.
  induction l1 as [|[k' v'] l1 IH]; cbn [od_lookup app fmap list_fmap].
  - intros _. by rewrite String.eqb_refl.
  - rewrite not_elem_of_cons. cbn [fst]. intros [Hne Hnin].
    destruct (String.eqb_spec k' k); [congruence|]. by apply IH.
Qed.

(** X14.  Registration and authentication round trip: after [register_user] the
    returned token authenticates as the new user, who starts as a
    beginner with no time spent; every other token authenticates as
    before; the progress registry is untouched; and a token that was not
    in use is appended at the end of [users_db]. *)
Theorem register_then_authenticate username email token now p :
  let user := mkUser token username email now "beginner" 0 in
  let r := (register_user username email token now p).1 in
  let p' := (register_user username email token now p).2 in
  ar_token r = token /\
  ar_user_id r = token /\
  get_current_user token p' = Return user /\
  (forall t, t <> token -> get_current_user t p' = get_current_user t p) /\
  progress_db p' = progress_db p /\
  (get_current_user token p
   = Raise (HTTPException 401 "Invalid authentication credentials") ->
   users_db p' = (users_db p ++ [(token, user)])%list).
Proof.
  cbn. unfold get_current_user. cbn [users_db set_users_db].
  split; [reflexivity|]. split; [reflexivity|].
  split; [by rewrite od_lookup_store_eq|]. split.
  { intros t Ht. by rewrite od_lookup_store_ne. }
  split; [reflexivity|].
  destruct (od_lookup token (users_db p)) eqn:Hl; [discriminate|].
  intros _. by apply od_store_keys.
Qed.

(** X15.  [login_user] hands out the token of the first user, in registration
    order, who bears the name, and changes nothing; that token
    authenticates as that user.  Only when nobody bears the name does it
    register a new user, with the address name@example.com. *)
Theorem login_returns_first_registered username token now p :
  (forall l1 tok u l2,
     users_db p = (l1 ++ (tok, u) :: l2)%list ->
     us_username u = username ->
     Forall (fun e : string * User => us_username e.2 <> username) l1 ->
     login_user username token now p
     = (mkAuthResponse tok tok "Login successful", p) /\
     (NoDup (users_db p).*1 -> get_current_user tok p = Return u)) /\
  (Forall (fun e : string * User => us_username e.2 <> username) (users_db p) ->
   login_user username token now p
   = register_user username (username ++ "@example.com") token now p).
Proof.
  unfold login_user. split.
  - intros l1 tok u l2 Hdb Hu Hl1. rewrite Hdb. split.
    + assert (Hfind : List.find (fun e : string * User => us_username e.2 =? username)
                                (l1 ++ (tok, u) :: l2)
                      = Some (tok, u)).
      { clear Hdb. induction Hl1 as [|[k v] l1 Hk _ IH]; cbn [List.find app].
        - cbn. by rewrite (proj2 (String.eqb_eq _ _) Hu).
        - cbn [snd] in *. by rewrite (proj2 (String.eqb_neq _ _) Hk). }
      by rewrite Hfind.
    + intros Hnd. unfold get_current_user. rewrite Hdb.
      rewrite od_lookup_middle; [reflexivity|].
      rewrite fmap_app, fmap_cons in Hnd. cbn [fst] in Hnd.
      apply NoDup_app in Hnd as (_ & Hdisj & _).
      intros Hin. apply (Hdisj _ Hin). by left.
  - intros Hall.
    assert (Hfind : List.find (fun e : string * User => us_username e.2 =? username)
                              (users_db p) = None).
    { induction Hall as [|[k v] l Hk _ IH]; cbn [List.find]; [reflexivity|].
      cbn [snd] in *. by rewrite (proj2 (String.eqb_neq _ _) Hk). }
    by rewrite Hfind.
Qed.

Lemma login_returns_first_registered_witness :
  let p1 := (register_user "ann" "ann@a.org" "t1" 1 empty_platform).2 in
  let p2 := (register_user "ann" "other@b.org" "t2" 2 p1).2 in
  login_user "ann" "t3" 3 p2 = (mkAuthResponse "t1" "t1" "Login successful", p2)
  /\ login_user "bob" "t3" 3 p2
     = register_user "bob" "bob@example.com" "t3" 3 p2.
Proof.
  intros p1 p2. split.
  - apply (proj1 (login_returns_first_registered "ann" "t3" 3 p2)
             [] "t1" (mkUser "t1" "ann" "ann@a.org" 1 "beginner" 0)
             [("t2", mkUser "t2" "ann" "other@b.org" 2 "beginner" 0)]).
    + reflexivity.
    + reflexivity.
    + constructor.
  - apply (proj2 (login_returns_first_registered "bob" "t3" 3 p2)).
    repeat constructor; discriminate.
Defined.

(** X16.  [update_user_level]: an unknown user is turned down first (404), then
    an invalid level (400), both without any change; otherwise the level
    of that user is replaced and nothing else: the other users, the order
    of [users_db] and the progress registry stay. *)
Theorem update_user_level_sets_level user_id lvl p :
  (od_lookup user_id (users_db p) = None ->
   update_user_level user_id lvl p = (Raise (HTTPException 404 "User not found"), p)) /\
  (forall user,
     od_lookup user_id (users_db p) = Some user ->
     (lvl ∉ valid_levels ->
      update_user_level user_id lvl p = (Raise InvalidLevel, p)) /\
     (lvl ∈ valid_levels ->
      exists p',
        update_user_level user_id lvl p
        = (Return (mkLevelResponse "User level updated successfully" user_id lvl),
           p') /\
        get_current_user user_id p' = Return (set_current_level lvl user) /\
        (forall t, t <> user_id ->
                   get_current_user t p' = get_current_user t p) /\
        (users_db p').*1 = (users_db p).*1 /\
        progress_db p' = progress_db p)).
Proof.
  unfold update_user_level. split; [by intros ->|].
  intros user Hu. rewrite Hu. split.
  - intros Hbad. destruct (str_in lvl _) eqn:E; [|reflexivity].
    apply str_in_true in E. contradiction.
  - intros Hok%str_in_true. unfold valid_levels in Hok. rewrite Hok.
    cbn [negb]. eexists.
    split; [reflexivity|]. unfold get_current_user.
    cbn [users_db progress_db set_users_db].
    split; [by rewrite od_lookup_store_eq|]. split.
    + intros t Ht. by rewrite od_lookup_store_ne.
    + split; [|reflexivity]. apply od_store_keys_present. by rewrite Hu.
Qed.

Lemma update_user_level_sets_level_witness :
  let p1 := (register_user "ann" "ann@a.org" "t1" 1 empty_platform).2 in
  update_user_level "t1" "expert" p1 = (Raise InvalidLevel, p1)
  /\ update_user_level "nobody" "expert" p1
     = (Raise (HTTPException 404 "User not found"), p1)
  /\ exists p',
       update_user_level "t1" "advanced" p1
       = (Return (mkLevelResponse "User level updated successfully" "t1" "advanced"),
          p')
       /\ get_current_user "t1" p'
          = Return (mkUser "t1" "ann" "ann@a.org" 1 "advanced" 0).
Proof.
  intros p1.
  pose proof (update_user_level_sets_level "t1" "expert" p1) as [_ H1].
  pose proof (update_user_level_sets_level "nobody" "expert" p1) as [H2 _].
  pose proof (update_user_level_sets_level "t1" "advanced" p1) as [_ H3].
  split; [|split].
  - apply (H1 (mkUser "t1" "ann" "ann@a.org" 1 "beginner" 0) eq_refl).
    unfold valid_levels. rewrite !elem_of_cons, elem_of_nil.
    intros [H|[H|[H|[]]]]; discriminate H.
  - apply H2. reflexivity.
  - destruct (proj2 (H3 (mkUser "t1" "ann" "ann@a.org" 1 "beginner" 0) eq_refl))
      as (p' & Hrun & Hget & _).
    + unfold valid_levels. rewrite !elem_of_cons. tauto.
    + exists p'. split; assumption.
Defined.

(** ** Progress *)

Lemma append_cons c a b : (String c a ++ b = String c (a ++ b))%string.
Proof. reflexivity. Qed.

Lemma append_nil b : (EmptyString ++ b = b)%string.
Proof. reflexivity. Qed.

Lemma has_underscore_app a b :
  has_underscore (a ++ b) = has_underscore a || has_underscore b.
Proof.
  induction a as [|c a IH]; [reflexivity|].
  rewrite append_cons. cbn [has_underscore]. by rewrite IH, orb_assoc.
Qed.

Lemma progress_key_has_underscore u m : has_underscore (progress_key u m) = true.
Proof.
  unfold progress_key. rewrite has_underscore_app, append_cons, append_nil.
  cbn. by rewrite orb_true_r.
Qed.

Lemma module_has_no_underscore m info :
  od_lookup m MODULES_DATA = Some info -> has_underscore m = false.
Proof.
  intros H%od_lookup_elem%list_elem_of_In.
  assert (Hall : forallb (fun e : string * ModuleInfo => negb (has_underscore e.1))
                         MODULES_DATA = true) by (vm_compute; reflexivity).
  rewrite forallb_forall in Hall. specialize (Hall _ H).
  by apply negb_true_iff in Hall.
Qed.

(** The key of line 264 tells user and module apart, the module name
    having no underscore. *)
Lemma progress_key_inj u m u' m' :
  has_underscore m = false -> has_underscore m' = false ->
  progress_key u m = progress_key u' m' -> u = u' /\ m = m'.
Proof.
  unfold progress_key. intros Hm Hm'. revert u'.
  induction u as [|c u IH]; intros [|c' u'];
    rewrite ?append_cons, ?append_nil.
  - by intros [= ->].
  - intros [= <- ->]. rewrite has_underscore_app in Hm.
    cbn in Hm. by rewrite orb_true_r in Hm.
  - intros [= -> <-]. rewrite has_underscore_app in Hm'.
    cbn in Hm'. by rewrite orb_true_r in Hm'.
  - intros [= -> H]. destruct (IH u') as [-> ->]; [|done].
    by rewrite ?append_cons, ?append_nil.
Qed.

Lemma str_in_false_iff s l : str_in s l = false <-> s ∉ l.
Proof.
  rewrite <- str_in_true. destruct (str_in s l); split; congruence.
Qed.

(** The entry that [update_module_progress] stores for a known module. *)
Lemma update_module_progress_known u m pr ts c now p info :
  od_lookup m MODULES_DATA = Some info ->
  exists e,
    update_module_progress u m pr ts c now p
    = (Return (mkUpdateProgressResponse "Progress updated successfully" m pr
                 (mp_completed e) (mp_time_spent e)),
       set_progress_db (<[progress_key u m := e]> (progress_db p)) p) /\
    mp_progress e = pr /\
    mp_last_accessed e = now /\
    match progress_db p !! progress_key u m with
    | None =>
        mp_user_id e = u /\ mp_module_id e = m /\
        mp_total_checkpoints e = mi_checkpoints info /\
        mp_completed e = (mi_checkpoints info <=? pr)%Z /\
        mp_time_spent e = 0%Z /\
        mp_checkpoints_completed e = []
    | Some old =>
        mp_user_id e = mp_user_id old /\ mp_module_id e = mp_module_id old /\
        mp_total_checkpoints e = mp_total_checkpoints old /\
        mp_completed e = mp_completed old || (mi_checkpoints info <=? pr)%Z /\
        mp_time_spent e = (mp_time_spent old + ts)%Z /\
        mp_checkpoints_completed e
        = match c with
          | Some c' =>
              if negb (c' =? EmptyString)
                 && negb (str_in c' (mp_checkpoints_completed old))
              then (mp_checkpoints_completed old ++ [c'])%list
              else mp_checkpoints_completed old
          | None => mp_checkpoints_completed old
          end
    end.
Proof.
  intros Hm. unfold update_module_progress. rewrite Hm.
  eexists. split; [reflexivity|].
  destruct (progress_db p !! progress_key u m) as [old|];
    destruct (mi_checkpoints info <=? pr)%Z; cbn;
    rewrite ?orb_true_r, ?orb_false_r; repeat split; try reflexivity;
    destruct c; reflexivity.
Qed.

(** X17.  [update_module_progress] turns down an unknown module without any
    change.  For a known module the first update of a user creates the
    entry with the given progress, and drops the [time_spent] and the
    [checkpoint] it was given: the entry starts with no time and no
    checkpoint.  Every later update sets the progress, adds its
    [time_spent], and appends its checkpoint unless that is empty or
    already listed.  [completed] is set once the progress reaches the
    checkpoint count of the module and is never cleared.  No other entry
    and no user is touched. *)
Theorem update_module_progress_effect u m pr ts c now p :
  (od_lookup m MODULES_DATA = None ->
   update_module_progress u m pr ts c now p
   = (Raise (HTTPException 404 "Module not found"), p)) /\
  (forall info,
     od_lookup m MODULES_DATA = Some info ->
     exists e p',
       update_module_progress u m pr ts c now p
       = (Return (mkUpdateProgressResponse "Progress updated successfully" m pr
                    (mp_completed e) (mp_time_spent e)),
          p') /\
       progress_db p' !! progress_key u m = Some e /\
       (forall k, k <> progress_key u m -> progress_db p' !! k = progress_db p !! k) /\
       users_db p' = users_db p /\
       mp_progress e = pr /\
       match progress_db p !! progress_key u m with
       | None =>
           e = mkModuleProgress u m pr (mi_checkpoints info)
                                (mi_checkpoints info <=? pr)%Z 0 now []
       | Some old =>
           mp_completed e = mp_completed old || (mi_checkpoints info <=? pr)%Z /\
           mp_time_spent e = (mp_time_spent old + ts)%Z /\
           mp_checkpoints_completed e
           = match c with
             | Some c' =>
                 if negb (c' =? EmptyString)
                    && negb (str_in c' (mp_checkpoints_completed old))
                 then (mp_checkpoints_completed old ++ [c'])%list
                 else mp_checkpoints_completed old
             | None => mp_checkpoints_completed old
             end
       end).
Proof.
  split.
  - intros Hm. unfold update_module_progress. by rewrite Hm.
  - intros info Hm.
    destruct (update_module_progress_known u m pr ts c now p info Hm)
      as (e & Hrun & Hpr & Hnow & Hcase).
    exists e, (set_progress_db (<[progress_key u m := e]> (progress_db p)) p).
    split; [exact Hrun|]. cbn [progress_db users_db set_progress_db].
    split; [by rewrite lookup_insert_eq|]. split.
    { intros k Hk. by rewrite lookup_insert_ne. }
    split; [reflexivity|]. split; [exact Hpr|].
    destruct (progress_db p !! progress_key u m) as [old|].
    + destruct Hcase as (_ & _ & _ & ? & ? & ?). auto.
    + destruct Hcase as (Hu & Hmod & Htot & Hcomp & Htime & Hcp).
      destruct e. cbn in *. by subst.
Qed.

Lemma update_module_progress_effect_witness :
  exists e p',
    update_module_progress "ann" "hft" 3 40 (Some "intro") 1 empty_platform
    = (Return (mkUpdateProgressResponse "Progress updated successfully" "hft" 3
                 (mp_completed e) (mp_time_spent e)),
       p') /\
    progress_db p' !! "ann_hft" = Some e /\
    mp_time_spent e = 0%Z /\
    mp_checkpoints_completed e = [].
Proof.
  destruct (proj2 (update_module_progress_effect "ann" "hft" 3 40 (Some "intro") 1
                     empty_platform)
              (mkModuleInfo "advanced" "High-Frequency Trading" 10 85) eq_refl)
    as (e & p' & Hrun & He & _ & _ & _ & Hnew).
  exists e, p'. split; [exact Hrun|]. split; [exact He|].
  cbn [progress_db empty_platform] in Hnew. rewrite lookup_empty in Hnew.
  subst e. split; reflexivity.
Defined.

(** ** What the registries keep true *)

Lemma od_store_elem {V} k (v : V) d k' v' :
  (k', v') ∈ od_store k v d -> (k', v') = (k, v) \/ (k', v') ∈ d.
Proof.
  induction d as [|[k0 v0] d IH]; cbn [od_store].
  - rewrite list_elem_of_singleton. auto.
  - destruct (String.eqb_spec k0 k) as [->|Hne]; rewrite !elem_of_cons.
    + tauto.
    + intros [H|H]; [tauto|]. destruct (IH H); tauto.
Qed.

Lemma od_store_NoDup {V} k (v : V) d :
  NoDup d.*1 -> NoDup (od_store k v d).*1.
Proof.
  intros Hnd. destruct (od_lookup k d) as [v0|] eqn:Hl.
  - rewrite od_store_keys_present; [exact Hnd | by rewrite Hl].
  - rewrite (od_store_keys _ _ _ Hl), fmap_app. cbn.
    apply NoDup_app. split; [exact Hnd|]. split.
    + intros x Hx Hx'. apply list_elem_of_singleton in Hx'. subst x.
      by apply od_lookup_None in Hl.
    + apply NoDup_singleton.
Qed.

Lemma register_user_ok username email token now p :
  platform_ok p -> platform_ok (register_user username email token now p).2.
Proof.
  intros (Hnd & Hus & Hpr). unfold platform_ok, register_user.
  cbn [snd users_db progress_db set_users_db].
  split; [by apply od_store_NoDup|]. split; [|exact Hpr].
  intros tok u [[= -> ->]|Hin]%od_store_elem; [|by apply Hus].
  cbn. split; [reflexivity|]. unfold valid_levels. apply elem_of_cons. by left.
Qed.

Lemma update_module_progress_ok u m pr ts c now p :
  platform_ok p -> platform_ok (update_module_progress u m pr ts c now p).2.
Proof.
  intros Hp. pose proof Hp as (Hnd & Hus & Hpr).
  destruct (od_lookup m MODULES_DATA) as [info|] eqn:Hm.
  2:{ unfold update_module_progress. rewrite Hm. exact Hp. }
  destruct (update_module_progress_known u m pr ts c now p info Hm)
    as (e & -> & Hprog & _ & Hcase).
  cbn [snd]. unfold platform_ok. cbn [users_db progress_db set_progress_db].
  split; [exact Hnd|]. split; [exact Hus|].
  intros k e'. destruct (decide (k = progress_key u m)) as [->|Hne].
  2:{ rewrite lookup_insert_ne by done. apply Hpr. }
  rewrite lookup_insert_eq. intros [= <-].
  destruct (progress_db p !! progress_key u m) as [old|] eqn:Hold.
  - destruct Hcase as (Hu & Hmod & Htot & Hcomp & _ & Hcp).
    destruct (Hpr _ _ Hold) as (Hkey & (info' & Hinfo' & Htot' & _) & Hnd' & Hne').
    assert (Hsame : mp_module_id old = m).
    { symmetry. eapply (progress_key_inj u m (mp_user_id old) (mp_module_id old)).
      - by eapply module_has_no_underscore.
      - by eapply module_has_no_underscore.
      - exact Hkey. }
    unfold progress_entry_ok. rewrite Hu, Hmod. split; [exact Hkey|].
    split.
    { exists info. rewrite Hsame. split; [exact Hm|]. split.
      - rewrite Htot, Htot'. rewrite Hsame, Hm in Hinfo'. by injection Hinfo' as <-.
      - rewrite Hprog, Hcomp. intros Hle%Z.leb_le. rewrite Hle. apply orb_true_r. }
    rewrite Hcp. destruct c as [c'|]; [|by split].
    destruct (String.eqb_spec c' EmptyString) as [->|Hc']; cbn [negb andb]; [by split|].
    destruct (str_in c' (mp_checkpoints_completed old)) eqn:Hin;
      cbn [negb]; [by split|].
    apply str_in_false_iff in Hin. split.
    + apply NoDup_app. split; [exact Hnd'|]. split; [|apply NoDup_singleton].
      intros x Hx Hx'. apply list_elem_of_singleton in Hx'. by subst x.
    + rewrite elem_of_app, list_elem_of_singleton. intros [H|H]; [done|congruence].
  - destruct Hcase as (Hu & Hmod & Htot & Hcomp & _ & Hcp).
    unfold progress_entry_ok. rewrite Hu, Hmod, Hcp. split; [reflexivity|].
    split; [|split; [constructor | apply not_elem_of_nil]].
    exists info. split; [exact Hm|]. split; [exact Htot|].
    rewrite Hprog, Hcomp. by intros Hle%Z.leb_le.
Qed.

Lemma update_user_level_ok user_id lvl p :
  platform_ok p -> platform_ok (update_user_level user_id lvl p).2.
Proof.
  intros Hp. pose proof Hp as (Hnd & Hus & Hpr). unfold update_user_level.
  destruct (od_lookup user_id (users_db p)) as [user|] eqn:Hu; [|exact Hp].
  destruct (str_in lvl _) eqn:Hl; cbn [negb]; [|exact Hp].
  unfold platform_ok. cbn [snd users_db progress_db set_users_db].
  split; [by apply od_store_NoDup|]. split; [|exact Hpr].
  intros tok u [[= -> ->]|Hin]%od_store_elem; [|by apply Hus].
  cbn. split; [|by apply str_in_true].
  by apply (Hus _ _ (od_lookup_elem _ _ _ Hu)).
Qed.

Lemma serve_ok r p : platform_ok p -> platform_ok (serve r p).
Proof.
  intros Hp. destruct r as [u e t n|u t n|u l|u m pr ts c n]; cbn [serve].
  - by apply register_user_ok.
  - unfold login_user. destruct (List.find _ _) as [[tok usr]|];
      [exact Hp | by apply register_user_ok].
  - by apply update_user_level_ok.
  - by apply update_module_progress_ok.
Qed.

Lemma serve_all_ok rs : forall p, platform_ok p -> platform_ok (serve_all rs p).
Proof.
  induction rs as [|r rs IH]; intros p Hp; [exact Hp|].
  cbn [serve_all foldl]. apply IH. by apply serve_ok.
Qed.

Lemma empty_platform_ok : platform_ok empty_platform.
Proof.
  unfold platform_ok, empty_platform. cbn. split; [constructor|]. split.
  - intros tok u H. by apply elem_of_nil in H.
  - intros k e. by rewrite lookup_empty.
Qed.

(** X18.  From process start, whatever is asked of the platform: tokens are
    pairwise distinct, every user carries its own token as id and a valid
    level, and every progress entry sits under the key of its own user
    and module, belongs to a module of the catalogue with that module's
    checkpoint count, is completed whenever its progress reaches that
    count, and lists its checkpoints without repetition and without the
    empty string. *)
Theorem registries_stay_consistent rs :
  platform_ok (serve_all rs empty_platform).
Proof. apply serve_all_ok, empty_platform_ok. Qed.

(** ** Progress over successive updates *)

Lemma serve_all_snoc rs r p : serve_all (rs ++ [r]) p = serve r (serve_all rs p).
Proof. unfold serve_all. by rewrite foldl_app. Qed.

Lemma updates_for_snoc u m rs r :
  updates_for u m (rs ++ [r]) = (updates_for u m rs ++ updates_for u m [r])%list.
Proof. unfold updates_for. by rewrite omap_app. Qed.

Lemma sum_Z_snoc l x : sum_Z (l ++ [x]) = (sum_Z l + x)%Z.
Proof.
  unfold sum_Z. induction l as [|y l IH]; cbn [foldr app]; [lia|].
  fold (l ++ [x])%list. rewrite IH. lia.
Qed.

(** Requests other than an update of [u] on [m] leave the entry of [u]
    and [m] alone. *)
Lemma serve_keeps_entry u m info r p :
  od_lookup m MODULES_DATA = Some info ->
  updates_for u m [r] = [] ->
  progress_db (serve r p) !! progress_key u m = progress_db p !! progress_key u m.
Proof.
  intros Hm Hr. destruct r as [u' e t n|u' t n|u' l|u' m' pr ts c n]; cbn [serve].
  - reflexivity.
  - unfold login_user. by destruct (List.find _ _) as [[tok usr]|].
  - unfold update_user_level.
    destruct (od_lookup u' (users_db p)); [|reflexivity].
    by destruct (negb _).
  - destruct (od_lookup m' MODULES_DATA) as [info'|] eqn:Hm'.
    2:{ unfold update_module_progress. by rewrite Hm'. }
    destruct (update_module_progress_known u' m' pr ts c n p info' Hm')
      as (e & -> & _).
    cbn [snd progress_db set_progress_db]. apply lookup_insert_ne.
    intros Hkey.
    apply progress_key_inj in Hkey as [-> ->];
      [|by eapply module_has_no_underscore..].
    unfold updates_for in Hr. cbn in Hr.
    by rewrite decide_True in Hr.
Qed.

(** X19.  Over any requests from process start, for a module of the catalogue:
    without an update of the user on the module there is no entry;
    otherwise the entry holds the progress of the last update, the sum of
    the [time_spent] of all updates but the first, and it is completed
    exactly if the progress of some update reached the checkpoint count
    of the module, whatever came later. *)
Theorem progress_over_updates u m info rs :
  od_lookup m MODULES_DATA = Some info ->
  let p := serve_all rs empty_platform in
  match updates_for u m rs with
  | [] => progress_db p !! progress_key u m = None
  | first :: later =>
      exists e,
        progress_db p !! progress_key u m = Some e /\
        mp_user_id e = u /\
        mp_module_id e = m /\
        mp_progress e = (List.last later first).1 /\
        mp_time_spent e = sum_Z later.*2 /\
        (mp_completed e = true <->
         Exists (fun x : Z * Z => (mi_checkpoints info <= x.1)%Z) (first :: later))
  end.
Proof.
  intros Hm. cbn zeta. induction rs as [|r rs IH] using rev_ind.
  - cbn. apply lookup_empty.
  - rewrite serve_all_snoc, updates_for_snoc.
    destruct (updates_for u m [r]) as [|x tl] eqn:Hr.
    { rewrite app_nil_r, (serve_keeps_entry u m info r _ Hm Hr). exact IH. }
    destruct r as [u' e' t n|u' t n|u' l|u' m' pr ts c n];
      try discriminate Hr.
    unfold updates_for in Hr. cbn in Hr.
    destruct (decide (u' = u /\ m' = m)) as [[-> ->]|]; [|discriminate].
    injection Hr as <- <-. cbn [serve].
    destruct (update_module_progress_known u m pr ts c n
                (serve_all rs empty_platform) info Hm)
      as (e & -> & Hprog & _ & Hcase).
    cbn [snd progress_db set_progress_db]. rewrite lookup_insert_eq.
    destruct (updates_for u m rs) as [|first later].
    + rewrite IH in Hcase. destruct Hcase as (Hu & Hmod & _ & Hcomp & Htime & _).
      cbn [app]. exists e. split; [reflexivity|].
      split; [exact Hu|]. split; [exact Hmod|]. split; [exact Hprog|].
      split; [exact Htime|]. rewrite Hcomp, Exists_cons, Exists_nil. cbn [fst].
      rewrite Z.leb_le. tauto.
    + destruct IH as (old & Hold & Hu & Hmod & _ & Htime & Hcomp).
      rewrite Hold in Hcase.
      destruct Hcase as (Hu' & Hmod' & _ & Hcomp' & Htime' & _).
      cbn [app]. exists e. split; [reflexivity|].
      split; [congruence|]. split; [congruence|]. split.
      { rewrite last_last. exact Hprog. }
      split.
      { rewrite fmap_app. change ([(pr, ts)].*2) with [ts].
        rewrite sum_Z_snoc, Htime', Htime. reflexivity. }
      rewrite Hcomp', orb_true_iff, Hcomp, Z.leb_le.
      rewrite (Exists_app _ (first :: later) [(pr, ts)]).
      rewrite (Exists_cons _ (pr, ts) []), Exists_nil. cbn [fst]. tauto.
Qed.

Lemma progress_over_updates_witness :
  let p := serve_all [UpdateProgress "ann" "hft" 10 30 None 1;
                      UpdateProgress "ann" "hft" 2 15 None 2;
                      UpdateProgress "ann" "hft" 4 20 None 3] empty_platform in
  exists e,
    progress_db p !! "ann_hft" = Some e /\
    mp_progress e = 4%Z /\
    mp_time_spent e = 35%Z /\
    mp_completed e = true.
Proof.
  intros p.
  destruct (progress_over_updates "ann" "hft"
              (mkModuleInfo "advanced" "High-Frequency Trading" 10 85)
              [UpdateProgress "ann" "hft" 10 30 None 1;
               UpdateProgress "ann" "hft" 2 15 None 2;
               UpdateProgress "ann" "hft" 4 20 None 3] eq_refl)
    as (e & He & _ & _ & Hprog & Htime & Hcomp).
  exists e. split; [exact He|]. split; [exact Hprog|]. split; [exact Htime|].
  apply Hcomp. left. cbn. lia.
Defined.

(** ** The progress report *)

(** The loop of lines 234-238 counts a module only when the module id
    itself is a key of [user_progress]. *)
Lemma level_loop_no_key modules up : forall lp lt,
  Forall (fun e : string * ModuleInfo => up !! e.1 = None) modules ->
  level_loop modules up lp lt = level_loop modules ∅ lp lt.
Proof.
  induction modules as [|[mid info] modules IH]; intros lp lt Hall;
    [reflexivity|].
  inversion Hall as [|? ? Hnone Hrest]; subst. cbn [fst] in Hnone.
  cbn [level_loop]. rewrite Hnone, lookup_empty.
  destruct (increment (mi_level info) lt) as [lt'|e]; cbn [obind]; [|reflexivity].
  by apply IH.
Qed.

Lemma filtered_progress_key_absent uid p mid info :
  platform_ok p ->
  od_lookup mid MODULES_DATA = Some info ->
  filter (fun kv : string * ModuleProgress => mp_user_id kv.2 = uid)
         (progress_db p) !! mid = None.
Proof.
  intros (_ & _ & Hpr) Hm.
  destruct (filter _ _ !! mid) as [e|] eqn:He; [|reflexivity].
  apply map_lookup_filter_Some in He as [He _].
  destruct (Hpr _ _ He) as (Hkey & _).
  pose proof (module_has_no_underscore _ _ Hm) as Hno.
  rewrite Hkey, progress_key_has_underscore in Hno. discriminate.
Qed.

Lemma modules_keys_known :
  Forall (fun e : string * ModuleInfo => is_Some (od_lookup e.1 MODULES_DATA))
         MODULES_DATA.
Proof. repeat constructor; by eexists. Qed.

(** X20.  Over any requests from process start, the progress report of a user
    never raises, counts the completed entries of that user, and reports
    fifteen modules, five per level; but its [level_progress] is zero at
    every level whatever the user has completed, because the loop looks
    the entries up by module id while they are stored under
    [user_id_module_id]. *)
Theorem level_progress_is_always_zero rs uid :
  let p := serve_all rs empty_platform in
  let mine :=
    filter (fun kv : string * ModuleProgress => mp_user_id kv.2 = uid)
           (progress_db p) in
  exists r,
    get_user_progress uid p = Return r /\
    gp_level_progress r = zero_counters /\
    gp_level_totals r = five_per_level /\
    gp_total_modules r = 15%Z /\
    gp_modules r = mine /\
    gp_completed_modules r
    = Z.of_nat (length (List.filter (fun kv : string * ModuleProgress =>
                                       mp_completed kv.2)
                                    (map_to_list mine))) /\
    gp_overall_progress r
    = round1 (inject_Z (gp_completed_modules r) / 15 * 100).
Proof.
  intros p mine. pose proof (serve_all_ok rs _ empty_platform_ok) as Hok.
  fold p in Hok. unfold get_user_progress. fold mine.
  rewrite level_loop_no_key.
  2:{ eapply Forall_impl; [apply modules_keys_known|].
      intros [mid info] [info' Hm]. cbn [fst] in *.
      by eapply filtered_progress_key_absent. }
  assert (Hloop : level_loop MODULES_DATA ∅ zero_counters zero_counters
                  = Return (zero_counters, five_per_level))
    by (vm_compute; reflexivity).
  rewrite Hloop. cbn [obind].
  change (Z.of_nat (length MODULES_DATA)) with 15%Z.
  change (truediv ?x (inject_Z 15)) with (Return (x / inject_Z 15)).
  cbn [obind]. eexists. split; [reflexivity|]. cbn. repeat split; reflexivity.
Qed.

Lemma level_progress_is_always_zero_witness :
  let p := serve_all [UpdateProgress "ann" "hft" 10 30 None 1] empty_platform in
  exists r,
    get_user_progress "ann" p = Return r /\
    gp_completed_modules r = 1%Z /\
    gp_level_progress r = zero_counters.
Proof.
  intros p.
  destruct (level_progress_is_always_zero
              [UpdateProgress "ann" "hft" 10 30 None 1] "ann")
    as (r & Hrun & Hzero & _ & _ & _ & Hcount & _).
  exists r. split; [exact Hrun|]. split; [|exact Hzero].
  rewrite Hcount. vm_compute. reflexivity.
Defined.

(** ** Analytics *)

Lemma increment_Some key counters n :
  counters !! key = Some n ->
  increment key counters = Return (<[key := (n + 1)%Z]> counters).
Proof. intros H. unfold increment, getitem. by rewrite H. Qed.

Lemma users_at_level_cons lvl tok u users :
  users_at_level lvl ((tok, u) :: users)
  = ((if String.eqb (us_current_level u) lvl then 1 else 0)
     + users_at_level lvl users)%Z.
Proof.
  unfold users_at_level. cbn [List.filter snd].
  destruct (us_current_level u =? lvl); cbn [length]; lia.
Qed.

(** The loop of lines 535-536 counts the users level by level, as long as
    every level it meets is a key of the counters. *)
Lemma distribution_loop_counts users : forall counters,
  Forall (fun e : string * User => us_current_level e.2 ∈ valid_levels) users ->
  (forall lvl, lvl ∈ valid_levels -> is_Some (counters !! lvl)) ->
  exists counters',
    distribution_loop users counters = Return counters' /\
    forall lvl, counters' !! lvl
                = (fun n => (n + users_at_level lvl users)%Z) <$> counters !! lvl.
Proof.
  induction users as [|[tok u] users IH]; intros counters Hall Hkeys.
  - exists counters. split; [reflexivity|]. intros lvl.
    destruct (counters !! lvl); cbn; [|reflexivity].
    f_equal. unfold users_at_level. cbn. lia.
  - inversion Hall as [|? ? Hu Hrest]; subst. cbn [snd] in Hu.
    destruct (Hkeys _ Hu) as [n Hn].
    destruct (IH (<[us_current_level u := (n + 1)%Z]> counters) Hrest)
      as (counters' & Hrun & Hcount).
    { intros lvl Hlvl. destruct (decide (lvl = us_current_level u)) as [->|Hne].
      - rewrite lookup_insert_eq. by eexists.
      - rewrite lookup_insert_ne by done. by apply Hkeys. }
    exists counters'. split.
    { cbn [distribution_loop]. rewrite (increment_Some _ _ _ Hn). exact Hrun. }
    intros lvl. rewrite Hcount, users_at_level_cons.
    destruct (String.eqb_spec (us_current_level u) lvl) as [<-|Hne].
    + rewrite lookup_insert_eq, Hn. cbn. f_equal. lia.
    + rewrite lookup_insert_ne by done.
      destruct (counters !! lvl); cbn; [f_equal; lia | reflexivity].
Qed.

Lemma users_at_level_total users :
  Forall (fun e : string * User => us_current_level e.2 ∈ valid_levels) users ->
  (users_at_level "beginner" users + users_at_level "intermediate" users
   + users_at_level "advanced" users)%Z
  = Z.of_nat (length users).
Proof.
  induction 1 as [|[tok u] users Hu _ IH]; [reflexivity|].
  rewrite !users_at_level_cons. cbn [length snd] in *.
  unfold valid_levels in Hu. rewrite !elem_of_cons, elem_of_nil in Hu.
  destruct Hu as [-> | [-> | [-> | []]]]; cbn; lia.
Qed.

Lemma round1_le_100 x : x <= 100 -> round1 x <= 100.
Proof.
  intros Hx. unfold round1, Qdiv. change (/ 10) with (1 # 10).
  assert (H : (round_half_even (x * 10) <= 1000)%Z).
  { destruct (round_half_even_close (x * 10)) as [_ Hhi].
    assert (Hlt : inject_Z (round_half_even (x * 10)) < inject_Z 1001).
    { change (inject_Z 1001) with 1001. lra. }
    rewrite <- Zlt_Qlt in Hlt. lia. }
  rewrite Zle_Qle in H. change (inject_Z 1000) with 1000 in H. lra.
Qed.

Lemma round1_nonneg x : 0 <= x -> 0 <= round1 x.
Proof.
  intros Hx. unfold round1, Qdiv. change (/ 10) with (1 # 10).
  assert (H : (0 <= round_half_even (x * 10))%Z)
    by (apply round_half_even_nonneg; lra).
  rewrite Zle_Qle in H. change (inject_Z 0) with 0 in H. lra.
Qed.

(** X21.  Over any requests from process start and for any simulator world, the
    analytics never raise: the level of every user is a key of the
    distribution, which counts the users level by level and adds up to
    the number of users, and the completion rate divides by at least 1
    and lies between 0 and 100. *)
Theorem analytics_never_raise rs w :
  let p := serve_all rs empty_platform in
  exists r,
    get_platform_analytics p w = Return r /\
    an_total_users r = Z.of_nat (length (users_db p)) /\
    an_total_modules r = 15%Z /\
    an_total_progress_entries r = Z.of_nat (size (progress_db p)) /\
    an_active_simulators r = Z.of_nat (size (simulator_db w)) /\
    an_total_trades r = Z.of_nat (length (trades_db w)) /\
    (forall lvl, lvl ∈ valid_levels ->
                 an_level_distribution r !! lvl
                 = Some (users_at_level lvl (users_db p))) /\
    (users_at_level "beginner" (users_db p)
     + users_at_level "intermediate" (users_db p)
     + users_at_level "advanced" (users_db p))%Z = an_total_users r /\
    0 <= an_completion_rate r /\
    an_completion_rate r <= 100.
Proof.
  intros p. pose proof (serve_all_ok rs _ empty_platform_ok) as Hok.
  fold p in Hok. destruct Hok as (_ & Hus & _).
  assert (Hlevels : Forall (fun e : string * User =>
                              us_current_level e.2 ∈ valid_levels) (users_db p)).
  { apply Forall_forall. intros [tok u] Hin. by apply (Hus _ _ Hin). }
  destruct (distribution_loop_counts (users_db p) zero_counters Hlevels)
    as (counters & Hrun & Hcount).
  { intros lvl. unfold valid_levels. rewrite !elem_of_cons, elem_of_nil.
    intros [-> | [-> | [-> | []]]]; by eexists. }
  unfold get_platform_analytics. rewrite Hrun. cbn [obind].
  set (completed := Z.of_nat (length (List.filter _ (map_to_list (progress_db p))))).
  set (entries := Z.of_nat (size (progress_db p))).
  assert (Hcompleted : (0 <= completed <= entries)%Z).
  { subst completed entries. split; [lia|].
    apply inj_le. rewrite <- length_map_to_list.
    rewrite <- (List.filter_length
                  (fun kv : string * ModuleProgress => mp_completed kv.2)
                  (map_to_list (progress_db p))).
    apply Nat.le_add_r. }
  assert (Hden : (0 < Z.max entries 1)%Z) by lia.
  unfold truediv.
  rewrite (proj2 (Qis_zero_inject_Z_false (Z.max entries 1))) by lia.
  cbn [obind]. eexists. split; [reflexivity|].
  cbn [an_total_users an_total_modules an_total_progress_entries
       an_active_simulators an_total_trades an_level_distribution
       an_completion_rate].
  split; [reflexivity|]. split; [reflexivity|]. split; [reflexivity|].
  split; [reflexivity|]. split; [reflexivity|]. split.
  { intros lvl Hlvl. rewrite Hcount. revert Hlvl. unfold valid_levels.
    rewrite !elem_of_cons, elem_of_nil.
    intros [-> | [-> | [-> | []]]]; cbn; f_equal; lia. }
  split; [by apply users_at_level_total|].
  assert (Hd : 0 < inject_Z (Z.max entries 1))
    by (change 0 with (inject_Z 0); rewrite <- Zlt_Qlt; lia).
  assert (Hc0 : 0 <= inject_Z completed)
    by (change 0 with (inject_Z 0); rewrite <- Zle_Qle; lia).
  assert (Hc1 : inject_Z completed <= inject_Z (Z.max entries 1))
    by (rewrite <- Zle_Qle; lia).
  assert (Hr0 : 0 <= inject_Z completed / inject_Z (Z.max entries 1)).
  { apply Qle_shift_div_l; [exact Hd|]. lra. }
  assert (Hr1 : inject_Z completed / inject_Z (Z.max entries 1) <= 1).
  { apply Qle_shift_div_r; [exact Hd|]. lra. }
  split; [apply round1_nonneg | apply round1_le_100]; lra.
Qed.

(** ** Buying and selling back *)



(** ** The newest trade on top *)

Lemma sort_newest_last t l :
  Forall (fun u => (te_timestamp u < te_timestamp t)%Z) l ->
  sort_by_timestamp_desc (l ++ [t]) = t :: sort_by_timestamp_desc l.
Proof.
  induction 1 as [|u l Hu _ IH]; [reflexivity|].
  cbn [sort_by_timestamp_desc foldr app].
  fold (sort_by_timestamp_desc (l ++ [t])). fold (sort_by_timestamp_desc l).
  rewrite IH. cbn [insert_desc].
  by rewrite (proj2 (Z.leb_gt _ _) Hu).
Qed.

(** X12.  A trade journalled with a timestamp later than all earlier trades of
    its user comes first in that user's history, ahead of the history as
    it was; the histories of the other users do not change. *)
Theorem newest_trade_comes_first uid journal t :
  te_user_id t = uid ->
  Forall (fun u => te_user_id u = uid -> (te_timestamp u < te_timestamp t)%Z)
         journal ->
  history_of uid (journal ++ [t]) = t :: history_of uid journal /\
  forall other, other <> uid ->
                history_of other (journal ++ [t]) = history_of other journal.
Proof.
  intros Hu Hall. unfold history_of. rewrite !filter_app, !filter_cons, !filter_nil.
  split.
  - rewrite decide_True by exact Hu. apply sort_newest_last.
    apply Forall_forall. intros u Hin%list_elem_of_filter.
    destruct Hin as [Huid Hin]. rewrite Forall_forall in Hall. by apply Hall.
  - intros other Hother. rewrite !filter_app, !filter_cons, !filter_nil.
    rewrite decide_False by congruence. by rewrite app_nil_r.
Qed.

Lemma newest_trade_comes_first_witness :
  history_of "u" (trades_db two_trades_world)
  = [trade_of "u" (market_order "buy" "AAPL" 1) 175.50 "t2" 2;
     trade_of "u" (market_order "buy" "AAPL" 1) 175.50 "t1" 1].
Proof.
  change (trades_db two_trades_world) with
    ([trade_of "u" (market_order "buy" "AAPL" 1) 175.50 "t1" 1]
     ++ [trade_of "u" (market_order "buy" "AAPL" 1) 175.50 "t2" 2])%list.
  rewrite (proj1 (newest_trade_comes_first "u"
                    [trade_of "u" (market_order "buy" "AAPL" 1) 175.50 "t1" 1]
                    (trade_of "u" (market_order "buy" "AAPL" 1) 175.50 "t2" 2)
                    eq_refl
                    ltac:(repeat constructor; intros _; cbn; lia))).
  reflexivity.
Defined.
